(** * viralcn: the AI orchestration and audit pipeline

    A shallow embedding of [services/geminiService.ts] (provider adapter,
    prompt builders, tagging, copy generation, audit, image synthesis) and
    of the two handlers [handleGenerate] / [handleReAudit] of
    [components/GenerationTab.tsx], followed by the properties proved
    about them.

    JavaScript strings are sequences of UTF-16 code units; asynchronous
    functions are run to settlement in a trace monad whose state is the
    chronological list of observable events (provider calls, console
    output, alerts, React state updates). *)

From Stdlib Require Import String Ascii NArith ZArith List Bool Lia.
From Stdlib Require Import DecimalString.
Import ListNotations.

Local Open Scope N_scope.

(* ================================================================== *)
(** ** JavaScript strings *)
(* ================================================================== *)

Module JS.

Definition code_unit := N.
Definition jsstring := list code_unit.

(** Continuation byte payload of a UTF-8 sequence. *)
Definition cont (b : N) : N := N.land b 63.

(** UTF-16 encoding of one code point. *)
Definition encode_cp (cp : N) : jsstring :=
  if cp <? 65536 then [cp]
  else let c := cp - 65536 in
       [55296 + N.shiftr c 10; 56320 + N.land c 1023].

(** Decoding of the UTF-8 bytes of a source literal into code units. *)
Fixpoint utf16_bytes (bs : list N) : jsstring :=
  match bs with
  | [] => []
  | b :: r =>
    if b <? 128 then b :: utf16_bytes r
    else if b <? 224 then
      match r with
      | b1 :: r1 => encode_cp (N.lor (N.shiftl (N.land b 31) 6) (cont b1)) ++ utf16_bytes r1
      | _ => b :: utf16_bytes r
      end
    else if b <? 240 then
      match r with
      | b1 :: b2 :: r2 =>
        encode_cp (N.lor (N.shiftl (N.land b 15) 12)
                     (N.lor (N.shiftl (cont b1) 6) (cont b2))) ++ utf16_bytes r2
      | _ => b :: utf16_bytes r
      end
    else
      match r with
      | b1 :: b2 :: b3 :: r3 =>
        encode_cp (N.lor (N.shiftl (N.land b 7) 18)
                     (N.lor (N.shiftl (cont b1) 12)
                        (N.lor (N.shiftl (cont b2) 6) (cont b3)))) ++ utf16_bytes r3
      | _ => b :: utf16_bytes r
      end
  end.

(** A string literal of the source, as the engine holds it. *)
Definition utf16 (s : string) : jsstring :=
  utf16_bytes (map N_of_ascii (list_ascii_of_string s)).

(** The double quote, written apart from the literals around it. *)
Definition dquote : jsstring := [34].

(** [s.includes(sub)] on strings. *)
Fixpoint starts_with (sub s : jsstring) : bool :=
  match sub, s with
  | [], _ => true
  | x :: sub', y :: s' => (x =? y) && starts_with sub' s'
  | _ :: _, [] => false
  end.

Fixpoint includes_text (s sub : jsstring) : bool :=
  starts_with sub s
  || match s with
     | [] => false
     | _ :: r => includes_text r sub
     end.

Fixpoint eqb (a b : jsstring) : bool :=
  match a, b with
  | [], [] => true
  | x :: a', y :: b' => (x =? y) && eqb a' b'
  | _, _ => false
  end.

(** [s.length > 0], also the truthiness of a string. *)
Definition nonempty (s : jsstring) : bool :=
  match s with [] => false | _ => true end.

(** [s.substring(0, n)]. *)
Definition substring0 (n : nat) (s : jsstring) : jsstring := firstn n s.

(** WhiteSpace and LineTerminator code units, as [String.prototype.trim]
    strips them. *)
Definition isWhiteSpace (c : code_unit) : bool :=
  (c =? 9) || (c =? 10) || (c =? 11) || (c =? 12) || (c =? 13) || (c =? 32)
  || (c =? 160) || (c =? 5760) || ((8192 <=? c) && (c <=? 8202))
  || (c =? 8232) || (c =? 8233) || (c =? 8239) || (c =? 8287)
  || (c =? 12288) || (c =? 65279).

Fixpoint trimStart (s : jsstring) : jsstring :=
  match s with
  | c :: r => if isWhiteSpace c then trimStart r else s
  | [] => []
  end.

Definition trimEnd (s : jsstring) : jsstring := rev (trimStart (rev s)).

Definition trim (s : jsstring) : jsstring := trimEnd (trimStart s).

(** [s.replace(/c/g, d)] for a one-unit pattern and replacement. *)
Definition replaceAll (c d : code_unit) (s : jsstring) : jsstring :=
  map (fun x => if x =? c then d else x) s.

(** [s.split(sep)] for a one-unit separator: never the empty array. *)
Fixpoint split (sep : code_unit) (s : jsstring) : list jsstring :=
  match s with
  | [] => [[]]
  | c :: r =>
    if c =? sep then [] :: split sep r
    else match split sep r with
         | h :: t => (c :: h) :: t
         | [] => [[c]]
         end
  end.

(** [a.join(sep)] on an array of strings. *)
Fixpoint join (sep : jsstring) (a : list jsstring) : jsstring :=
  match a with
  | [] => []
  | [x] => x
  | x :: r => x ++ sep ++ join sep r
  end.

(** [a.includes(x)] on an array of strings. *)
Definition includes (a : list jsstring) (x : jsstring) : bool :=
  existsb (eqb x) a.

(** [a.slice(0, n)]. *)
Definition slice0 {A} (n : nat) (a : list A) : list A := firstn n a.

(** Decimal rendering of a non-negative integer. *)
Definition decimal (n : N) : jsstring :=
  map N_of_ascii (list_ascii_of_string (NilZero.string_of_uint (N.to_uint n))).

(** [a || b] on optional strings: [undefined] and the empty string are
    falsy. *)
Definition or_else (a : option jsstring) (b : jsstring) : jsstring :=
  match a with
  | Some s => if nonempty s then s else b
  | None => b
  end.

End JS.

Import JS.

(* ================================================================== *)
(** ** JSON values and [JSON.parse] *)
(* ================================================================== *)

(** A JSON number, kept as the decimal of its text,
    [(-1)^neg * mant * 10^exp10], with no trailing zero in [mant]; it
    stands for the double nearest to that decimal.  The model follows
    the rounding where a value depends on it through truthiness: a
    decimal that rounds to zero is the number zero. *)
Record jsnum := { neg : bool; mant : N; exp10 : Z }.

#[local] Set Warnings "-register-all".
Inductive json :=
| JNull
| JBool (b : bool)
| JNum (n : jsnum)
| JStr (s : jsstring)
| JArr (elems : list json)
| JObj (props : list (jsstring * json)).

Module Json.

Definition num_of_N (n : N) : json := JNum {| neg := false; mant := n; exp10 := 0 |}.

(** Own property lookup [o.key] of an object literal. *)
Fixpoint lookup (key : jsstring) (props : list (jsstring * json)) : option json :=
  match props with
  | [] => None
  | (k, v) :: r => if JS.eqb k key then Some v else lookup key r
  end.

(** Definition of a property while an object is built: a repeated key
    keeps its place and takes the later value. *)
Fixpoint define (key : jsstring) (v : json) (props : list (jsstring * json))
  : list (jsstring * json) :=
  match props with
  | [] => [(key, v)]
  | (k, w) :: r => if JS.eqb k key then (k, v) :: r else (k, w) :: define key v r
  end.

(** The decimals whose nearest double is zero: those of magnitude at
    most [2^-1075], half the least positive double [2^-1074]; at exactly
    half the tie goes to the even neighbour, which is zero. *)
Definition rounds_to_zero (n : jsnum) : bool :=
  (mant n =? 0)
  || ((exp10 n <? 0)%Z && (Z.of_N (mant n) * 2 ^ 1075 <=? 10 ^ (- exp10 n))%Z).

(** Truthiness of a value: a number is falsy when it is zero. *)
Definition truthy (v : json) : bool :=
  match v with
  | JNull => false
  | JBool b => b
  | JNum n => negb (rounds_to_zero n)
  | JStr s => nonempty s
  | JArr _ | JObj _ => true
  end.

(** JSON insignificant whitespace: space, tab, line feed, carriage return. *)
Definition is_ws (c : code_unit) : bool :=
  (c =? 32) || (c =? 9) || (c =? 10) || (c =? 13).

Fixpoint skip_ws (s : jsstring) : jsstring :=
  match s with
  | c :: r => if is_ws c then skip_ws r else s
  | [] => []
  end.

Fixpoint strip_prefix (p s : jsstring) : option jsstring :=
  match p, s with
  | [], _ => Some s
  | x :: p', y :: s' => if x =? y then strip_prefix p' s' else None
  | _ :: _, [] => None
  end.

Definition is_digit (c : code_unit) : bool := (48 <=? c) && (c <=? 57).

(** Reads a run of decimal digits: value so far, number of digits read,
    rest of the input. *)
Fixpoint digits (s : jsstring) (acc : N) (count : nat) : N * nat * jsstring :=
  match s with
  | c :: r => if is_digit c then digits r (10 * acc + (c - 48)) (S count)
              else (acc, count, s)
  | [] => (acc, count, [])
  end.

Fixpoint normalize (fuel : nat) (m : N) (e : Z) : N * Z :=
  match fuel with
  | O => (m, e)
  | S f =>
    if m =? 0 then (0, 0%Z)
    else if m mod 10 =? 0 then normalize f (m / 10) (e + 1)%Z
    else (m, e)
  end.

Definition mk_num (negative : bool) (m : N) (e : Z) (ndigits : nat) : jsnum :=
  let '(m', e') := normalize (S ndigits) m e in
  {| neg := negative; mant := m'; exp10 := e' |}.

(** A JSON number: optional minus sign, integer part with no leading
    zero, optional fraction, optional exponent. *)
Definition parse_number (s : jsstring) : option (jsnum * jsstring) :=
  let '(negative, s1) :=
    match s with 45 :: r => (true, r) | _ => (false, s) end in
  let '(ip, ni, s2) := digits s1 0 O in
  match ni with
  | O => None
  | S _ =>
    let leading_zero :=
      match s1 with 48 :: _ => negb (Nat.eqb ni 1) | _ => false end in
    if leading_zero then None else
    let frac :=
      match s2 with
      | 46 :: r =>
        let '(m, nf, s3) := digits r ip O in
        match nf with O => None | S _ => Some (m, nf, s3) end
      | _ => Some (ip, O, s2)
      end in
    match frac with
    | None => None
    | Some (m, nf, s3) =>
      let nd := (ni + nf)%nat in
      let expo :=
        match s3 with
        | c :: r =>
          if (c =? 101) || (c =? 69) then
            let '(sgn, r1) :=
              match r with
              | 43 :: r' => (1%Z, r')
              | 45 :: r' => ((-1)%Z, r')
              | _ => (1%Z, r)
              end in
            let '(ev, ne, s4) := digits r1 0 O in
            match ne with O => None | S _ => Some ((sgn * Z.of_N ev)%Z, s4) end
          else Some (0%Z, s3)
        | [] => Some (0%Z, [])
        end in
      match expo with
      | None => None
      | Some (ev, s4) => Some (mk_num negative m (ev - Z.of_nat nf)%Z nd, s4)
      end
    end
  end.

Definition hex_digit (c : code_unit) : option N :=
  if is_digit c then Some (c - 48)
  else if (97 <=? c) && (c <=? 102) then Some (c - 87)
  else if (65 <=? c) && (c <=? 70) then Some (c - 55)
  else None.

(** The characters of a string after its opening quote, up to and
    without the closing one. *)
Fixpoint parse_string_body (s : jsstring) : option (jsstring * jsstring) :=
  match s with
  | [] => None
  | c :: r =>
    if c =? 34 then Some ([], r)
    else if c <? 32 then None
    else if c =? 92 then
      match r with
      | e :: r1 =>
        let simple (u : code_unit) :=
          match parse_string_body r1 with
          | Some (t, r') => Some (u :: t, r')
          | None => None
          end in
        if e =? 34 then simple 34
        else if e =? 92 then simple 92
        else if e =? 47 then simple 47
        else if e =? 98 then simple 8
        else if e =? 102 then simple 12
        else if e =? 110 then simple 10
        else if e =? 114 then simple 13
        else if e =? 116 then simple 9
        else if e =? 117 then
          match r1 with
          | h1 :: h2 :: h3 :: h4 :: r2 =>
            match hex_digit h1, hex_digit h2, hex_digit h3, hex_digit h4 with
            | Some a, Some b, Some c', Some d =>
              match parse_string_body r2 with
              | Some (t, r') => Some ((4096 * a + 256 * b + 16 * c' + d) :: t, r')
              | None => None
              end
            | _, _, _, _ => None
            end
          | _ => None
          end
        else None
      | [] => None
      end
    else
      match parse_string_body r with
      | Some (t, r') => Some (c :: t, r')
      | None => None
      end
  end.

(** Recursive descent over the JSON grammar; [fuel] bounds the nesting
    and the number of elements, and [parse] below gives enough of it. *)
Fixpoint parse_value (fuel : nat) (s : jsstring) : option (json * jsstring) :=
  match fuel with
  | O => None
  | S f =>
    let s := skip_ws s in
    match s with
    | [] => None
    | c :: r =>
      if c =? 110 then
        match strip_prefix (utf16 "null") s with
        | Some r' => Some (JNull, r') | None => None end
      else if c =? 116 then
        match strip_prefix (utf16 "true") s with
        | Some r' => Some (JBool true, r') | None => None end
      else if c =? 102 then
        match strip_prefix (utf16 "false") s with
        | Some r' => Some (JBool false, r') | None => None end
      else if c =? 34 then
        match parse_string_body r with
        | Some (t, r') => Some (JStr t, r') | None => None end
      else if c =? 91 then
        match skip_ws r with
        | 93 :: r' => Some (JArr [], r')
        | r' => parse_elements f r' []
        end
      else if c =? 123 then
        match skip_ws r with
        | 125 :: r' => Some (JObj [], r')
        | r' => parse_members f r' []
        end
      else
        match parse_number s with
        | Some (n, r') => Some (JNum n, r') | None => None end
    end
  end

with parse_elements (fuel : nat) (s : jsstring) (acc : list json)
  : option (json * jsstring) :=
  match fuel with
  | O => None
  | S f =>
    match parse_value f s with
    | None => None
    | Some (v, r) =>
      match skip_ws r with
      | 44 :: r' => parse_elements f r' (acc ++ [v])
      | 93 :: r' => Some (JArr (acc ++ [v]), r')
      | _ => None
      end
    end
  end

with parse_members (fuel : nat) (s : jsstring) (acc : list (jsstring * json))
  : option (json * jsstring) :=
  match fuel with
  | O => None
  | S f =>
    match skip_ws s with
    | 34 :: r =>
      match parse_string_body r with
      | None => None
      | Some (k, r1) =>
        match skip_ws r1 with
        | 58 :: r2 =>
          match parse_value f r2 with
          | None => None
          | Some (v, r3) =>
            match skip_ws r3 with
            | 44 :: r' => parse_members f r' (define k v acc)
            | 125 :: r' => Some (JObj (define k v acc), r')
            | _ => None
            end
          end
        | _ => None
        end
      end
    | _ => None
    end
  end.

(** [JSON.parse(text)]: [None] stands for the SyntaxError it throws. *)
Definition parse (text : jsstring) : option json :=
  match parse_value (2 * List.length text + 2) text with
  | Some (v, r) => match skip_ws r with [] => Some v | _ => None end
  | None => None
  end.

End Json.

(* ================================================================== *)
(** ** Conversions to string, as template literals perform them *)
(* ================================================================== *)

Module ToString.

Definition zeros (n : nat) : jsstring := repeat 48 n.

(** [Number::toString], on the decimal of the number: what the engine
    prints where that decimal is the shortest one of its double. *)
Definition of_num (x : jsnum) : jsstring :=
  if mant x =? 0 then utf16 "0"
  else
    let ds := decimal (mant x) in
    let k := Z.of_nat (List.length ds) in
    let n := (k + exp10 x)%Z in
    let body :=
      if ((k <=? n) && (n <=? 21))%Z then ds ++ zeros (Z.to_nat (n - k))
      else if ((0 <? n) && (n <=? 21))%Z then
        firstn (Z.to_nat n) ds ++ utf16 "." ++ skipn (Z.to_nat n) ds
      else if ((-6 <? n) && (n <=? 0))%Z then
        utf16 "0." ++ zeros (Z.to_nat (- n)) ++ ds
      else
        let e := (n - 1)%Z in
        let sign := if (e <? 0)%Z then utf16 "-" else utf16 "+" in
        let expo := utf16 "e" ++ sign ++ decimal (Z.to_N (Z.abs e)) in
        match ds with
        | [d] => [d] ++ expo
        | d :: r => [d] ++ utf16 "." ++ r ++ expo
        | [] => expo
        end in
    if neg x then utf16 "-" ++ body else body.

(** [String(v)] for a value that came out of [JSON.parse]. *)
Fixpoint of_json (v : json) : jsstring :=
  match v with
  | JNull => utf16 "null"
  | JBool true => utf16 "true"
  | JBool false => utf16 "false"
  | JNum n => of_num n
  | JStr s => s
  | JArr l =>
    join (utf16 ",")
      (map (fun x => match x with JNull => [] | _ => of_json x end) l)
  | JObj _ => utf16 "[object Object]"
  end.

(** An optional string inside a template literal. *)
Definition of_option (o : option jsstring) : jsstring :=
  match o with Some s => s | None => utf16 "undefined" end.

End ToString.

(* ================================================================== *)
(** ** types.ts *)
(* ================================================================== *)

Record Thought := {
  id : jsstring;
  content : jsstring;
  tags : list jsstring;
  createdAt : Z
}.

Inductive NicheType :=
| BEAUTY | FOOD | FASHION | TRAVEL | READING | GROWTH | RELATIONSHIPS | OTHER.

Definition NicheType_value (n : NicheType) : jsstring :=
  match n with
  | BEAUTY => utf16 "美妆博主"
  | FOOD => utf16 "美食博主"
  | FASHION => utf16 "时尚博主"
  | TRAVEL => utf16 "旅行博主"
  | READING => utf16 "读书博主"
  | GROWTH => utf16 "个人成长博主"
  | RELATIONSHIPS => utf16 "两性恋爱博主"
  | OTHER => utf16 "其他"
  end.

Inductive PlatformType :=
| XIAOHONGSHU | WECHAT_MOMENTS | DOUYIN | TIKTOK | INSTAGRAM | X.

Definition PlatformType_value (p : PlatformType) : jsstring :=
  match p with
  | XIAOHONGSHU => utf16 "小红书"
  | WECHAT_MOMENTS => utf16 "朋友圈"
  | DOUYIN => utf16 "抖音"
  | TIKTOK => utf16 "TikTok"
  | INSTAGRAM => utf16 "Instagram"
  | X => utf16 "X (Twitter)"
  end.

Definition PlatformType_eqb (a b : PlatformType) : bool :=
  match a, b with
  | XIAOHONGSHU, XIAOHONGSHU | WECHAT_MOMENTS, WECHAT_MOMENTS
  | DOUYIN, DOUYIN | TIKTOK, TIKTOK | INSTAGRAM, INSTAGRAM | X, X => true
  | _, _ => false
  end.

(** ['gemini' | 'deepseek' | 'qwen'] *)
Inductive AiProvider := gemini | deepseek | qwen.

Definition AiProvider_value (p : AiProvider) : jsstring :=
  match p with
  | gemini => utf16 "gemini"
  | deepseek => utf16 "deepseek"
  | qwen => utf16 "qwen"
  end.

Record GlobalSettings := {
  niche : NicheType;
  styleDescription : jsstring;
  customApiKey : option jsstring;
  aiProvider : option AiProvider
}.

Inductive StyleMode := manual | auto.

(** [GenerationConfig extends GlobalSettings]: the inherited fields are
    the [settings] component. *)
Record GenerationConfig := {
  settings : GlobalSettings;
  platform : PlatformType;
  refUrl : jsstring;
  selectedThoughtIds : list jsstring;
  styleMode : StyleMode;
  withImage : bool
}.

(** [GeneratedCopy].  [copy_content] and [audit] are declared [string]
    and [AuditScore]; the values stored there come unchecked out of
    [JSON.parse] and of the providers' replies, so they are kept as the
    run-time values they are. *)
Record GeneratedCopy := {
  copy_id : jsstring;
  config : GenerationConfig;
  copy_content : json;
  audit : json;
  imageUrl : option jsstring;
  copy_createdAt : Z
}.

(** The nine fields of [AuditScore]. *)
Definition score_fields : list jsstring :=
  [utf16 "headline"; utf16 "quality"; utf16 "emotion"; utf16 "trending";
   utf16 "viralPotential"; utf16 "overall"].

Definition list_fields : list jsstring :=
  [utf16 "suggestions"; utf16 "pros"; utf16 "sensitiveWords"].

Definition is_string (v : json) : bool :=
  match v with JStr _ => true | _ => false end.

Definition is_string_list (v : json) : bool :=
  match v with JArr l => forallb is_string l | _ => false end.

(** An integer from 0 to 100, on a number as [JSON.parse] builds it. *)
Definition is_score (v : json) : bool :=
  match v with
  | JNum n =>
    (mant n =? 0)
    || (negb (neg n) && (0 <=? exp10 n)%Z && (exp10 n <=? 2)%Z
        && (Z.of_N (mant n) * 10 ^ exp10 n <=? 100)%Z)
  | _ => false
  end.

Definition has_field (check : json -> bool) (v : json) (key : jsstring) : bool :=
  match v with
  | JObj props =>
    match Json.lookup key props with Some x => check x | None => false end
  | _ => false
  end.

(** The shape [AuditScore] of the data model: all nine fields present,
    six integer scores from 0 to 100, three lists of strings. *)
Definition is_AuditScore (v : json) : bool :=
  forallb (has_field is_score v) score_fields
  && forallb (has_field is_string_list v) list_fields.

(* ================================================================== *)
(** ** The providers' interfaces *)
(* ================================================================== *)

(** [responseSchema] of the primary provider. *)
Inductive Schema :=
| NUMBER (description : jsstring)
| STRING
| ARRAY (items : Schema) (description : jsstring)
| OBJECT (properties : list (jsstring * Schema)) (required : list jsstring).

Inductive Contents :=
| ContentsText (text : jsstring)
| ContentsParts (parts : list jsstring).

Record GenerateContentConfig := {
  systemInstruction : option jsstring;
  thinkingBudget : option N;
  responseMimeType : option jsstring;
  responseSchema : option Schema;
  aspectRatio : option jsstring
}.

Record GenerateContentParameters := {
  model : jsstring;
  contents : Contents;
  gen_config : option GenerateContentConfig
}.

(** [part.inlineData], with its optional [data]. *)
Record Blob := { data : option jsstring }.

Record Part := {
  part_text : option jsstring;
  inlineData : option Blob
}.

(** [candidates?.[i]]: its [content?.parts]. *)
Record Candidate := { candidate_parts : option (list Part) }.

Record GenerateContentResponse := {
  text : option jsstring;
  candidates : option (list Candidate)
}.

(** The client [new GoogleGenAI({ apiKey })]. *)
Record GoogleGenAI := { apiKey : jsstring }.

(** The second argument of [fetch]; [body] is the value handed to
    [JSON.stringify]. *)
Record RequestInit := {
  method : jsstring;
  headers : list (jsstring * jsstring);
  body : json
}.

Inductive exn :=
| Error (message : jsstring)
| TypeError (message : jsstring)
| SyntaxError (message : jsstring).

Definition exn_message (e : exn) : jsstring :=
  match e with Error m | TypeError m | SyntaxError m => m end.

(** A settled promise. *)
Inductive Settled (A : Type) :=
| Fulfilled (a : A)
| Rejected (e : exn).
Arguments Fulfilled {A} a.
Arguments Rejected {A} e.

(** A [fetch] response: status line and the outcome of reading the body. *)
Record Response := {
  status : N;
  read_body : Settled jsstring
}.

Definition ok (r : Response) : bool := (200 <=? status r) && (status r <=? 299).

(* ================================================================== *)
(** ** Events and the trace monad *)
(* ================================================================== *)

Inductive ViewState := view_config | view_result.

Inductive LogArg :=
| LogText (s : jsstring)
| LogError (e : exn).

Inductive Event :=
| GenerateContent (key : jsstring) (params : GenerateContentParameters)
| FetchCall (url : jsstring) (init : RequestInit)
| ConsoleError (label : jsstring) (arg : LogArg)
| Alert (msg : jsstring)
| RandomUUID
| DateNow
| SetTimeoutScrollTop (ms : N)
| SetIsGenerating (b : bool)
| SetIsAuditing (b : bool)
| SetCurrentCopy (c : GeneratedCopy)
| SetEditedResult (v : json)
| SetViewState (v : ViewState).

Definition Trace := list Event.

(** An asynchronous computation run to settlement: from the events so
    far to its outcome and the events extended by its own. *)
Definition Promise (A : Type) := Trace -> Settled A * Trace.

Definition ret {A} (a : A) : Promise A := fun t => (Fulfilled a, t).

Definition throw {A} (e : exn) : Promise A := fun t => (Rejected e, t).

Definition bind {A B} (m : Promise A) (k : A -> Promise B) : Promise B :=
  fun t =>
    match m t with
    | (Fulfilled a, t') => k a t'
    | (Rejected e, t') => (Rejected e, t')
    end.

(** [try { m } catch (e) { h e }] *)
Definition try_catch {A} (m : Promise A) (h : exn -> Promise A) : Promise A :=
  fun t =>
    match m t with
    | (Fulfilled a, t') => (Fulfilled a, t')
    | (Rejected e, t') => h e t'
    end.

(** [try { m } finally { f }] *)
Definition finally {A} (m : Promise A) (f : Promise unit) : Promise A :=
  fun t =>
    let '(r, t') := m t in
    match f t' with
    | (Fulfilled _, t'') => (r, t'')
    | (Rejected e, t'') => (Rejected e, t'')
    end.

Definition emit (e : Event) : Promise unit := fun t => (Fulfilled tt, t ++ [e]).

Definition settle {A} (r : Settled A) : Promise A := fun t => (r, t).

Declare Scope promise_scope.
Delimit Scope promise_scope with promise.
Notation "x <- m ;; k" := (bind m (fun x => k))
  (at level 61, m at next level, right associativity) : promise_scope.
Notation "m ;; k" := (bind m (fun _ => k))
  (at level 61, right associativity) : promise_scope.
Local Open Scope promise_scope.

(** The world outside the program.  A reply may depend on everything
    that happened before the call. *)
Record Env := {
  API_KEY : option jsstring;
  gemini_reply : Trace -> jsstring -> GenerateContentParameters
                 -> Settled GenerateContentResponse;
  fetch_reply : Trace -> jsstring -> RequestInit -> Settled Response;
  uuid_at : Trace -> jsstring;
  clock_at : Trace -> Z
}.

(** A provider whose reply depends on the request alone. *)
Definition deterministic (env : Env) : Prop :=
  forall t1 t2 key params,
    gemini_reply env t1 key params = gemini_reply env t2 key params.

(** Requests to the alternate providers and to the primary one. *)
Definition is_fetch (e : Event) : bool :=
  match e with FetchCall _ _ => true | _ => false end.

Definition is_gemini (e : Event) : bool :=
  match e with GenerateContent _ _ => true | _ => false end.

Definition console_error (label : jsstring) (arg : LogArg) : Promise unit :=
  emit (ConsoleError label arg).

Definition alert (msg : jsstring) : Promise unit := emit (Alert msg).

(* ================================================================== *)
(** ** services/geminiService.ts *)
(* ================================================================== *)

(** The line feed that the source writes as an escape. *)
Definition LF : jsstring := [10].

(** The third argument of [generateText]. *)
Record TextOptions := {
  opt_customApiKey : option jsstring;
  opt_aiProvider : option jsstring;
  opt_thinkingBudget : option N
}.

(** [v.key] on a value that is neither [null] nor [undefined]: own
    properties of objects; nothing on arrays and primitives for the
    names read here. *)
Definition member (key : jsstring) (v : json) : option json :=
  match v with
  | JObj props => Json.lookup key props
  | _ => None
  end.

(** [v[0]] on a value that is neither [null] nor [undefined]. *)
Definition index0 (v : json) : option json :=
  match v with
  | JArr l => nth_error l 0
  | JStr (c :: _) => Some (JStr [c])
  | JObj props => Json.lookup (utf16 "0") props
  | _ => None
  end.

(** [o?.f]: [undefined] when [o] is [null] or [undefined]. *)
Definition optional_chain (o : option json) (f : json -> option json) : option json :=
  match o with
  | None | Some JNull => None
  | Some v => f v
  end.

(** [data.choices?.[0]?.message?.content] on a [data] other than [null]. *)
Definition choice_content (data : json) : option json :=
  optional_chain
    (optional_chain
       (optional_chain (member (utf16 "choices") data) index0)
       (member (utf16 "message")))
    (member (utf16 "content")).

(** [a || ''] on a value that may be [undefined]. *)
Definition or_empty (a : option json) : json :=
  match a with
  | Some v => if Json.truthy v then v else JStr []
  | None => JStr []
  end.

(** [data.choices?.[0]?.message?.content || ''], where reading
    [choices] off [null] is a TypeError. *)
Definition first_choice_content (data : json) : Settled json :=
  match data with
  | JNull =>
    Rejected (TypeError (utf16 "Cannot read properties of null (reading 'choices')"))
  | _ => Fulfilled (or_empty (choice_content data))
  end.

(** The request [callOpenAICompatible] posts. *)
Definition chatRequest (model apiKey systemPrompt userPrompt : jsstring) : RequestInit :=
  {| method := utf16 "POST";
     headers :=
       [ (utf16 "Content-Type", utf16 "application/json");
         (utf16 "Authorization", utf16 "Bearer " ++ apiKey) ];
     body :=
       JObj
         [ (utf16 "model", JStr model);
           (utf16 "messages",
            JArr
              [ JObj [ (utf16 "role", JStr (utf16 "system"));
                       (utf16 "content", JStr systemPrompt) ];
                JObj [ (utf16 "role", JStr (utf16 "user"));
                       (utf16 "content", JStr userPrompt) ] ]);
           (utf16 "stream", JBool false) ] |}.

(** The schema the audit asks the primary provider to follow. *)
Definition auditResponseSchema : Schema :=
  OBJECT
    [ (utf16 "headline", NUMBER (utf16 "标题吸引力评分 0-100"));
      (utf16 "quality", NUMBER (utf16 "内容质量评分 0-100"));
      (utf16 "emotion", NUMBER (utf16 "情感共鸣评分 0-100"));
      (utf16 "trending", NUMBER (utf16 "话题热度评分 0-100"));
      (utf16 "viralPotential", NUMBER (utf16 "爆款潜力评分 0-100"));
      (utf16 "overall", NUMBER (utf16 "综合评分 0-100"));
      (utf16 "suggestions", ARRAY STRING (utf16 "3条具体的优化建议"));
      (utf16 "pros", ARRAY STRING (utf16 "3条文案优点"));
      (utf16 "sensitiveWords", ARRAY STRING (utf16 "潜在敏感词/违禁词")) ]
    [ utf16 "headline"; utf16 "quality"; utf16 "emotion"; utf16 "trending";
      utf16 "viralPotential"; utf16 "overall"; utf16 "suggestions";
      utf16 "pros"; utf16 "sensitiveWords" ].

(** The object returned when the audit fails. *)
Definition auditFallback : json :=
  JObj
    [ (utf16 "headline", Json.num_of_N 0);
      (utf16 "quality", Json.num_of_N 0);
      (utf16 "emotion", Json.num_of_N 0);
      (utf16 "trending", Json.num_of_N 0);
      (utf16 "viralPotential", Json.num_of_N 0);
      (utf16 "overall", Json.num_of_N 0);
      (utf16 "suggestions", JArr [JStr (utf16 "分析失败")]);
      (utf16 "pros", JArr []);
      (utf16 "sensitiveWords", JArr []) ].

(** The endpoints of the alternate providers. *)
Definition deepseek_url : jsstring :=
  utf16 "https://api.deepseek.com/chat/completions".

Definition qwen_url : jsstring :=
  utf16 "https://dashscope.aliyuncs.com/compatible-mode/v1/chat/completions".

Definition getGeminiTextModel : jsstring := utf16 "gemini-3-pro-preview".
Definition getGeminiImageModel : jsstring := utf16 "gemini-2.5-flash-image".

(** *** Prompt builders: the local constants of the service functions *)

Definition analyzeStylePrompt (exampleText : jsstring) : jsstring :=
  utf16 "分析以下文本的写作风格、语气和格式。提供一个简明扼要的中文描述（最多一句话），描述这个人设风格。例如：“理性叙述中融入强烈情感表达”或“幽默风趣的口语化表达”。文本内容: "
  ++ dquote
  ++ substring0 1000 exampleText
  ++ dquote.

Definition tagSystemPrompt : jsstring :=
  utf16 "你是一个助手，负责根据用户输入的文本内容，生成1-3个简短的标签（Tag）。".

Definition tagUserPrompt (thoughtContent : jsstring) : jsstring :=
  utf16 "请分析以下内容，生成最贴切的1-3个标签（例如：生活、感悟、工作、灵感等）。
  
  内容: "
  ++ dquote
  ++ substring0 500 thoughtContent
  ++ dquote
  ++ utf16 "
  
  要求:
  1. 仅返回标签，用逗号分隔。
  2. 不要包含任何其他解释文字。
  ".

(** [result.replace(/，/g, ',').split(',').map(t => t.trim())
      .filter(t => t.length > 0)] then [tags.slice(0, 3)]. *)
Definition cleanupTags (result : jsstring) : list jsstring :=
  let tags :=
    filter (fun t => nonempty t)
      (map trim (split 44 (replaceAll 65292 44 result))) in
  slice0 3 tags.

Definition organizePrompt (thoughts : list Thought) : jsstring :=
  let allContent :=
    join LF (map (fun t => utf16 "- " ++ content t) thoughts) in
  utf16 "
    角色: 资深内容助理。
    任务: 分析用户提供的所有碎片化想法，识别其中最相关、最具连贯性的主题内容，将它们整合成一段通顺的初步文案草稿。
    
    碎片想法列表:
    "
  ++ allContent
  ++ utf16 "
    
    要求:
    1. 识别出共同主题或关联性强的想法。
    2. 剔除明显无关或重复的内容。
    3. 语言通顺，逻辑连贯，作为一篇文案的基础素材。
    4. 仅仅返回整理后的文本，不要包含解释。
  ".

(** [contentSource] of [generateViralCopy]. *)
Definition contentSource (config : GenerationConfig) (thoughts : list Thought)
    (baseContent : option jsstring) : jsstring :=
  let use_base :=
    match baseContent with
    | Some b => nonempty b && nonempty (trim b)
    | None => false
    end in
  if use_base then
    utf16 "基础草稿内容 (请基于此内容进行优化和格式化):" ++ LF ++ ToString.of_option baseContent
  else
    let thoughtContent :=
      join LF
        (map (fun t => utf16 "- " ++ content t ++ utf16 " (标签: " ++ join (utf16 ", ") (tags t) ++ utf16 ")")
           (filter (fun t => includes (selectedThoughtIds config) (id t)) thoughts)) in
    utf16 "用户碎片想法:" ++ LF ++ thoughtContent.

Definition isEnglishPlatform (config : GenerationConfig) : bool :=
  existsb (PlatformType_eqb (platform config)) [TIKTOK; INSTAGRAM; X].

Definition targetLanguage (config : GenerationConfig) : jsstring :=
  if isEnglishPlatform config then utf16 "English"
  else utf16 "简体中文 (Simplified Chinese)".

(** The [switch] on the platform; its [default] branch is out of reach
    of the six members of [PlatformType]. *)
Definition formatDesc (config : GenerationConfig) : jsstring :=
  match platform config with
  | XIAOHONGSHU => utf16 "小红书风格：标题吸引人（含emoji），正文分段清晰，多用emoji，文末加相关话题标签。"
  | WECHAT_MOMENTS => utf16 "朋友圈风格：生活感强，真诚自然，文字精炼，像在和朋友分享，不要过于营销化，不要标题党。"
  | DOUYIN => utf16 "抖音风格：适合口播的短句，节奏感强，黄金三秒原则，引导互动。"
  | TIKTOK => utf16 "TikTok style: Engaging hook, short sentences, trending hashtags, casual tone."
  | INSTAGRAM => utf16 "Instagram style: Aesthetic caption, spacing for readability, relevant hashtags, engaging question."
  | X => utf16 "X (Twitter) style: Concise, witty, thread-friendly if long, impactful statements."
  end.

Definition copySystemPrompt : jsstring :=
  utf16 "角色: 你是一位精通社交媒体的爆款文案专家。".

(** The part of [userPrompt] before the target language. *)
Definition copyPromptHead (config : GenerationConfig) (thoughts : list Thought)
    (baseContent : option jsstring) : jsstring :=
  utf16 "
    任务: 根据提供的内容素材，创作一篇容易产生爆款潜质的社交媒体文案。
    
    上下文信息:
    - 目标平台: "
  ++ PlatformType_value (platform config)
  ++ utf16 "
    - 账号定位: "
  ++ NicheType_value (niche (settings config))
  ++ utf16 "
    - 内容来源:
    "
  ++ contentSource config thoughts baseContent
  ++ utf16 "
    "
  ++ (if nonempty (refUrl config) then utf16 "- 参考链接/内容: " ++ refUrl config else [])
  ++ utf16 "
    - 期望风格: "
  ++ styleDescription (settings config)
  ++ utf16 "
    
    要求:
    1. 语言: ".

(** The part of [userPrompt] after the target language. *)
Definition copyPromptTail (config : GenerationConfig) : jsstring :=
  utf16 ".
    2. 格式: "
  ++ formatDesc config
  ++ utf16 "
    3. 字数: 800字以内。
    4. 结构: 必须包含 吸引人的标题 (Headline) 和 正文 (Body) (朋友圈除外，朋友圈通常无明确标题，但第一句要吸引人)。
    5. 语气: 必须严格贴合"
  ++ dquote
  ++ styleDescription (settings config)
  ++ dquote
  ++ utf16 "的风格描述。
    
    输出: 仅输出文案内容，不要包含任何markdown代码块标记。
  ".

Definition copyUserPrompt (config : GenerationConfig) (thoughts : list Thought)
    (baseContent : option jsstring) : jsstring :=
  copyPromptHead config thoughts baseContent
  ++ targetLanguage config
  ++ copyPromptTail config.

Definition auditPrompt (content : json) (platform : PlatformType) : jsstring :=
  utf16 "
    作为资深内容运营，请分析以下"
  ++ PlatformType_value platform
  ++ utf16 "文案。
    返回一个JSON对象，包含各项评分（0-100分），文案优点，优化建议，以及潜在敏感词。
    
    文案内容:
    "
  ++ ToString.of_json content
  ++ utf16 "
  ".

(** The request of the primary path of [generateViralCopy]. *)
Definition copyParams (userPrompt : jsstring) : GenerateContentParameters :=
  {| model := getGeminiTextModel;
     contents := ContentsText userPrompt;
     gen_config :=
       Some {| systemInstruction := Some copySystemPrompt;
               thinkingBudget := Some 1024;
               responseMimeType := None;
               responseSchema := None;
               aspectRatio := None |} |}.

(** The request of the primary path of [generateText]. *)
Definition textParams (systemPrompt userPrompt : jsstring) (budget : option N)
  : GenerateContentParameters :=
  {| model := utf16 "gemini-3-flash-preview";
     contents := ContentsText userPrompt;
     gen_config :=
       Some {| systemInstruction := Some systemPrompt;
               thinkingBudget := budget;
               responseMimeType := None;
               responseSchema := None;
               aspectRatio := None |} |}.

(** The request of [auditCopyContent]. *)
Definition auditParams (content : json) (platform : PlatformType)
  : GenerateContentParameters :=
  {| model := utf16 "gemini-3-flash-preview";
     contents := ContentsText (auditPrompt content platform);
     gen_config :=
       Some {| systemInstruction := None;
               thinkingBudget := None;
               responseMimeType := Some (utf16 "application/json");
               responseSchema := Some auditResponseSchema;
               aspectRatio := None |} |}.

Definition imagePromptRequest (copyText : jsstring) (niche : NicheType) : jsstring :=
  utf16 "Based on this social media post, create a high-quality English image generation prompt for a lifestyle cover image suitable for "
  ++ NicheType_value niche
  ++ utf16 ". Post content: "
  ++ dquote
  ++ substring0 300 copyText
  ++ utf16 "..."
  ++ dquote.

(** The two requests of [generateImageForCopy]. *)
Definition imagePromptParams (copyText : jsstring) (niche : NicheType)
  : GenerateContentParameters :=
  {| model := utf16 "gemini-3-flash-preview";
     contents := ContentsText (imagePromptRequest copyText niche);
     gen_config := None |}.

Definition imageParams (imagePrompt : jsstring) : GenerateContentParameters :=
  {| model := getGeminiImageModel;
     contents := ContentsParts [imagePrompt];
     gen_config :=
       Some {| systemInstruction := None;
               thinkingBudget := None;
               responseMimeType := None;
               responseSchema := None;
               aspectRatio := Some (utf16 "3:4") |} |}.

(** [promptGenResponse.text || `A high quality aesthetic photo for ${niche}`] *)
Definition imagePromptOf (promptGenResponse : GenerateContentResponse)
    (niche : NicheType) : jsstring :=
  or_else (text promptGenResponse)
    (utf16 "A high quality aesthetic photo for " ++ NicheType_value niche).

Section Service.

Variable env : Env.

(** [getGeminiClient]: the key is [customKey || process.env.API_KEY || '']. *)
Definition getGeminiClient (customKey : option jsstring) : GoogleGenAI :=
  {| apiKey := or_else customKey (or_else (API_KEY env) []) |}.

(** [await ai.models.generateContent(params)] *)
Definition generateContent (ai : GoogleGenAI) (params : GenerateContentParameters)
  : Promise GenerateContentResponse :=
  fun t => (gemini_reply env t (apiKey ai) params,
            t ++ [GenerateContent (apiKey ai) params]).

(** [await fetch(url, init)] *)
Definition fetch (url : jsstring) (init : RequestInit) : Promise Response :=
  fun t => (fetch_reply env t url init, t ++ [FetchCall url init]).

(** [await response.text()] *)
Definition response_text (r : Response) : Promise jsstring := settle (read_body r).

(** [await response.json()] *)
Definition response_json (r : Response) : Promise json :=
  b <- settle (read_body r) ;;
  match Json.parse b with
  | Some v => ret v
  | None => throw (SyntaxError (utf16 "Unexpected token in JSON"))
  end.

Definition randomUUID : Promise jsstring :=
  fun t => (Fulfilled (uuid_at env t), t ++ [RandomUUID]).

Definition Date_now : Promise Z :=
  fun t => (Fulfilled (clock_at env t), t ++ [DateNow]).

(** Helper for OpenAI compatible APIs (DeepSeek, Qwen). *)
Definition callOpenAICompatible (baseURL model apiKey systemPrompt userPrompt : jsstring)
  : Promise json :=
  try_catch
    (response <- fetch baseURL (chatRequest model apiKey systemPrompt userPrompt) ;;
     (if negb (ok response) then
        err <- response_text response ;;
        console_error (utf16 "API Call failed:") (LogText err) ;;
        throw (Error (utf16 "API Error: " ++ decimal (status response)))
      else ret tt) ;;
     data <- response_json response ;;
     settle (first_choice_content data))
    (fun error =>
       console_error (utf16 "External API call failed") (LogError error) ;;
       throw error).

(** Unified text generation. *)
Definition generateText (systemPrompt userPrompt : jsstring) (config : option TextOptions)
  : Promise json :=
  let provider :=
    or_else (match config with Some c => opt_aiProvider c | None => None end)
      (utf16 "gemini") in
  let apiKey :=
    or_else (match config with Some c => opt_customApiKey c | None => None end)
      (or_else (API_KEY env) []) in
  if JS.eqb provider (utf16 "deepseek") then
    callOpenAICompatible deepseek_url
      (utf16 "deepseek-chat") apiKey systemPrompt userPrompt
  else if JS.eqb provider (utf16 "qwen") then
    callOpenAICompatible qwen_url
      (utf16 "qwen-plus") apiKey systemPrompt userPrompt
  else
    let ai := getGeminiClient (Some apiKey) in
    let thinkingConfig :=
      match config with
      | Some c =>
        match opt_thinkingBudget c with
        | Some b => if b =? 0 then None else Some b
        | None => None
        end
      | None => None
      end in
    response <- generateContent ai (textParams systemPrompt userPrompt thinkingConfig) ;;
    ret (JStr (or_else (text response) [])).

Definition analyzeStyleFromText (exampleText : jsstring) (apiKey : option jsstring)
  : Promise jsstring :=
  try_catch
    (let ai := getGeminiClient apiKey in
     response <-
       generateContent ai
         {| model := utf16 "gemini-3-flash-preview";
            contents := ContentsText (analyzeStylePrompt exampleText);
            gen_config := None |} ;;
     ret (or_else (text response) (utf16 "专业且客观的风格")))
    (fun e => ret (utf16 "通用专业风格")).

Definition generateTagsForThought (thoughtContent : jsstring)
    (apiKey : option jsstring) (provider : option jsstring)
  : Promise (list jsstring) :=
  let systemPrompt := tagSystemPrompt in
  let userPrompt := tagUserPrompt thoughtContent in
  try_catch
    (result <-
       generateText systemPrompt userPrompt
         (Some {| opt_customApiKey := apiKey; opt_aiProvider := provider;
                  opt_thinkingBudget := None |}) ;;
     match result with
     | JStr s => ret (cleanupTags s)
     | _ => throw (TypeError (utf16 "result.replace is not a function"))
     end)
    (fun error =>
       console_error (utf16 "Tag generation error") (LogError error) ;;
       ret [utf16 "通用"]).

Definition smartOrganizeThoughts (thoughts : list Thought) (apiKey : option jsstring)
  : Promise jsstring :=
  let ai := getGeminiClient apiKey in
  match thoughts with
  | [] => ret (utf16 "暂无碎片想法")
  | _ =>
    let prompt := organizePrompt thoughts in
    try_catch
      (response <-
         generateContent ai
           {| model := utf16 "gemini-3-flash-preview";
              contents := ContentsText prompt;
              gen_config := None |} ;;
       ret (or_else (text response) []))
      (fun error =>
         console_error (utf16 "Smart organize failed") (LogError error) ;;
         throw error)
  end.

Definition generateViralCopy (config : GenerationConfig) (thoughts : list Thought)
    (baseContent : option jsstring) : Promise json :=
  let systemPrompt := copySystemPrompt in
  let userPrompt := copyUserPrompt config thoughts baseContent in
  match aiProvider (settings config) with
  | Some gemini | None =>
    let ai := getGeminiClient (customApiKey (settings config)) in
    response <- generateContent ai (copyParams userPrompt) ;;
    ret (JStr (or_else (text response) []))
  | Some p =>
    generateText systemPrompt userPrompt
      (Some {| opt_customApiKey := customApiKey (settings config);
               opt_aiProvider := Some (AiProvider_value p);
               opt_thinkingBudget := None |})
  end.

Definition auditCopyContent (content : json) (platform : PlatformType)
    (apiKey : option jsstring) : Promise json :=
  let ai := getGeminiClient apiKey in
  try_catch
    (response <- generateContent ai (auditParams content platform) ;;
     match Json.parse (or_else (text response) (utf16 "{}")) with
     | Some result => ret result
     | None => throw (SyntaxError (utf16 "Unexpected token in JSON"))
     end)
    (fun error =>
       console_error (utf16 "Audit failed") (LogError error) ;;
       ret auditFallback).

(** The scan of [response.candidates?.[0]?.content?.parts || []] for the
    first part with [inlineData]. *)
Definition firstInlineData (response : GenerateContentResponse) : option Blob :=
  let parts :=
    match candidates response with
    | Some (c :: _) =>
      match candidate_parts c with Some ps => ps | None => [] end
    | _ => []
    end in
  match find (fun p => match inlineData p with Some _ => true | None => false end) parts with
  | Some p => inlineData p
  | None => None
  end.

(** [copyText] is declared [string]; on any other value the call of
    [substring] is a TypeError, raised before any request is sent. *)
Definition generateImageForCopy (copyText : json) (niche : NicheType)
    (apiKey : option jsstring) : Promise jsstring :=
  let ai := getGeminiClient apiKey in
  match copyText with
  | JStr copyText =>
    promptGenResponse <- generateContent ai (imagePromptParams copyText niche) ;;
    let imagePrompt := imagePromptOf promptGenResponse niche in
    try_catch
      (response <- generateContent ai (imageParams imagePrompt) ;;
       match firstInlineData response with
       | Some blob =>
         ret (utf16 "data:image/png;base64," ++ ToString.of_option (data blob))
       | None => throw (Error (utf16 "No image data found"))
       end)
      (fun error =>
         console_error (utf16 "Image generation failed") (LogError error) ;;
         throw error)
  | _ => throw (TypeError (utf16 "copyText.substring is not a function"))
  end.

End Service.

(* ================================================================== *)
(** ** components/GenerationTab.tsx *)
(* ================================================================== *)

Record GenerationTabProps := {
  thoughts : list Thought;
  prop_selectedThoughtIds : list jsstring;
  globalSettings : GlobalSettings
}.

(** The state of the component as one render sees it.  A handler reads
    this snapshot and requests updates through the setters, which are
    events; [reduce] applies them. *)
Record TabState := {
  viewState : ViewState;
  st_platform : PlatformType;
  st_refUrl : jsstring;
  st_withImage : bool;
  isSmartOrganizing : bool;
  isGenerating : bool;
  isAuditing : bool;
  isExtracting : bool;
  currentCopy : option GeneratedCopy;
  previewContent : jsstring;
  editedResult : json
}.

Definition reduce1 (st : TabState) (e : Event) : TabState :=
  match e with
  | SetIsGenerating b =>
    {| viewState := viewState st; st_platform := st_platform st;
       st_refUrl := st_refUrl st; st_withImage := st_withImage st;
       isSmartOrganizing := isSmartOrganizing st; isGenerating := b;
       isAuditing := isAuditing st; isExtracting := isExtracting st;
       currentCopy := currentCopy st; previewContent := previewContent st;
       editedResult := editedResult st |}
  | SetIsAuditing b =>
    {| viewState := viewState st; st_platform := st_platform st;
       st_refUrl := st_refUrl st; st_withImage := st_withImage st;
       isSmartOrganizing := isSmartOrganizing st; isGenerating := isGenerating st;
       isAuditing := b; isExtracting := isExtracting st;
       currentCopy := currentCopy st; previewContent := previewContent st;
       editedResult := editedResult st |}
  | SetCurrentCopy c =>
    {| viewState := viewState st; st_platform := st_platform st;
       st_refUrl := st_refUrl st; st_withImage := st_withImage st;
       isSmartOrganizing := isSmartOrganizing st; isGenerating := isGenerating st;
       isAuditing := isAuditing st; isExtracting := isExtracting st;
       currentCopy := Some c; previewContent := previewContent st;
       editedResult := editedResult st |}
  | SetEditedResult v =>
    {| viewState := viewState st; st_platform := st_platform st;
       st_refUrl := st_refUrl st; st_withImage := st_withImage st;
       isSmartOrganizing := isSmartOrganizing st; isGenerating := isGenerating st;
       isAuditing := isAuditing st; isExtracting := isExtracting st;
       currentCopy := currentCopy st; previewContent := previewContent st;
       editedResult := v |}
  | SetViewState v =>
    {| viewState := v; st_platform := st_platform st;
       st_refUrl := st_refUrl st; st_withImage := st_withImage st;
       isSmartOrganizing := isSmartOrganizing st; isGenerating := isGenerating st;
       isAuditing := isAuditing st; isExtracting := isExtracting st;
       currentCopy := currentCopy st; previewContent := previewContent st;
       editedResult := editedResult st |}
  | _ => st
  end.

(** The state after the updates among [events] have been applied. *)
Definition reduce (st : TabState) (events : list Event) : TabState :=
  fold_left reduce1 events st.

Section GenerationTab.

Variable env : Env.
Variable props : GenerationTabProps.

(** [fullConfig] of [handleGenerate]. *)
Definition fullConfig (st : TabState) : GenerationConfig :=
  {| settings := globalSettings props;
     platform := st_platform st;
     refUrl := st_refUrl st;
     selectedThoughtIds := prop_selectedThoughtIds props;
     styleMode := manual;
     withImage := st_withImage st |}.

(** Step 2 of [handleGenerate]: [imageUrl] stays [undefined] unless an
    image is asked for and made. *)
Definition imageStep (st : TabState) (content : json) : Promise (option jsstring) :=
  if st_withImage st then
    try_catch
      (url <- generateImageForCopy env content
                (niche (globalSettings props))
                (customApiKey (globalSettings props)) ;;
       ret (Some url))
      (fun e =>
         console_error (utf16 "Image generation failed") (LogError e) ;;
         ret None)
  else ret None.

Definition handleGenerate (st : TabState) : Promise unit :=
  emit (SetIsGenerating true) ;;
  finally
    (try_catch
       ((* 1. Generate Copy *)
        content <- generateViralCopy env (fullConfig st) (thoughts props)
                     (Some (previewContent st)) ;;
        (* 2. Generate Image *)
        imageUrl <- imageStep st content ;;
        (* 3. Audit Copy *)
        audit <- auditCopyContent env content (st_platform st)
                   (customApiKey (globalSettings props)) ;;
        uuid <- randomUUID env ;;
        now <- Date_now env ;;
        let newCopy :=
          {| copy_id := uuid;
             config := fullConfig st;
             copy_content := content;
             audit := audit;
             imageUrl := imageUrl;
             copy_createdAt := now |} in
        emit (SetCurrentCopy newCopy) ;;
        emit (SetEditedResult content) ;;
        emit (SetViewState view_result) ;;
        emit (SetTimeoutScrollTop 100))
       (fun error => alert (utf16 "生成失败，请检查网络或API Key")))
    (emit (SetIsGenerating false)).

Definition handleReAudit (st : TabState) : Promise unit :=
  match currentCopy st with
  | None => ret tt
  | Some current =>
    emit (SetIsAuditing true) ;;
    finally
      (try_catch
         (newAudit <- auditCopyContent env (editedResult st) (st_platform st)
                        (customApiKey (globalSettings props)) ;;
          emit (SetCurrentCopy
                  {| copy_id := copy_id current;
                     config := config current;
                     copy_content := editedResult st;
                     audit := newAudit;
                     imageUrl := imageUrl current;
                     copy_createdAt := copy_createdAt current |}) ;;
          alert (utf16 "评分已更新"))
         (fun error => alert (utf16 "评分失败")))
      (emit (SetIsAuditing false))
  end.

End GenerationTab.

(* ================================================================== *)
(** ** Claims as the specification words them, where the code differs *)
(* ================================================================== *)

(** The nine required fields of the audit schema. *)
Definition required_fields : list jsstring := score_fields ++ list_fields.

Definition missing_field (v : json) : Prop :=
  exists key, In key required_fields /\ has_field (fun _ => true) v key = false.

(** The audit falls back on a provider error, on a parse failure and on
    a parsed object with a required field missing. *)
Definition audit_fallback_as_specified : Prop :=
  forall env content platform customKey t,
    let reply :=
      gemini_reply env t (apiKey (getGeminiClient env customKey))
        (auditParams content platform) in
    ((exists e, reply = Rejected e)
     \/ (exists r, reply = Fulfilled r
                   /\ Json.parse (or_else (text r) (utf16 "{}")) = None)
     \/ (exists r v, reply = Fulfilled r
                     /\ Json.parse (or_else (text r) (utf16 "{}")) = Some v
                     /\ missing_field v)) ->
    fst (auditCopyContent env content platform customKey t) = Fulfilled auditFallback.

(** Tagging always yields one to three non-empty labels. *)
Definition tagging_as_specified : Prop :=
  forall env thoughtContent customKey provider t,
    exists labels,
      fst (generateTagsForThought env thoughtContent customKey provider t)
      = Fulfilled labels
      /\ (1 <= List.length labels <= 3)%nat
      /\ Forall (fun l => l <> []) labels.

(** A failure of the copy step leaves [handleGenerate] as an error. *)
Definition copy_failure_propagates_as_specified : Prop :=
  forall env props st t e,
    fst (generateViralCopy env (fullConfig props st) (thoughts props)
           (Some (previewContent st)) (t ++ [SetIsGenerating true]))
    = Rejected e ->
    fst (handleGenerate env props st t) = Rejected e.

(** The error of a non-2xx reply carries the response body. *)
Definition http_error_carries_body_as_specified : Prop :=
  forall env baseURL model key systemPrompt userPrompt t r b,
    fetch_reply env t baseURL (chatRequest model key systemPrompt userPrompt)
    = Fulfilled r ->
    ok r = false ->
    read_body r = Fulfilled b ->
    exists e,
      fst (callOpenAICompatible env baseURL model key systemPrompt userPrompt t)
      = Rejected e
      /\ includes_text (exn_message e) b = true.

(** A 2xx reply without a text payload gives the empty string. *)
Definition empty_payload_as_specified : Prop :=
  forall env baseURL model key systemPrompt userPrompt t r b data,
    fetch_reply env t baseURL (chatRequest model key systemPrompt userPrompt)
    = Fulfilled r ->
    ok r = true ->
    read_body r = Fulfilled b ->
    Json.parse b = Some data ->
    (forall s, choice_content data <> Some (JStr s)) ->
    fst (callOpenAICompatible env baseURL model key systemPrompt userPrompt t)
    = Fulfilled (JStr []).

(** A computation that asks the primary provider at least once. *)
Definition asks_primary {A} (m : Promise A) : Prop :=
  forall t, exists evs, snd (m t) = t ++ evs /\ existsb is_gemini evs = true.

(** Audit, style analysis, consolidation and image synthesis always
    invoke the primary provider. *)
Definition always_primary_as_specified : Prop :=
  forall env,
    (forall content platform customKey,
       asks_primary (auditCopyContent env content platform customKey))
    /\ (forall exampleText customKey,
          asks_primary (analyzeStyleFromText env exampleText customKey))
    /\ (forall thoughts customKey,
          asks_primary (smartOrganizeThoughts env thoughts customKey))
    /\ (forall copyText niche customKey,
          asks_primary (generateImageForCopy env (JStr copyText) niche customKey)).

(** Every audit result has the shape of the data model. *)
Definition audit_shape_as_specified : Prop :=
  forall env content platform customKey t,
    exists v,
      fst (auditCopyContent env content platform customKey t) = Fulfilled v
      /\ is_AuditScore v = true.

(* ================================================================== *)
(** ** Stub providers for concrete runs *)
(* ================================================================== *)

Definition text_reply (s : jsstring) : Settled GenerateContentResponse :=
  Fulfilled {| text := Some s; candidates := None |}.

Definition unavailable {A} : Settled A :=
  Rejected (Error (utf16 "503 Service Unavailable")).

(** A world whose primary provider answers by [g] and whose HTTP
    endpoints all answer [f]. *)
Definition stub (g : GenerateContentParameters -> Settled GenerateContentResponse)
    (f : Settled Response) : Env :=
  {| API_KEY := None;
     gemini_reply := fun _ _ p => g p;
     fetch_reply := fun _ _ _ => f;
     uuid_at := fun _ => utf16 "8c5f2f0e-6a51-4c55-9f0e-2b1d5b1f4a10";
     clock_at := fun _ => 1767225600000%Z |}.

Definition http (code : N) (b : jsstring) : Settled Response :=
  Fulfilled {| status := code; read_body := Fulfilled b |}.

Definition schema_required (s : Schema) : list jsstring :=
  match s with
  | OBJECT _ required => required
  | _ => []
  end.

(** The user prompt a request carries to a provider. *)
Definition user_prompt_of (e : Event) : option jsstring :=
  match e with
  | GenerateContent _ p =>
    match contents p with
    | ContentsText s => Some s
    | ContentsParts _ => None
    end
  | FetchCall _ init =>
    match member (utf16 "messages") (body init) with
    | Some (JArr [_; m]) =>
      match member (utf16 "content") m with
      | Some (JStr s) => Some s
      | _ => None
      end
    | _ => None
    end
  | _ => None
  end.

(** The [required] list of the schema a request carries. *)
Definition responseSchema_required (p : GenerateContentParameters) : list jsstring :=
  match gen_config p with
  | Some c =>
    match responseSchema c with
    | Some s => schema_required s
    | None => []
    end
  | None => []
  end.

(** The request of the copy step, to whichever provider is configured,
    fails with [e]. *)
Definition copy_provider_fails (env : Env) (config : GenerationConfig)
    (thoughts : list Thought) (baseContent : option jsstring) (t : Trace) (e : exn)
  : Prop :=
  let userPrompt := copyUserPrompt config thoughts baseContent in
  let key := customApiKey (settings config) in
  let bearer := or_else key (or_else (API_KEY env) []) in
  match aiProvider (settings config) with
  | Some deepseek =>
    fetch_reply env t deepseek_url
      (chatRequest (utf16 "deepseek-chat") bearer copySystemPrompt userPrompt)
    = Rejected e
  | Some qwen =>
    fetch_reply env t qwen_url
      (chatRequest (utf16 "qwen-plus") bearer copySystemPrompt userPrompt)
    = Rejected e
  | Some gemini | None =>
    gemini_reply env t (apiKey (getGeminiClient env key)) (copyParams userPrompt)
    = Rejected e
  end.

(** A JSON string token. *)
Definition quoted (s : string) : jsstring := dquote ++ utf16 s ++ dquote.

(** No part of any candidate of a response carries [inlineData]. *)
Definition no_inline_payload (r : GenerateContentResponse) : Prop :=
  forall cs c ps p,
    candidates r = Some cs -> In c cs ->
    candidate_parts c = Some ps -> In p ps ->
    inlineData p = None.

(** A primary provider that writes copy and image prompts, audits with
    a full score object, and answers an image request with a text part
    and no inline data. *)
Definition studio_audit : jsstring :=
  utf16 "{" ++ dquote ++ utf16 "headline" ++ dquote ++ utf16 ":80,"
  ++ dquote ++ utf16 "quality" ++ dquote ++ utf16 ":75,"
  ++ dquote ++ utf16 "emotion" ++ dquote ++ utf16 ":60,"
  ++ dquote ++ utf16 "trending" ++ dquote ++ utf16 ":40,"
  ++ dquote ++ utf16 "viralPotential" ++ dquote ++ utf16 ":55,"
  ++ dquote ++ utf16 "overall" ++ dquote ++ utf16 ":62,"
  ++ dquote ++ utf16 "suggestions" ++ dquote ++ utf16 ":[],"
  ++ dquote ++ utf16 "pros" ++ dquote ++ utf16 ":[],"
  ++ dquote ++ utf16 "sensitiveWords" ++ dquote ++ utf16 ":[]}".

Definition studio (p : GenerateContentParameters) : Settled GenerateContentResponse :=
  if JS.eqb (model p) getGeminiImageModel then
    Fulfilled
      {| text := None;
         candidates :=
           Some [ {| candidate_parts :=
                       Some [ {| part_text := Some (utf16 "I cannot draw this.");
                                 inlineData := None |} ] |} ] |}
  else
    match responseSchema_required p with
    | [] => Fulfilled {| text := Some (utf16 "Pasta night, done right."); candidates := None |}
    | _ => Fulfilled {| text := Some studio_audit; candidates := None |}
    end.

(** A primary provider that is down for copy generation only. *)
Definition copy_down (p : GenerateContentParameters) : Settled GenerateContentResponse :=
  if JS.eqb (model p) getGeminiTextModel then unavailable else studio p.

Definition sample_props : GenerationTabProps :=
  {| thoughts :=
       [ {| id := utf16 "t1"; content := utf16 "pasta night";
            tags := [utf16 "food"; utf16 "life"]; createdAt := 0 |} ];
     prop_selectedThoughtIds := [utf16 "t1"];
     globalSettings :=
       {| niche := FOOD; styleDescription := utf16 "warm";
          customApiKey := Some (utf16 "key-1"); aiProvider := None |} |}.

Definition sample_state (image : bool) (current : option GeneratedCopy) : TabState :=
  {| viewState := view_config; st_platform := XIAOHONGSHU; st_refUrl := [];
     st_withImage := image; isSmartOrganizing := false; isGenerating := false;
     isAuditing := false; isExtracting := false; currentCopy := current;
     previewContent := []; editedResult := JStr (utf16 "Pasta night, edited.") |}.

(** A 200 reply whose content is the number [1e-400]. *)
Definition tiny_body : jsstring :=
  utf16 "{" ++ quoted "choices" ++ utf16 ":[{" ++ quoted "message" ++ utf16 ":{"
  ++ quoted "content" ++ utf16 ":1e-400}}]}".

Definition tiny_data : json :=
  JObj [(utf16 "choices",
         JArr [JObj [(utf16 "message",
                      JObj [(utf16 "content",
                             JNum {| neg := false; mant := 1; exp10 := -400 |})])]])].

(** A 200 reply of an alternate provider with one choice. *)
Definition chat_body : jsstring :=
  utf16 "{" ++ quoted "choices" ++ utf16 ":[{" ++ quoted "message" ++ utf16 ":{"
  ++ quoted "content" ++ utf16 ":" ++ quoted "Pasta night, done right." ++ utf16 "}}]}".

Definition deepseek_props : GenerationTabProps :=
  {| thoughts := thoughts sample_props;
     prop_selectedThoughtIds := prop_selectedThoughtIds sample_props;
     globalSettings :=
       {| niche := FOOD; styleDescription := utf16 "warm";
          customApiKey := Some (utf16 "key-1"); aiProvider := Some deepseek |} |}.

(** Where a request goes. *)
Definition destination (e : Event) : jsstring :=
  match e with
  | GenerateContent _ p => utf16 "gemini " ++ model p
  | FetchCall url _ => utf16 "fetch " ++ url
  | _ => []
  end.

Definition sample_copy : GeneratedCopy :=
  {| copy_id := utf16 "id-0";
     config :=
       {| settings := globalSettings sample_props; platform := DOUYIN;
          refUrl := []; selectedThoughtIds := []; styleMode := manual;
          withImage := true |};
     copy_content := JStr (utf16 "Pasta night.");
     audit := auditFallback;
     imageUrl := Some (utf16 "data:image/png;base64,AAAA");
     copy_createdAt := 1767000000000 |}.

(** A reply with all nine fields, one score above 100 and one that is
    not an integer. *)
Definition overscored_text : jsstring :=
  utf16 "{" ++ quoted "headline" ++ utf16 ":150,"
  ++ quoted "quality" ++ utf16 ":7.5,"
  ++ quoted "emotion" ++ utf16 ":60,"
  ++ quoted "trending" ++ utf16 ":40,"
  ++ quoted "viralPotential" ++ utf16 ":55,"
  ++ quoted "overall" ++ utf16 ":62,"
  ++ quoted "suggestions" ++ utf16 ":[],"
  ++ quoted "pros" ++ utf16 ":[],"
  ++ quoted "sensitiveWords" ++ utf16 ":[]}".

(* ================================================================== *)
(** ** URL extraction *)
(* ================================================================== *)

(** [fetch(url)] with no second argument: a GET with no header and no
    body. *)
Definition default_init : RequestInit :=
  {| method := utf16 "GET"; headers := []; body := JNull |}.

(** The characters [encodeURIComponent] leaves as they are: letters,
    digits and [- _ . ! ~ * ' ( )]. *)
Definition uriUnreserved (c : code_unit) : bool :=
  ((65 <=? c) && (c <=? 90)) || ((97 <=? c) && (c <=? 122))
  || ((48 <=? c) && (c <=? 57))
  || (c =? 45) || (c =? 95) || (c =? 46) || (c =? 33) || (c =? 126)
  || (c =? 42) || (c =? 39) || (c =? 40) || (c =? 41).

Definition hexUpper (d : N) : code_unit := if d <? 10 then 48 + d else 55 + d.

(** [%XX] for one octet. *)
Definition percent (octet : N) : jsstring :=
  [37; hexUpper (octet / 16); hexUpper (octet mod 16)].

(** The UTF-8 octets of a code point. *)
Definition utf8_octets (cp : N) : list N :=
  if cp <? 128 then [cp]
  else if cp <? 2048 then [192 + cp / 64; 128 + cp mod 64]
  else if cp <? 65536 then
    [224 + cp / 4096; 128 + (cp / 64) mod 64; 128 + cp mod 64]
  else
    [240 + cp / 262144; 128 + (cp / 4096) mod 64; 128 + (cp / 64) mod 64;
     128 + cp mod 64].

Definition escape (cp : N) : jsstring := concat (map percent (utf8_octets cp)).

Definition isLeadSurrogate (c : code_unit) : bool := (55296 <=? c) && (c <=? 56319).
Definition isTrailSurrogate (c : code_unit) : bool := (56320 <=? c) && (c <=? 57343).

(** [encodeURIComponent(s)]; [None] stands for the URIError it throws
    on a surrogate without its pair. *)
Fixpoint encodeURIComponent (s : jsstring) : option jsstring :=
  match s with
  | [] => Some []
  | c :: r =>
    if uriUnreserved c then option_map (cons c) (encodeURIComponent r)
    else if isTrailSurrogate c then None
    else if isLeadSurrogate c then
      match r with
      | d :: r' =>
        if isTrailSurrogate d then
          option_map
            (app (escape (65536 + (c - 55296) * 1024 + (d - 56320))))
            (encodeURIComponent r')
        else None
      | [] => None
      end
    else option_map (app (escape c)) (encodeURIComponent r)
  end.

(** The characters an encoded component is made of: the unreserved ones
    and the percent sign. *)
Definition uri_safe (c : code_unit) : bool := uriUnreserved c || (c =? 37).

Definition reader_url : jsstring := utf16 "https://r.jina.ai/".

Section Extraction.

Variable env : Env.

(** [extractContentFromUrl]: the reader proxy is asked for the page;
    the value inside the [try] is the text it returned, if it did. *)
Definition extractContentFromUrl (url : jsstring) : Promise jsstring :=
  if negb (nonempty url) then ret []
  else
    found <-
      try_catch
        (target <-
           match encodeURIComponent url with
           | Some u => ret u
           | None => throw (Error (utf16 "URI malformed"))
           end ;;
         response <- fetch env (reader_url ++ target) default_init ;;
         if ok response then
           b <- response_text response ;;
           ret (Some b)
         else ret None)
        (fun e =>
           console_error (utf16 "Extraction failed") (LogError e) ;;
           ret None) ;;
    match found with
    | Some b => ret b
    | None => ret []
    end.

End Extraction.

(* ================================================================== *)
(** ** The remaining handlers: the updates they request *)
(* ================================================================== *)

(** The updates the remaining handlers request, by value or by a
    function of the state at the time the update is applied. *)
Inductive Update :=
| SetIsSmartOrganizing (b : bool)
| SetIsExtracting (b : bool)
| SetPreviewContent (v : jsstring)
| UpdatePreviewContent (f : jsstring -> jsstring)
| SetThoughts (l : list Thought)
| UpdateThoughts (f : list Thought -> list Thought)
| SetInputValue (v : jsstring)
| SetSelectedIds (l : list jsstring)
| SetIsAnalyzing (b : bool)
| SetTempDescription (v : jsstring)
| SetSettings (s : GlobalSettings).

(** A handler run to settlement: the trace of requests, console output
    and alerts, and beside it the updates requested, in order. *)
Definition Handler (A : Type) := Trace * list Update -> Settled A * (Trace * list Update).

Definition hret {A} (a : A) : Handler A := fun w => (Fulfilled a, w).

Definition hbind {A B} (m : Handler A) (k : A -> Handler B) : Handler B :=
  fun w =>
    match m w with
    | (Fulfilled a, w') => k a w'
    | (Rejected e, w') => (Rejected e, w')
    end.

Definition htry {A} (m : Handler A) (h : exn -> Handler A) : Handler A :=
  fun w =>
    match m w with
    | (Fulfilled a, w') => (Fulfilled a, w')
    | (Rejected e, w') => h e w'
    end.

Definition hfinally {A} (m : Handler A) (f : Handler unit) : Handler A :=
  fun w =>
    let '(r, w') := m w in
    match f w' with
    | (Fulfilled _, w'') => (r, w'')
    | (Rejected e, w'') => (Rejected e, w'')
    end.

(** A computation of the trace monad inside a handler. *)
Definition lift {A} (m : Promise A) : Handler A :=
  fun w => let '(r, t') := m (fst w) in (r, (t', snd w)).

(** A call of a setter. *)
Definition request (u : Update) : Handler unit :=
  fun w => (Fulfilled tt, (fst w, snd w ++ [u])).

Declare Scope handler_scope.
Delimit Scope handler_scope with handler.
Notation "x <- m ;; k" := (hbind m (fun x => k))
  (at level 61, m at next level, right associativity) : handler_scope.
Notation "m ;; k" := (hbind m (fun _ => k))
  (at level 61, right associativity) : handler_scope.

(** The updates applied to each piece of state they concern. *)
Definition apply_thoughts (l : list Thought) (us : list Update) : list Thought :=
  fold_left
    (fun cur u =>
       match u with
       | SetThoughts v => v
       | UpdateThoughts f => f cur
       | _ => cur
       end) us l.

Definition apply_selected (l : list jsstring) (us : list Update) : list jsstring :=
  fold_left (fun cur u => match u with SetSelectedIds v => v | _ => cur end) us l.

Definition apply_preview (p : jsstring) (us : list Update) : jsstring :=
  fold_left
    (fun cur u =>
       match u with
       | SetPreviewContent v => v
       | UpdatePreviewContent f => f cur
       | _ => cur
       end) us p.

Definition apply_settings (s : GlobalSettings) (us : list Update) : GlobalSettings :=
  fold_left (fun cur u => match u with SetSettings v => v | _ => cur end) us s.

Definition apply_flag (pick : Update -> option bool) (b : bool) (us : list Update) : bool :=
  fold_left (fun cur u => match pick u with Some v => v | None => cur end) us b.

Definition smartOrganizing_of (u : Update) : option bool :=
  match u with SetIsSmartOrganizing b => Some b | _ => None end.

Definition extracting_of (u : Update) : option bool :=
  match u with SetIsExtracting b => Some b | _ => None end.

Definition analyzing_of (u : Update) : option bool :=
  match u with SetIsAnalyzing b => Some b | _ => None end.

(** The preview after the updates, in the state of the generation tab. *)
Definition with_preview (st : TabState) (us : list Update) : TabState :=
  {| viewState := viewState st; st_platform := st_platform st;
     st_refUrl := st_refUrl st; st_withImage := st_withImage st;
     isSmartOrganizing := apply_flag smartOrganizing_of (isSmartOrganizing st) us;
     isGenerating := isGenerating st;
     isAuditing := isAuditing st;
     isExtracting := apply_flag extracting_of (isExtracting st) us;
     currentCopy := currentCopy st;
     previewContent := apply_preview (previewContent st) us;
     editedResult := editedResult st |}.

Section GenerationTabPreview.

Local Open Scope handler_scope.

Variable env : Env.
Variable props : GenerationTabProps.

Definition handleSmartOrganize (st : TabState) : Handler unit :=
  request (SetIsSmartOrganizing true) ;;
  hfinally
    (htry
       (organizedText <-
          lift (smartOrganizeThoughts env (thoughts props)
                  (customApiKey (globalSettings props))) ;;
        request (SetPreviewContent organizedText))
       (fun error => lift (alert (utf16 "智能整理失败，请重试"))))
    (request (SetIsSmartOrganizing false)).

(** The functional update of the preview in [handleExtractUrl]. *)
Definition appendReference (refUrl extracted prev : jsstring) : jsstring :=
  let prefix := if nonempty prev then prev ++ LF ++ LF else [] in
  prefix ++ (utf16 "[参考内容] (" ++ refUrl ++ utf16 "):" ++ LF)
  ++ substring0 1000 extracted
  ++ (if (1000 <? List.length extracted)%nat then utf16 "..." else []).

Definition handleExtractUrl (st : TabState) : Handler unit :=
  let refUrl := st_refUrl st in
  if negb (nonempty refUrl) then hret tt
  else
    request (SetIsExtracting true) ;;
    hfinally
      (htry
         (extracted <- lift (extractContentFromUrl env refUrl) ;;
          if nonempty extracted then
            request (UpdatePreviewContent (appendReference refUrl extracted)) ;;
            lift (alert (utf16 "提取成功，内容已加入预览"))
          else lift (alert (utf16 "提取失败，请检查链接是否公开可见")))
         (fun e => lift (alert (utf16 "提取过程中出错"))))
      (request (SetIsExtracting false)).

End GenerationTabPreview.

(* ================================================================== *)
(** ** components/ThoughtTab.tsx *)
(* ================================================================== *)

(** [{ ...t, tags }] *)
Definition withTags (t : Thought) (newTags : list jsstring) : Thought :=
  {| id := id t; content := content t; tags := newTags; createdAt := createdAt t |}.

(** [prevThoughts.map(t => t.id === tempId ? { ...t, tags } : t)] *)
Definition retag (tempId : jsstring) (newTags : list jsstring) (prevThoughts : list Thought)
  : list Thought :=
  map (fun t => if JS.eqb (id t) tempId then withTags t newTags else t) prevThoughts.

Module ThoughtTab.
Section ThoughtTab.

Local Open Scope handler_scope.

Variable env : Env.
Variable thoughts : list Thought.
Variable selectedIds : list jsstring.
Variable globalSettings : GlobalSettings.

Definition handleAddThought (inputValue : jsstring) : Handler unit :=
  if negb (nonempty (trim inputValue)) then hret tt
  else
    tempId <- lift (randomUUID env) ;;
    now <- lift (Date_now env) ;;
    let newThought :=
      {| id := tempId;
         content := inputValue;
         tags := [utf16 "处理中..."];
         createdAt := now |} in
    (* Optimistic update *)
    request (SetThoughts (newThought :: thoughts)) ;;
    request (SetInputValue []) ;;
    htry
      (newTags <-
         lift (generateTagsForThought env (content newThought)
                 (customApiKey globalSettings)
                 (option_map AiProvider_value (aiProvider globalSettings))) ;;
       request (UpdateThoughts (retag tempId newTags)))
      (fun error =>
         lift (console_error (utf16 "Tag generation failed") (LogError error)) ;;
         request (UpdateThoughts (retag tempId [utf16 "通用"]))).

Definition toggleSelection (id : jsstring) : Handler unit :=
  if includes selectedIds id then
    request (SetSelectedIds (filter (fun sid => negb (JS.eqb sid id)) selectedIds))
  else request (SetSelectedIds (selectedIds ++ [id])).

(** [e.stopPropagation()] keeps the click from the card under the
    button and is no part of the state. *)
Definition deleteThought (id' : jsstring) : Handler unit :=
  request (SetThoughts (filter (fun t => negb (JS.eqb (id t) id')) thoughts)) ;;
  request (SetSelectedIds (filter (fun sid => negb (JS.eqb sid id')) selectedIds)).

End ThoughtTab.
End ThoughtTab.

(* ================================================================== *)
(** ** The settings tab *)
(* ================================================================== *)

Module SettingsTab.
Section SettingsTab.

Local Open Scope handler_scope.

Variable env : Env.
Variable settings : GlobalSettings.
Variable styleExample : jsstring.
Variable tempDescription : jsstring.
Variable tempApiKey : jsstring.

Definition handleAnalyzeStyle : Handler unit :=
  if negb (nonempty styleExample) then hret tt
  else
    request (SetIsAnalyzing true) ;;
    hfinally
      (htry
         (styleDesc <- lift (analyzeStyleFromText env styleExample (customApiKey settings)) ;;
          request (SetTempDescription styleDesc))
         (fun e => lift (alert (utf16 "分析失败，请重试"))))
      (request (SetIsAnalyzing false)).

Definition handleSaveDescription : Handler unit :=
  request (SetSettings
             {| niche := niche settings;
                styleDescription := tempDescription;
                customApiKey := customApiKey settings;
                aiProvider := aiProvider settings |}) ;;
  lift (alert (utf16 "风格描述已保存")).

Definition handleSaveAiConfig : Handler unit :=
  request (SetSettings
             {| niche := niche settings;
                styleDescription := styleDescription settings;
                customApiKey := Some tempApiKey;
                aiProvider :=
                  match aiProvider settings with
                  | Some p => Some p
                  | None => Some gemini
                  end |}) ;;
  lift (alert (utf16 "AI配置已保存")).

End SettingsTab.
End SettingsTab.

(* ================================================================== *)
(** ** More stub replies *)
(* ================================================================== *)

Definition caption : Part :=
  {| part_text := Some (utf16 "Here is your image."); inlineData := None |}.

Definition picture (payload : jsstring) : Part :=
  {| part_text := None; inlineData := Some {| data := Some payload |} |}.

(** The [studio] provider with an image model that answers [shown]. *)
Definition gallery (shown : list Candidate) (p : GenerateContentParameters)
  : Settled GenerateContentResponse :=
  if JS.eqb (model p) getGeminiImageModel then
    Fulfilled {| text := None; candidates := Some shown |}
  else studio p.

(* ================================================================== *)
(** ** The trace monad: what a computation adds to the trace *)
(* ================================================================== *)

Arguments utf16 : simpl never.
Arguments decimal : simpl never.
Arguments Json.parse : simpl never.

(** Every event [m] adds satisfies [P]. *)
Definition emits {A} (P : Event -> bool) (m : Promise A) : Prop :=
  forall t, exists evs, snd (m t) = t ++ evs /\ forallb P evs = true.

(** Events of the service functions: requests and console output. *)
Definition no_fetch (e : Event) : bool := negb (is_fetch e).
Definition no_gemini (e : Event) : bool := negb (is_gemini e).

Definition service_event (e : Event) : bool :=
  match e with
  | GenerateContent _ _ | FetchCall _ _ | ConsoleError _ _ => true
  | _ => false
  end.

Section Emits.

Context {A B : Type} (P : Event -> bool).

Lemma emits_ret (a : A) : emits P (ret a).
Proof. intros t. exists []. rewrite app_nil_r. split; reflexivity. Qed.

Lemma emits_throw (e : exn) : emits P (@throw A e).
Proof. intros t. exists []. rewrite app_nil_r. split; reflexivity. Qed.

Lemma emits_settle (r : Settled A) : emits P (settle r).
Proof. intros t. exists []. rewrite app_nil_r. split; reflexivity. Qed.

Lemma emits_emit (e : Event) : P e = true -> emits P (emit e).
Proof.
  intros H t. exists [e]. split; [reflexivity|]. cbn. now rewrite H.
Qed.

Lemma emits_bind (m : Promise A) (k : A -> Promise B) :
  emits P m -> (forall a, emits P (k a)) -> emits P (bind m k).
Proof.
  intros Hm Hk t. unfold bind.
  destruct (Hm t) as (evs & E & F).
  destruct (m t) as [[a|e] t1]; cbn in E; subst t1.
  - destruct (Hk a (t ++ evs)) as (evs' & E' & F').
    exists (evs ++ evs'). rewrite E', app_assoc. split; [reflexivity|].
    rewrite forallb_app. now rewrite F, F'.
  - exists evs. now split.
Qed.

Lemma emits_try_catch (m : Promise A) (h : exn -> Promise A) :
  emits P m -> (forall e, emits P (h e)) -> emits P (try_catch m h).
Proof.
  intros Hm Hh t. unfold try_catch.
  destruct (Hm t) as (evs & E & F).
  destruct (m t) as [[a|e] t1]; cbn in E; subst t1.
  - exists evs. now split.
  - destruct (Hh e (t ++ evs)) as (evs' & E' & F').
    exists (evs ++ evs'). rewrite E', app_assoc. split; [reflexivity|].
    rewrite forallb_app. now rewrite F, F'.
Qed.

Lemma emits_finally (m : Promise A) (f : Promise unit) :
  emits P m -> emits P f -> emits P (finally m f).
Proof.
  intros Hm Hf t. unfold finally.
  destruct (Hm t) as (evs & E & F).
  destruct (m t) as [r t1]; cbn in E; subst t1.
  destruct (Hf (t ++ evs)) as (evs' & E' & F').
  exists (evs ++ evs').
  destruct (f (t ++ evs)) as [[u|e] t2]; cbn in E'; subst t2;
    rewrite app_assoc; (split; [reflexivity|]);
    rewrite forallb_app; now rewrite F, F'.
Qed.

End Emits.

Lemma emits_generateContent P env ai params :
  P (GenerateContent (apiKey ai) params) = true ->
  emits P (generateContent env ai params).
Proof.
  intros H t. eexists. split; [reflexivity|]. cbn. now rewrite H.
Qed.

Lemma emits_fetch P env url init :
  P (FetchCall url init) = true -> emits P (fetch env url init).
Proof.
  intros H t. eexists. split; [reflexivity|]. cbn. now rewrite H.
Qed.

Lemma emits_randomUUID P env : P RandomUUID = true -> emits P (randomUUID env).
Proof.
  intros H t. eexists. split; [reflexivity|]. cbn. now rewrite H.
Qed.

Lemma emits_Date_now P env : P DateNow = true -> emits P (Date_now env).
Proof.
  intros H t. eexists. split; [reflexivity|]. cbn. now rewrite H.
Qed.

(** Decomposes a computation along its binds and handlers, leaving the
    side conditions on single events to [reflexivity]. *)
Ltac emits_step :=
  match goal with
  | |- emits _ (bind _ _) => apply emits_bind; [|intros ?]
  | |- emits _ (try_catch _ _) => apply emits_try_catch; [|intros ?]
  | |- emits _ (finally _ _) => apply emits_finally
  | |- emits _ (ret _) => apply emits_ret
  | |- emits _ (throw _) => apply emits_throw
  | |- emits _ (settle _) => apply emits_settle
  | |- emits _ (console_error _ _) => apply emits_emit; reflexivity
  | |- emits _ (alert _) => apply emits_emit; reflexivity
  | |- emits _ (emit _) => apply emits_emit; reflexivity
  | |- emits _ (generateContent _ _ _) => apply emits_generateContent; reflexivity
  | |- emits _ (fetch _ _ _) => apply emits_fetch; reflexivity
  | |- emits _ (randomUUID _) => apply emits_randomUUID; reflexivity
  | |- emits _ (Date_now _) => apply emits_Date_now; reflexivity
  | |- emits _ (response_text _) => apply emits_settle
  | |- emits _ (match ?x with _ => _ end) => destruct x
  | |- emits _ (if ?x then _ else _) => destruct x
  end.

Ltac emits_auto := repeat emits_step.

Lemma emits_response_json P r : emits P (response_json r).
Proof. unfold response_json. emits_auto. Qed.

Lemma emits_callOpenAICompatible P env baseURL model key sp up :
  (forall url init, P (FetchCall url init) = true) ->
  (forall l a, P (ConsoleError l a) = true) ->
  emits P (callOpenAICompatible env baseURL model key sp up).
Proof.
  intros HF HC. unfold callOpenAICompatible.
  apply emits_try_catch.
  - apply emits_bind; [apply emits_fetch, HF|]. intros r.
    apply emits_bind.
    + destruct (negb (ok r)); [|apply emits_ret].
      apply emits_bind; [apply emits_settle|]. intros b.
      apply emits_bind; [apply emits_emit, HC|]. intros _. apply emits_throw.
    + intros _. apply emits_bind; [apply emits_response_json|].
      intros d. apply emits_settle.
  - intros e. apply emits_bind; [apply emits_emit, HC|]. intros _. apply emits_throw.
Qed.

(* ================================================================== *)
(** ** The audit engine *)
(* ================================================================== *)

Ltac unfold_monad :=
  unfold try_catch, finally, bind, ret, throw, settle, console_error, alert,
    emit, generateContent, fetch, randomUUID, Date_now, response_text in *.

(** One run of the audit, by the provider's reply. *)
Lemma auditCopyContent_run env content platform customKey t :
  auditCopyContent env content platform customKey t =
  let key := apiKey (getGeminiClient env customKey) in
  let call := GenerateContent key (auditParams content platform) in
  match gemini_reply env t key (auditParams content platform) with
  | Rejected e =>
    (Fulfilled auditFallback,
     t ++ [call; ConsoleError (utf16 "Audit failed") (LogError e)])
  | Fulfilled response =>
    match Json.parse (or_else (text response) (utf16 "{}")) with
    | Some result => (Fulfilled result, t ++ [call])
    | None =>
      (Fulfilled auditFallback,
       t ++ [call;
             ConsoleError (utf16 "Audit failed")
               (LogError (SyntaxError (utf16 "Unexpected token in JSON")))])
    end
  end.
Proof.
  unfold auditCopyContent. unfold_monad. cbn zeta.
  destruct (gemini_reply env t _ _) as [response|e]; cbn.
  - destruct (Json.parse _); cbn; rewrite <- ?app_assoc; reflexivity.
  - rewrite <- app_assoc. reflexivity.
Qed.

Lemma auditCopyContent_fulfils env content platform customKey t :
  exists v, fst (auditCopyContent env content platform customKey t) = Fulfilled v.
Proof.
  rewrite auditCopyContent_run. cbn zeta.
  destruct (gemini_reply env t _ _) as [r|e]; [destruct (Json.parse _)|];
    eexists; reflexivity.
Qed.

(** C1, as the specification words it, fails: the provider answers
    without any text, which the audit reads as the empty object; every
    required field is missing, and the audit returns that empty object
    instead of the fallback. *)
Lemma audit_missing_field_counterexample :
  let env := stub (fun _ => Fulfilled {| text := None; candidates := None |}) unavailable in
  Json.parse (or_else None (utf16 "{}")) = Some (JObj [])
  /\ missing_field (JObj [])
  /\ fst (auditCopyContent env (JStr (utf16 "hi")) XIAOHONGSHU None [])
     = Fulfilled (JObj [])
  /\ ~ audit_fallback_as_specified.
Proof.
  cbn zeta.
  assert (P : Json.parse (or_else None (utf16 "{}")) = Some (JObj []))
    by (vm_compute; reflexivity).
  assert (M : missing_field (JObj [])).
  { exists (utf16 "headline"). split; [left|]; reflexivity. }
  assert (R : fst (auditCopyContent
                     (stub (fun _ => Fulfilled {| text := None; candidates := None |})
                        unavailable)
                     (JStr (utf16 "hi")) XIAOHONGSHU None [])
              = Fulfilled (JObj [])) by (vm_compute; reflexivity).
  repeat split; try assumption.
  intros H.
  specialize (H (stub (fun _ => Fulfilled {| text := None; candidates := None |})
                   unavailable)
                (JStr (utf16 "hi")) XIAOHONGSHU None []).
  cbn zeta in H. rewrite R in H.
  assert (Fulfilled (JObj []) = Fulfilled auditFallback) as E.
  { apply H. right. right. eexists. exists (JObj []).
    split; [reflexivity|]. split; assumption. }
  discriminate E.
Qed.

(** C1 (amended): the audit never raises; on a provider error and on a
    reply that does not parse as JSON it returns the fallback object; a
    reply that parses is returned as parsed, whatever fields it has. *)
Theorem audit_never_raises_fallback env content platform customKey t :
  let reply :=
    gemini_reply env t (apiKey (getGeminiClient env customKey))
      (auditParams content platform) in
  let result := fst (auditCopyContent env content platform customKey t) in
  (exists v, result = Fulfilled v)
  /\ ((exists e, reply = Rejected e)
      \/ (exists r, reply = Fulfilled r
                    /\ Json.parse (or_else (text r) (utf16 "{}")) = None) ->
      result = Fulfilled auditFallback)
  /\ (forall r v,
        reply = Fulfilled r ->
        Json.parse (or_else (text r) (utf16 "{}")) = Some v ->
        result = Fulfilled v).
Proof.
  cbn zeta. split; [apply auditCopyContent_fulfils|].
  rewrite auditCopyContent_run. cbn zeta. split.
  - intros [[e E]|[r [E N]]]; rewrite E; [reflexivity|]. now rewrite N.
  - intros r v E S. now rewrite E, S.
Qed.

(** A provider that is down, one that answers prose, and one that
    answers a score object. *)
Lemma audit_never_raises_fallback_witness :
  fst (auditCopyContent (stub (fun _ => unavailable) unavailable)
         (JStr (utf16 "hi")) XIAOHONGSHU None [])
  = Fulfilled auditFallback
  /\ fst (auditCopyContent (stub (fun _ => text_reply (utf16 "oops")) unavailable)
            (JStr (utf16 "hi")) XIAOHONGSHU None [])
     = Fulfilled auditFallback
  /\ fst (auditCopyContent (stub (fun _ => text_reply overscored_text) unavailable)
            (JStr (utf16 "hi")) XIAOHONGSHU None [])
     = Fulfilled
         (JObj
            [ (utf16 "headline", JNum {| neg := false; mant := 15; exp10 := 1 |});
              (utf16 "quality", JNum {| neg := false; mant := 75; exp10 := -1 |});
              (utf16 "emotion", JNum {| neg := false; mant := 6; exp10 := 1 |});
              (utf16 "trending", JNum {| neg := false; mant := 4; exp10 := 1 |});
              (utf16 "viralPotential", Json.num_of_N 55);
              (utf16 "overall", Json.num_of_N 62);
              (utf16 "suggestions", JArr []);
              (utf16 "pros", JArr []);
              (utf16 "sensitiveWords", JArr []) ]).
Proof.
  split; [|split].
  - apply (proj1 (proj2 (audit_never_raises_fallback
                           (stub (fun _ => unavailable) unavailable)
                           (JStr (utf16 "hi")) XIAOHONGSHU None []))).
    left. eexists. reflexivity.
  - apply (proj1 (proj2 (audit_never_raises_fallback
                           (stub (fun _ => text_reply (utf16 "oops")) unavailable)
                           (JStr (utf16 "hi")) XIAOHONGSHU None []))).
    right. eexists. split; [reflexivity|]. vm_compute. reflexivity.
  - eapply (proj2 (proj2 (audit_never_raises_fallback
                            (stub (fun _ => text_reply overscored_text) unavailable)
                            (JStr (utf16 "hi")) XIAOHONGSHU None []))).
    + reflexivity.
    + vm_compute. reflexivity.
Defined.

(** C9, as the specification words it, fails: the provider answers all
    nine fields with a headline score of 150 and a quality score of 7.5,
    and the audit returns them as they are. *)
Lemma audit_shape_counterexample :
  let env := stub (fun _ => text_reply overscored_text) unavailable in
  (exists v,
     fst (auditCopyContent env (JStr (utf16 "hi")) XIAOHONGSHU None []) = Fulfilled v
     /\ has_field is_score v (utf16 "headline") = false
     /\ has_field is_score v (utf16 "quality") = false
     /\ is_AuditScore v = false)
  /\ ~ audit_shape_as_specified.
Proof.
  cbn zeta.
  assert (R : exists v,
     fst (auditCopyContent (stub (fun _ => text_reply overscored_text) unavailable)
            (JStr (utf16 "hi")) XIAOHONGSHU None []) = Fulfilled v
     /\ has_field is_score v (utf16 "headline") = false
     /\ has_field is_score v (utf16 "quality") = false
     /\ is_AuditScore v = false).
  { eexists. split; [vm_compute; reflexivity|]. repeat split; vm_compute; reflexivity. }
  split; [exact R|].
  intros H. destruct R as (v & Ev & _ & _ & Bad).
  destruct (H (stub (fun _ => text_reply overscored_text) unavailable)
              (JStr (utf16 "hi")) XIAOHONGSHU None []) as (w & Ew & Good).
  rewrite Ev in Ew. injection Ew as <-. rewrite Bad in Good. discriminate.
Qed.

(** C9 (amended): the fallback object has the full [AuditScore] shape,
    nine fields with six integer scores in range (all of them 0); any
    other result is the parsed reply of the provider, unchecked; the
    request names all nine fields as required in its response schema. *)
Theorem audit_result_is_fallback_or_reply env content platform customKey t :
  let key := apiKey (getGeminiClient env customKey) in
  is_AuditScore auditFallback = true
  /\ responseSchema_required (auditParams content platform) = required_fields
  /\ exists v,
       fst (auditCopyContent env content platform customKey t) = Fulfilled v
       /\ (v = auditFallback
           \/ exists r,
                gemini_reply env t key (auditParams content platform) = Fulfilled r
                /\ Json.parse (or_else (text r) (utf16 "{}")) = Some v).
Proof.
  cbn zeta. split; [vm_compute; reflexivity|]. split; [reflexivity|].
  rewrite auditCopyContent_run. cbn zeta.
  destruct (gemini_reply env t _ _) as [r|e] eqn:E.
  - destruct (Json.parse _) as [v|] eqn:S.
    + exists v. split; [reflexivity|]. right. exists r. now split.
    + exists auditFallback. split; [reflexivity|now left].
  - exists auditFallback. split; [reflexivity|now left].
Qed.

(* ================================================================== *)
(** ** Tagging *)
(* ================================================================== *)

Lemma firstn_Forall {A} (P : A -> Prop) n (l : list A) :
  Forall P l -> Forall P (firstn n l).
Proof.
  intros H. revert n. induction H; intros [|n]; cbn; constructor; auto.
Qed.

Lemma cleanupTags_length s : (List.length (cleanupTags s) <= 3)%nat.
Proof. unfold cleanupTags, slice0. apply firstn_le_length. Qed.

Lemma cleanupTags_nonempty s : Forall (fun l => l <> []) (cleanupTags s).
Proof.
  unfold cleanupTags, slice0. apply firstn_Forall.
  apply Forall_forall. intros l H. apply filter_In in H as [_ H].
  destruct l; [discriminate|congruence].
Qed.

(** One run of the tagging, by the outcome of the text generation. *)
Lemma generateTagsForThought_run env thoughtContent customKey provider t :
  generateTagsForThought env thoughtContent customKey provider t =
  let opts := {| opt_customApiKey := customKey; opt_aiProvider := provider;
                 opt_thinkingBudget := None |} in
  match generateText env tagSystemPrompt (tagUserPrompt thoughtContent) (Some opts) t with
  | (Fulfilled (JStr s), t') => (Fulfilled (cleanupTags s), t')
  | (Fulfilled _, t') =>
    (Fulfilled [utf16 "通用"],
     t' ++ [ConsoleError (utf16 "Tag generation error")
              (LogError (TypeError (utf16 "result.replace is not a function")))])
  | (Rejected e, t') =>
    (Fulfilled [utf16 "通用"],
     t' ++ [ConsoleError (utf16 "Tag generation error") (LogError e)])
  end.
Proof.
  unfold generateTagsForThought. unfold_monad. cbn zeta.
  destruct (generateText _ _ _ _ t) as [[[]|e] t']; reflexivity.
Qed.

(** C2, as the specification words it, fails: the provider answers with
    no text, the reply splits into no label, and the tagging returns the
    empty list. *)
Lemma tagging_counterexample :
  let env := stub (fun _ => Fulfilled {| text := None; candidates := None |}) unavailable in
  fst (generateTagsForThought env (utf16 "learned to cook pasta today") None None [])
  = Fulfilled []
  /\ ~ tagging_as_specified.
Proof.
  cbn zeta.
  assert (R : fst (generateTagsForThought
                     (stub (fun _ => Fulfilled {| text := None; candidates := None |})
                        unavailable)
                     (utf16 "learned to cook pasta today") None None [])
              = Fulfilled []) by (vm_compute; reflexivity).
  split; [exact R|].
  intros H.
  destruct (H (stub (fun _ => Fulfilled {| text := None; candidates := None |}) unavailable)
              (utf16 "learned to cook pasta today") None None [])
    as (labels & E & [L _] & _).
  rewrite R in E. injection E as <-. cbn in L. lia.
Qed.

(** C2 (amended): the tagging returns at most three labels, none of them
    empty (possibly no label at all): the reply with the localized comma
    replaced by the ASCII one, split on it, trimmed, emptied of empty
    pieces and cut to three; when the provider call fails it returns
    exactly the one-element sentinel list. *)
Theorem tagging_labels env thoughtContent customKey provider t :
  let generated :=
    fst (generateText env tagSystemPrompt (tagUserPrompt thoughtContent)
           (Some {| opt_customApiKey := customKey; opt_aiProvider := provider;
                    opt_thinkingBudget := None |}) t) in
  let result := fst (generateTagsForThought env thoughtContent customKey provider t) in
  (exists labels,
     result = Fulfilled labels
     /\ (List.length labels <= 3)%nat
     /\ Forall (fun l => l <> []) labels)
  /\ (forall s, generated = Fulfilled (JStr s) ->
        result =
        Fulfilled
          (slice0 3
             (filter (fun l => nonempty l)
                (map trim (split 44 (replaceAll 65292 44 s))))))
  /\ (forall e, generated = Rejected e -> result = Fulfilled [utf16 "通用"]).
Proof.
  cbn zeta. rewrite generateTagsForThought_run. cbn zeta.
  destruct (generateText _ _ _ _ t) as [[v|e] t']; cbn [fst].
  - split; [|split; [|discriminate]].
    + destruct v; try (exists [utf16 "通用"]; split; [reflexivity|];
        split; [cbn; lia|]; repeat constructor; discriminate).
      exists (cleanupTags s). split; [reflexivity|].
      split; [apply cleanupTags_length|apply cleanupTags_nonempty].
    + intros s [= ->]. reflexivity.
  - split; [|split; [discriminate|reflexivity]].
    exists [utf16 "通用"]. split; [reflexivity|].
    split; [cbn; lia|]. repeat constructor. discriminate.
Qed.

(** A reply with both commas, blanks and a fourth label; and a provider
    that is down. *)
Lemma tagging_labels_witness :
  fst (generateTagsForThought
         (stub (fun _ => text_reply (utf16 "美食， 生活,,日常 ,旅行")) unavailable)
         (utf16 "learned to cook pasta today") None None [])
  = Fulfilled [utf16 "美食"; utf16 "生活"; utf16 "日常"]
  /\ fst (generateTagsForThought (stub (fun _ => unavailable) unavailable)
            (utf16 "learned to cook pasta today") None (Some (utf16 "deepseek")) [])
     = Fulfilled [utf16 "通用"].
Proof.
  split.
  - rewrite (proj1 (proj2 (tagging_labels
               (stub (fun _ => text_reply (utf16 "美食， 生活,,日常 ,旅行")) unavailable)
               (utf16 "learned to cook pasta today") None None []))
               (utf16 "美食， 生活,,日常 ,旅行")).
    + vm_compute. reflexivity.
    + vm_compute. reflexivity.
  - apply (proj2 (proj2 (tagging_labels (stub (fun _ => unavailable) unavailable)
               (utf16 "learned to cook pasta today") None (Some (utf16 "deepseek")) []))
               (Error (utf16 "503 Service Unavailable"))).
    vm_compute. reflexivity.
Defined.

(** The scenario of the specification: a stub answering two labels. *)
Example tagging_pasta :
  fst (generateTagsForThought
         (stub (fun _ => text_reply (utf16 "美食, 生活")) unavailable)
         (utf16 "learned to cook pasta today") None None [])
  = Fulfilled [utf16 "美食"; utf16 "生活"].
Proof. vm_compute. reflexivity. Qed.

(* ================================================================== *)
(** ** The adapter of the alternate providers *)
(* ================================================================== *)

(** One run of [callOpenAICompatible], by the reply of the endpoint. *)
Lemma callOpenAICompatible_run env baseURL model key systemPrompt userPrompt t :
  callOpenAICompatible env baseURL model key systemPrompt userPrompt t =
  let init := chatRequest model key systemPrompt userPrompt in
  let t1 := t ++ [FetchCall baseURL init] in
  let failed e :=
    (@Rejected json e,
     t1 ++ [ConsoleError (utf16 "External API call failed") (LogError e)]) in
  match fetch_reply env t baseURL init with
  | Rejected e => failed e
  | Fulfilled r =>
    match read_body r with
    | Rejected e => failed e
    | Fulfilled b =>
      if ok r then
        match Json.parse b with
        | None => failed (SyntaxError (utf16 "Unexpected token in JSON"))
        | Some data =>
          match first_choice_content data with
          | Fulfilled v => (Fulfilled v, t1)
          | Rejected e => failed e
          end
        end
      else
        let e := Error (utf16 "API Error: " ++ decimal (status r)) in
        (Rejected e,
         t1 ++ [ConsoleError (utf16 "API Call failed:") (LogText b);
                ConsoleError (utf16 "External API call failed") (LogError e)])
    end
  end.
Proof.
  unfold callOpenAICompatible, response_json. unfold_monad. cbn zeta.
  destruct (fetch_reply env t _ _) as [r|e]; cbn; [|reflexivity].
  destruct (ok r); cbn.
  - destruct (read_body r) as [b|e]; cbn; [|reflexivity].
    destruct (Json.parse b) as [data|]; cbn; [|reflexivity].
    destruct (first_choice_content data); reflexivity.
  - destruct (read_body r) as [b|e]; cbn; [|reflexivity].
    rewrite <- app_assoc. reflexivity.
Qed.

(** C8, as the specification words it, fails on both counts: the error
    of a 401 reply names the status and not the body, which only goes to
    the console; and a 200 reply whose body is the JSON [null] carries no
    text and makes the call fail. *)
Lemma http_adapter_counterexample :
  let call env :=
    callOpenAICompatible env (utf16 "https://api.deepseek.com/chat/completions")
      (utf16 "deepseek-chat") (utf16 "sk-1") (utf16 "system") (utf16 "user") [] in
  fst (call (stub (fun _ => unavailable) (http 401 (utf16 "Authentication Fails"))))
  = Rejected (Error (utf16 "API Error: 401"))
  /\ includes_text (utf16 "API Error: 401") (utf16 "Authentication Fails") = false
  /\ ~ http_error_carries_body_as_specified
  /\ fst (call (stub (fun _ => unavailable) (http 200 (utf16 "null"))))
     = Rejected (TypeError (utf16 "Cannot read properties of null (reading 'choices')"))
  /\ ~ empty_payload_as_specified.
Proof.
  cbn zeta.
  assert (R1 : fst (callOpenAICompatible
                      (stub (fun _ => unavailable) (http 401 (utf16 "Authentication Fails")))
                      (utf16 "https://api.deepseek.com/chat/completions")
                      (utf16 "deepseek-chat") (utf16 "sk-1") (utf16 "system")
                      (utf16 "user") [])
               = Rejected (Error (utf16 "API Error: 401")))
    by (vm_compute; reflexivity).
  assert (R2 : fst (callOpenAICompatible
                      (stub (fun _ => unavailable) (http 200 (utf16 "null")))
                      (utf16 "https://api.deepseek.com/chat/completions")
                      (utf16 "deepseek-chat") (utf16 "sk-1") (utf16 "system")
                      (utf16 "user") [])
               = Rejected (TypeError
                   (utf16 "Cannot read properties of null (reading 'choices')")))
    by (vm_compute; reflexivity).
  split; [exact R1|]. split; [vm_compute; reflexivity|].
  split; [|split; [exact R2|]].
  - intros H.
    destruct (H (stub (fun _ => unavailable) (http 401 (utf16 "Authentication Fails")))
                (utf16 "https://api.deepseek.com/chat/completions")
                (utf16 "deepseek-chat") (utf16 "sk-1") (utf16 "system") (utf16 "user") []
                {| status := 401; read_body := Fulfilled (utf16 "Authentication Fails") |}
                (utf16 "Authentication Fails") eq_refl eq_refl eq_refl)
      as (e & E & C).
    rewrite R1 in E. injection E as <-. vm_compute in C. discriminate.
  - intros H.
    specialize (H (stub (fun _ => unavailable) (http 200 (utf16 "null")))
                  (utf16 "https://api.deepseek.com/chat/completions")
                  (utf16 "deepseek-chat") (utf16 "sk-1") (utf16 "system") (utf16 "user") []
                  {| status := 200; read_body := Fulfilled (utf16 "null") |}
                  (utf16 "null") JNull eq_refl eq_refl eq_refl).
    rewrite R2 in H.
    assert (Rejected (TypeError
              (utf16 "Cannot read properties of null (reading 'choices')"))
            = Fulfilled (JStr [])) as E.
    { apply H; [vm_compute; reflexivity|]. intros s. vm_compute. discriminate. }
    discriminate E.
Qed.

(** C8 (amended): on a non-2xx response the call fails: when the body
    of the response can be read, with the error [API Error: <status>],
    the body going to the console only; when reading the body fails, with
    the error of that read.  On a 2xx response whose body is read and is
    JSON other than [null], with [choices[0].message.content] absent or
    falsy, the call returns the empty string. *)
Theorem http_adapter_failure_and_default env baseURL model key systemPrompt userPrompt t r :
  fetch_reply env t baseURL (chatRequest model key systemPrompt userPrompt) = Fulfilled r ->
  let run := callOpenAICompatible env baseURL model key systemPrompt userPrompt t in
  let call := FetchCall baseURL (chatRequest model key systemPrompt userPrompt) in
  (ok r = false ->
   (exists e, fst run = Rejected e)
   /\ match read_body r with
      | Fulfilled b =>
        let e := Error (utf16 "API Error: " ++ decimal (status r)) in
        run = (Rejected e,
               t ++ [call;
                     ConsoleError (utf16 "API Call failed:") (LogText b);
                     ConsoleError (utf16 "External API call failed") (LogError e)])
      | Rejected e =>
        run = (Rejected e,
               t ++ [call;
                     ConsoleError (utf16 "External API call failed") (LogError e)])
      end)
  /\ (ok r = true ->
      forall b data,
        read_body r = Fulfilled b ->
        Json.parse b = Some data ->
        data <> JNull ->
        (choice_content data = None
         \/ exists v, choice_content data = Some v /\ Json.truthy v = false) ->
        run = (Fulfilled (JStr []), t ++ [call])).
Proof.
  intros F. cbn zeta. rewrite callOpenAICompatible_run. cbn zeta.
  rewrite F. split; intros K.
  - destruct (read_body r) as [b|e]; [rewrite K|];
      (split; [eexists; reflexivity|]); rewrite <- app_assoc; reflexivity.
  - intros b data B P N C. rewrite B, K, P.
    unfold first_choice_content, or_empty.
    destruct C as [C|(v & C & T)]; rewrite C; [|rewrite T];
      destruct data; try reflexivity; congruence.
Qed.

(** A 500 reply; a 200 reply with an empty list of choices; a 200
    reply whose content is a number too small for a double, which is
    zero; and a 502 reply whose body cannot be read. *)
Lemma http_adapter_failure_and_default_witness :
  let call env :=
    callOpenAICompatible env
      (utf16 "https://dashscope.aliyuncs.com/compatible-mode/v1/chat/completions")
      (utf16 "qwen-plus") (utf16 "sk-1") (utf16 "system") (utf16 "user") [] in
  fst (call (stub (fun _ => unavailable) (http 500 (utf16 "upstream exploded"))))
  = Rejected (Error (utf16 "API Error: 500"))
  /\ fst (call (stub (fun _ => unavailable)
                  (http 200 (utf16 "{" ++ quoted "choices" ++ utf16 ":[]}"))))
     = Fulfilled (JStr [])
  /\ fst (call (stub (fun _ => unavailable) (http 200 tiny_body)))
     = Fulfilled (JStr [])
  /\ fst (call (stub (fun _ => unavailable)
                  (Fulfilled {| status := 502;
                                read_body := Rejected (TypeError (utf16 "terminated")) |})))
     = Rejected (TypeError (utf16 "terminated")).
Proof.
  cbn zeta. split; [|split; [|split]].
  - rewrite (proj2 (proj1 (http_adapter_failure_and_default
               (stub (fun _ => unavailable) (http 500 (utf16 "upstream exploded")))
               (utf16 "https://dashscope.aliyuncs.com/compatible-mode/v1/chat/completions")
               (utf16 "qwen-plus") (utf16 "sk-1") (utf16 "system") (utf16 "user") []
               {| status := 500; read_body := Fulfilled (utf16 "upstream exploded") |}
               eq_refl) eq_refl)).
    vm_compute. reflexivity.
  - rewrite (proj2 (http_adapter_failure_and_default
               (stub (fun _ => unavailable)
                  (http 200 (utf16 "{" ++ quoted "choices" ++ utf16 ":[]}")))
               (utf16 "https://dashscope.aliyuncs.com/compatible-mode/v1/chat/completions")
               (utf16 "qwen-plus") (utf16 "sk-1") (utf16 "system") (utf16 "user") []
               {| status := 200;
                  read_body := Fulfilled (utf16 "{" ++ quoted "choices" ++ utf16 ":[]}") |}
               eq_refl) eq_refl
               (utf16 "{" ++ quoted "choices" ++ utf16 ":[]}")
               (JObj [(utf16 "choices", JArr [])])).
    + reflexivity.
    + reflexivity.
    + vm_compute. reflexivity.
    + discriminate.
    + left. vm_compute. reflexivity.
  - rewrite (proj2 (http_adapter_failure_and_default
               (stub (fun _ => unavailable) (http 200 tiny_body))
               (utf16 "https://dashscope.aliyuncs.com/compatible-mode/v1/chat/completions")
               (utf16 "qwen-plus") (utf16 "sk-1") (utf16 "system") (utf16 "user") []
               {| status := 200; read_body := Fulfilled tiny_body |}
               eq_refl) eq_refl tiny_body tiny_data).
    + reflexivity.
    + reflexivity.
    + vm_compute. reflexivity.
    + discriminate.
    + right. exists (JNum {| neg := false; mant := 1; exp10 := -400 |}).
      split; vm_compute; reflexivity.
  - rewrite (proj2 (proj1 (http_adapter_failure_and_default
               (stub (fun _ => unavailable)
                  (Fulfilled {| status := 502;
                                read_body := Rejected (TypeError (utf16 "terminated")) |}))
               (utf16 "https://dashscope.aliyuncs.com/compatible-mode/v1/chat/completions")
               (utf16 "qwen-plus") (utf16 "sk-1") (utf16 "system") (utf16 "user") []
               {| status := 502; read_body := Rejected (TypeError (utf16 "terminated")) |}
               eq_refl) eq_refl)).
    reflexivity.
Defined.

(* ================================================================== *)
(** ** Copy generation: the content source and the target language *)
(* ================================================================== *)

Lemma trim_nonempty b : nonempty (trim b) = true -> nonempty b = true.
Proof. destruct b; [discriminate|reflexivity]. Qed.

(** C6: a base draft whose trimmed text is not empty is the content
    source, verbatim under its heading, whatever the fragments and the
    selection are; with the base draft absent or blank the content source
    is the heading of the fragments followed by the annotated lines of
    exactly the selected fragments, in order. *)
Theorem base_draft_priority config thoughts :
  (forall b,
     nonempty (trim b) = true ->
     contentSource config thoughts (Some b)
     = utf16 "基础草稿内容 (请基于此内容进行优化和格式化):" ++ LF ++ b
     /\ forall config' thoughts',
          contentSource config' thoughts' (Some b)
          = contentSource config thoughts (Some b))
  /\ (forall baseContent,
        baseContent = None
        \/ (exists b, baseContent = Some b /\ trim b = []) ->
        contentSource config thoughts baseContent
        = utf16 "用户碎片想法:" ++ LF
          ++ join LF
               (map (fun t =>
                       utf16 "- " ++ content t ++ utf16 " (标签: "
                       ++ join (utf16 ", ") (tags t) ++ utf16 ")")
                  (filter (fun t => includes (selectedThoughtIds config) (id t))
                     thoughts))).
Proof.
  split.
  - intros b T. assert (N := trim_nonempty b T).
    unfold contentSource. rewrite T, N. cbn [andb ToString.of_option].
    split; reflexivity.
  - intros baseContent [->|(b & -> & T)]; unfold contentSource.
    + reflexivity.
    + rewrite T. cbn [nonempty]. rewrite andb_false_r. reflexivity.
Qed.

(** A draft with blanks around it, and a blank draft with one fragment
    selected out of two. *)
Lemma base_draft_priority_witness :
  let fragment :=
    {| id := utf16 "t1"; content := utf16 "pasta night";
       tags := [utf16 "food"; utf16 "life"]; createdAt := 0 |} in
  let other :=
    {| id := utf16 "t2"; content := utf16 "rainy commute";
       tags := [utf16 "city"]; createdAt := 1 |} in
  let cfg :=
    {| settings := {| niche := FOOD; styleDescription := utf16 "warm";
                      customApiKey := None; aiProvider := None |};
       platform := XIAOHONGSHU; refUrl := []; selectedThoughtIds := [utf16 "t1"];
       styleMode := manual; withImage := false |} in
  contentSource cfg [fragment; other] (Some (utf16 " My draft "))
  = utf16 "基础草稿内容 (请基于此内容进行优化和格式化):" ++ LF ++ utf16 " My draft "
  /\ contentSource cfg [fragment; other] (Some (utf16 "   "))
     = utf16 "用户碎片想法:" ++ LF ++ utf16 "- pasta night (标签: food, life)".
Proof.
  intros fragment other cfg. split.
  - refine (proj1 (proj1 (base_draft_priority cfg [fragment; other])
                     (utf16 " My draft ") _)).
    vm_compute. reflexivity.
  - rewrite (proj2 (base_draft_priority cfg [fragment; other]) (Some (utf16 "   "))).
    + vm_compute. reflexivity.
    + right. exists (utf16 "   "). split; [reflexivity|]. vm_compute. reflexivity.
Defined.

Lemma copyPromptHead_asks_language config thoughts baseContent :
  exists pre,
    copyPromptHead config thoughts baseContent = pre ++ utf16 "1. 语言: ".
Proof.
  unfold copyPromptHead.
  replace (utf16 "
    
    要求:
    1. 语言: ")
    with (utf16 "
    
    要求:
    " ++ utf16 "1. 语言: ")
    by (vm_compute; reflexivity).
  rewrite !app_assoc. eexists. reflexivity.
Qed.

Lemma copyPromptTail_closes_language config :
  exists post, copyPromptTail config = utf16 "." ++ post.
Proof.
  unfold copyPromptTail.
  replace (utf16 ".
    2. 格式: ")
    with (utf16 "." ++ utf16 "
    2. 格式: ")
    by (vm_compute; reflexivity).
  rewrite <- !app_assoc. eexists. reflexivity.
Qed.

(** *** Routing of the text requests *)

Lemma eqb_deepseek :
  JS.eqb (or_else (Some (utf16 "deepseek")) (utf16 "gemini")) (utf16 "deepseek") = true.
Proof. vm_compute. reflexivity. Qed.

Lemma eqb_qwen :
  JS.eqb (or_else (Some (utf16 "qwen")) (utf16 "gemini")) (utf16 "deepseek") = false
  /\ JS.eqb (or_else (Some (utf16 "qwen")) (utf16 "gemini")) (utf16 "qwen") = true.
Proof. split; vm_compute; reflexivity. Qed.

Lemma generateText_deepseek env sp up key budget :
  generateText env sp up
    (Some {| opt_customApiKey := key; opt_aiProvider := Some (utf16 "deepseek");
             opt_thinkingBudget := budget |})
  = callOpenAICompatible env deepseek_url (utf16 "deepseek-chat")
      (or_else key (or_else (API_KEY env) [])) sp up.
Proof.
  unfold generateText. cbn [opt_aiProvider opt_customApiKey].
  rewrite eqb_deepseek. reflexivity.
Qed.

Lemma generateText_qwen env sp up key budget :
  generateText env sp up
    (Some {| opt_customApiKey := key; opt_aiProvider := Some (utf16 "qwen");
             opt_thinkingBudget := budget |})
  = callOpenAICompatible env qwen_url (utf16 "qwen-plus")
      (or_else key (or_else (API_KEY env) [])) sp up.
Proof.
  unfold generateText. cbn [opt_aiProvider opt_customApiKey].
  rewrite (proj1 eqb_qwen), (proj2 eqb_qwen). reflexivity.
Qed.

(** The adapter posts its request first and never calls the primary
    provider. *)
Lemma callOpenAICompatible_trace env baseURL model key sp up t :
  exists evs,
    snd (callOpenAICompatible env baseURL model key sp up t)
    = t ++ FetchCall baseURL (chatRequest model key sp up) :: evs
    /\ forallb no_gemini evs = true.
Proof.
  rewrite callOpenAICompatible_run. cbn zeta.
  destruct (fetch_reply env t _ _) as [r|e]; cbn [snd].
  2: { rewrite <- app_assoc. eexists. split; reflexivity. }
  destruct (read_body r) as [b|e].
  2: { rewrite <- app_assoc. eexists. split; reflexivity. }
  destruct (ok r).
  - destruct (Json.parse b) as [data|].
    2: { cbn [snd]. rewrite <- app_assoc. eexists. split; reflexivity. }
    destruct (first_choice_content data); cbn [snd].
    + exists []. split; reflexivity.
    + rewrite <- app_assoc. eexists. split; reflexivity.
  - cbn [snd]. rewrite <- app_assoc. eexists. split; reflexivity.
Qed.

(** One run of the copy generation, by the configured provider. *)
Lemma generateViralCopy_run env config thoughts baseContent t :
  generateViralCopy env config thoughts baseContent t =
  let userPrompt := copyUserPrompt config thoughts baseContent in
  let key := customApiKey (settings config) in
  match aiProvider (settings config) with
  | Some deepseek =>
    callOpenAICompatible env deepseek_url (utf16 "deepseek-chat")
      (or_else key (or_else (API_KEY env) [])) copySystemPrompt userPrompt t
  | Some qwen =>
    callOpenAICompatible env qwen_url (utf16 "qwen-plus")
      (or_else key (or_else (API_KEY env) [])) copySystemPrompt userPrompt t
  | Some gemini | None =>
    let ai := getGeminiClient env key in
    (match gemini_reply env t (apiKey ai) (copyParams userPrompt) with
     | Fulfilled r => Fulfilled (JStr (or_else (text r) []))
     | Rejected e => Rejected e
     end,
     t ++ [GenerateContent (apiKey ai) (copyParams userPrompt)])
  end.
Proof.
  unfold generateViralCopy. cbn zeta.
  destruct (aiProvider (settings config)) as [[]|]; cbn [AiProvider_value].
  - unfold_monad. destruct (gemini_reply env t _ _); reflexivity.
  - rewrite generateText_deepseek. reflexivity.
  - rewrite generateText_qwen. reflexivity.
  - unfold_monad. destruct (gemini_reply env t _ _); reflexivity.
Qed.

(** The copy generation adds requests and console output only. *)
Lemma generateViralCopy_emits env config thoughts baseContent :
  emits service_event (generateViralCopy env config thoughts baseContent).
Proof.
  unfold generateViralCopy. cbn zeta.
  destruct (aiProvider (settings config)) as [[]|].
  - emits_auto.
  - cbn [AiProvider_value]. rewrite generateText_deepseek.
    now apply emits_callOpenAICompatible.
  - cbn [AiProvider_value]. rewrite generateText_qwen.
    now apply emits_callOpenAICompatible.
  - emits_auto.
Qed.

(** C7: the user prompt is the fixed text up to the language label, the
    target language, and the rest, and it is the prompt of the first
    request of the copy generation; the target language is English for
    TikTok, Instagram and X and Simplified Chinese for every other
    platform. *)
Theorem platform_determines_language env config thoughts baseContent t :
  let userPrompt := copyUserPrompt config thoughts baseContent in
  let language :=
    match platform config with
    | TIKTOK | INSTAGRAM | X => utf16 "English"
    | XIAOHONGSHU | WECHAT_MOMENTS | DOUYIN => utf16 "简体中文 (Simplified Chinese)"
    end in
  userPrompt
  = copyPromptHead config thoughts baseContent ++ language ++ copyPromptTail config
  /\ (exists pre,
        copyPromptHead config thoughts baseContent = pre ++ utf16 "1. 语言: ")
  /\ (exists post, copyPromptTail config = utf16 "." ++ post)
  /\ (exists request later,
        snd (generateViralCopy env config thoughts baseContent t)
        = t ++ request :: later
        /\ user_prompt_of request = Some userPrompt).
Proof.
  cbn zeta. split; [|split; [|split]].
  - unfold copyUserPrompt, targetLanguage, isEnglishPlatform.
    destruct (platform config); reflexivity.
  - apply copyPromptHead_asks_language.
  - apply copyPromptTail_closes_language.
  - rewrite generateViralCopy_run. cbn zeta.
    destruct (aiProvider (settings config)) as [[]|].
    + eexists. exists []. split; reflexivity.
    + destruct (callOpenAICompatible_trace env deepseek_url (utf16 "deepseek-chat")
                  (or_else (customApiKey (settings config)) (or_else (API_KEY env) []))
                  copySystemPrompt (copyUserPrompt config thoughts baseContent) t)
        as (evs & E & _).
      rewrite E. eexists. exists evs. split; reflexivity.
    + destruct (callOpenAICompatible_trace env qwen_url (utf16 "qwen-plus")
                  (or_else (customApiKey (settings config)) (or_else (API_KEY env) []))
                  copySystemPrompt (copyUserPrompt config thoughts baseContent) t)
        as (evs & E & _).
      rewrite E. eexists. exists evs. split; reflexivity.
    + eexists. exists []. split; reflexivity.
Qed.

(* ================================================================== *)
(** ** Image synthesis *)
(* ================================================================== *)

Lemma find_none_of_forall {A} (f : A -> bool) (l : list A) :
  (forall x, In x l -> f x = false) -> find f l = None.
Proof.
  induction l as [|x l IH]; intros H; [reflexivity|]. cbn.
  rewrite (H x (or_introl eq_refl)). apply IH. intros y Hy. apply H. now right.
Qed.

Lemma firstInlineData_none r : no_inline_payload r -> firstInlineData r = None.
Proof.
  intros H. unfold firstInlineData.
  destruct (candidates r) as [[|c cs]|] eqn:C; try reflexivity.
  destruct (candidate_parts c) as [ps|] eqn:P; [|reflexivity].
  rewrite find_none_of_forall; [reflexivity|].
  intros p Hp. rewrite (H (c :: cs) c ps p C (or_introl eq_refl) P Hp). reflexivity.
Qed.

(** One run of the image synthesis, by the two replies. *)
Lemma generateImageForCopy_run env copyText niche customKey t :
  generateImageForCopy env (JStr copyText) niche customKey t =
  let key := apiKey (getGeminiClient env customKey) in
  let ask := imagePromptParams copyText niche in
  let t1 := t ++ [GenerateContent key ask] in
  match gemini_reply env t key ask with
  | Rejected e => (Rejected e, t1)
  | Fulfilled r1 =>
    let draw := imageParams (imagePromptOf r1 niche) in
    let t2 := t1 ++ [GenerateContent key draw] in
    let failed e :=
      (@Rejected jsstring e,
       t2 ++ [ConsoleError (utf16 "Image generation failed") (LogError e)]) in
    match gemini_reply env t1 key draw with
    | Rejected e => failed e
    | Fulfilled r2 =>
      match firstInlineData r2 with
      | Some blob =>
        (Fulfilled (utf16 "data:image/png;base64," ++ ToString.of_option (data blob)), t2)
      | None => failed (Error (utf16 "No image data found"))
      end
    end
  end.
Proof.
  unfold generateImageForCopy. unfold_monad. cbn zeta.
  destruct (gemini_reply env t _ _) as [r1|e]; [|reflexivity].
  destruct (gemini_reply env (t ++ _) _ _) as [r2|e]; [|reflexivity].
  destruct (firstInlineData r2); reflexivity.
Qed.

Lemma generateImageForCopy_emits env copyText niche customKey :
  emits service_event (generateImageForCopy env copyText niche customKey).
Proof. unfold generateImageForCopy. cbn zeta. emits_auto. Qed.

Lemma auditCopyContent_emits env content platform customKey :
  emits service_event (auditCopyContent env content platform customKey).
Proof. unfold auditCopyContent. cbn zeta. emits_auto. Qed.

(* ================================================================== *)
(** ** The handlers of the generation tab *)
(* ================================================================== *)

Lemma reduce_app st evs evs' : reduce (reduce st evs) evs' = reduce st (evs ++ evs').
Proof. unfold reduce. now rewrite fold_left_app. Qed.

(** Requests and console output leave the state of the tab alone. *)
Lemma reduce_service st evs :
  forallb service_event evs = true -> reduce st evs = st.
Proof.
  revert st. induction evs as [|e evs IH]; intros st H; [reflexivity|].
  cbn in H. apply andb_prop in H as [He H].
  change (reduce (reduce1 st e) evs = st).
  destruct e; try discriminate; cbn [reduce1]; now apply IH.
Qed.

Lemma imageStep_emits env props st content :
  emits service_event (imageStep env props st content).
Proof.
  unfold imageStep. destruct (st_withImage st); [|apply emits_ret].
  apply emits_try_catch.
  - apply emits_bind; [apply generateImageForCopy_emits|]. intros. apply emits_ret.
  - intros e. emits_auto.
Qed.

(** The image step always completes; it yields no URL when no image is
    asked for and when the synthesis fails. *)
Lemma imageStep_run env props st content t :
  exists url evs,
    imageStep env props st content t = (Fulfilled url, t ++ evs)
    /\ forallb service_event evs = true
    /\ (st_withImage st = false -> url = None /\ evs = [])
    /\ ((exists e, fst (generateImageForCopy env content
                          (niche (globalSettings props))
                          (customApiKey (globalSettings props)) t) = Rejected e) ->
        url = None).
Proof.
  unfold imageStep. destruct (st_withImage st).
  - unfold_monad.
    destruct (generateImageForCopy_emits env content (niche (globalSettings props))
                (customApiKey (globalSettings props)) t) as (evs & E & F).
    destruct (generateImageForCopy env content _ _ t) as [[url|e] t1];
      cbn [snd fst] in *; subst t1.
    + exists (Some url), evs. repeat split; try assumption; try discriminate.
      intros [e H]. discriminate.
    + exists None, (evs ++ [ConsoleError (utf16 "Image generation failed") (LogError e)]).
      rewrite app_assoc. repeat split; try discriminate.
      rewrite forallb_app, F. reflexivity.
  - exists None, []. unfold ret. rewrite app_nil_r. repeat split.
Qed.

(** A cycle whose copy step fails. *)
Lemma handleGenerate_copy_failed env props st t e t1 :
  generateViralCopy env (fullConfig props st) (thoughts props)
    (Some (previewContent st)) (t ++ [SetIsGenerating true]) = (Rejected e, t1) ->
  handleGenerate env props st t
  = (Fulfilled tt,
     t1 ++ [Alert (utf16 "生成失败，请检查网络或API Key"); SetIsGenerating false]).
Proof.
  intros H. unfold handleGenerate. unfold_monad. rewrite H.
  rewrite <- app_assoc. reflexivity.
Qed.

(** A cycle whose copy step succeeds. *)
Lemma handleGenerate_copy_done env props st t content t1 url t2 score t3 :
  generateViralCopy env (fullConfig props st) (thoughts props)
    (Some (previewContent st)) (t ++ [SetIsGenerating true]) = (Fulfilled content, t1) ->
  imageStep env props st content t1 = (Fulfilled url, t2) ->
  auditCopyContent env content (st_platform st)
    (customApiKey (globalSettings props)) t2 = (Fulfilled score, t3) ->
  handleGenerate env props st t
  = (Fulfilled tt,
     t3 ++ [RandomUUID; DateNow;
            SetCurrentCopy
              {| copy_id := uuid_at env t3;
                 config := fullConfig props st;
                 copy_content := content;
                 audit := score;
                 imageUrl := url;
                 copy_createdAt := clock_at env (t3 ++ [RandomUUID]) |};
            SetEditedResult content;
            SetViewState view_result;
            SetTimeoutScrollTop 100;
            SetIsGenerating false]).
Proof.
  intros H1 H2 H3. unfold handleGenerate. unfold_monad.
  rewrite H1, H2, H3. cbn -[app]. rewrite <- !app_assoc. reflexivity.
Qed.

(** The copy step hands the failure of its provider on. *)
Lemma generateViralCopy_propagates env config thoughts baseContent t e :
  copy_provider_fails env config thoughts baseContent t e ->
  fst (generateViralCopy env config thoughts baseContent t) = Rejected e.
Proof.
  unfold copy_provider_fails. rewrite generateViralCopy_run. cbn zeta.
  destruct (aiProvider (settings config)) as [[]|]; intros H.
  - rewrite H. reflexivity.
  - rewrite callOpenAICompatible_run. cbn zeta. rewrite H. reflexivity.
  - rewrite callOpenAICompatible_run. cbn zeta. rewrite H. reflexivity.
  - rewrite H. reflexivity.
Qed.

(** C3, as the specification words it, fails: the provider of the copy
    step is down, the copy step raises, and [handleGenerate] catches the
    error, shows the alert and returns normally. *)
Lemma copy_failure_counterexample :
  let env := stub copy_down unavailable in
  let st := sample_state false None in
  fst (generateViralCopy env (fullConfig sample_props st) (thoughts sample_props)
         (Some (previewContent st)) ([] ++ [SetIsGenerating true]))
  = Rejected (Error (utf16 "503 Service Unavailable"))
  /\ handleGenerate env sample_props st []
     = (Fulfilled tt,
        [ SetIsGenerating true;
          GenerateContent (utf16 "key-1")
            (copyParams (copyUserPrompt (fullConfig sample_props st)
                           (thoughts sample_props) (Some (previewContent st))));
          Alert (utf16 "生成失败，请检查网络或API Key");
          SetIsGenerating false ])
  /\ ~ copy_failure_propagates_as_specified.
Proof.
  intros env st.
  assert (R : fst (generateViralCopy env (fullConfig sample_props st)
                     (thoughts sample_props) (Some (previewContent st))
                     ([] ++ [SetIsGenerating true]))
              = Rejected (Error (utf16 "503 Service Unavailable")))
    by (vm_compute; reflexivity).
  assert (G : handleGenerate env sample_props st []
     = (Fulfilled tt,
        [ SetIsGenerating true;
          GenerateContent (utf16 "key-1")
            (copyParams (copyUserPrompt (fullConfig sample_props st)
                           (thoughts sample_props) (Some (previewContent st))));
          Alert (utf16 "生成失败，请检查网络或API Key");
          SetIsGenerating false ]))
    by (vm_compute; reflexivity).
  split; [exact R|]. split; [exact G|].
  intros H. specialize (H env sample_props st [] _ R).
  rewrite G in H. discriminate H.
Qed.

(** C3 (amended): when the provider of the copy step fails, the copy
    step raises the same error; [handleGenerate] catches it, so that the
    cycle ends after the copy step with the failure alert: no image and
    no audit is requested, no record is built or installed, the current
    record, the edited text and the view stay as they were, and
    [handleGenerate] itself returns normally. *)
Theorem copy_failure_ends_cycle env props st t :
  let config := fullConfig props st in
  let start := t ++ [SetIsGenerating true] in
  (forall e,
     copy_provider_fails env config (thoughts props) (Some (previewContent st)) start e ->
     fst (generateViralCopy env config (thoughts props) (Some (previewContent st)) start)
     = Rejected e)
  /\ (forall e t1,
        generateViralCopy env config (thoughts props) (Some (previewContent st)) start
        = (Rejected e, t1) ->
        exists evs,
          t1 = start ++ evs
          /\ forallb service_event evs = true
          /\ handleGenerate env props st t
             = (Fulfilled tt,
                t ++ [SetIsGenerating true] ++ evs
                  ++ [Alert (utf16 "生成失败，请检查网络或API Key"); SetIsGenerating false])
          /\ let st' :=
               reduce st
                 ([SetIsGenerating true] ++ evs
                  ++ [Alert (utf16 "生成失败，请检查网络或API Key"); SetIsGenerating false]) in
             currentCopy st' = currentCopy st
             /\ editedResult st' = editedResult st
             /\ viewState st' = viewState st
             /\ isGenerating st' = false).
Proof.
  cbn zeta. split.
  - intros e. apply (generateViralCopy_propagates env (fullConfig props st)).
  - intros e t1 H.
    destruct (generateViralCopy_emits env (fullConfig props st) (thoughts props)
                (Some (previewContent st)) (t ++ [SetIsGenerating true]))
      as (evs & E & F).
    rewrite H in E. cbn [snd] in E. exists evs. split; [exact E|]. split; [exact F|].
    split.
    + rewrite (handleGenerate_copy_failed env props st t e t1 H), E.
      rewrite <- !app_assoc. reflexivity.
    + rewrite <- !reduce_app. rewrite (reduce_service _ evs F).
      repeat split; reflexivity.
Qed.

(** A cycle started on an installed record while the copy provider is
    down. *)
Lemma copy_failure_ends_cycle_witness :
  let env := stub copy_down unavailable in
  let st := sample_state false (Some sample_copy) in
  fst (generateViralCopy env (fullConfig sample_props st) (thoughts sample_props)
         (Some (previewContent st)) ([] ++ [SetIsGenerating true]))
  = Rejected (Error (utf16 "503 Service Unavailable"))
  /\ exists evs,
       handleGenerate env sample_props st []
       = (Fulfilled tt,
          [] ++ [SetIsGenerating true] ++ evs
             ++ [Alert (utf16 "生成失败，请检查网络或API Key"); SetIsGenerating false])
       /\ currentCopy
            (reduce st
               ([SetIsGenerating true] ++ evs
                ++ [Alert (utf16 "生成失败，请检查网络或API Key"); SetIsGenerating false]))
          = Some sample_copy.
Proof.
  intros env st.
  assert (R : fst (generateViralCopy env (fullConfig sample_props st)
                     (thoughts sample_props) (Some (previewContent st))
                     ([] ++ [SetIsGenerating true]))
              = Rejected (Error (utf16 "503 Service Unavailable"))).
  { apply (proj1 (copy_failure_ends_cycle env sample_props st [])).
    vm_compute. reflexivity. }
  split; [exact R|].
  destruct (generateViralCopy env (fullConfig sample_props st) (thoughts sample_props)
              (Some (previewContent st)) ([] ++ [SetIsGenerating true]))
    as [r t1] eqn:E.
  cbn [fst] in R. subst r.
  destruct (proj2 (copy_failure_ends_cycle env sample_props st []) _ t1 E)
    as (evs & _ & _ & G & C & _).
  exists evs. split; [exact G|exact C].
Defined.

(** C4: image synthesis raises [No image data found] whenever its prompt
    request is answered and the image response carries no inline data;
    and a cycle whose copy step succeeded completes with a record
    installed whose [imageUrl] is absent, both when no image is asked for
    and when one is asked for and the synthesis raises. *)
Theorem image_failure_is_not_fatal env :
  (forall copyText niche customKey t r1 r2,
     let key := apiKey (getGeminiClient env customKey) in
     let ask := imagePromptParams copyText niche in
     let draw := imageParams (imagePromptOf r1 niche) in
     gemini_reply env t key ask = Fulfilled r1 ->
     gemini_reply env (t ++ [GenerateContent key ask]) key draw = Fulfilled r2 ->
     no_inline_payload r2 ->
     fst (generateImageForCopy env (JStr copyText) niche customKey t)
     = Rejected (Error (utf16 "No image data found")))
  /\ (forall props st t content t1,
        generateViralCopy env (fullConfig props st) (thoughts props)
          (Some (previewContent st)) (t ++ [SetIsGenerating true])
        = (Fulfilled content, t1) ->
        st_withImage st = false
        \/ (st_withImage st = true
            /\ exists e,
                 fst (generateImageForCopy env content (niche (globalSettings props))
                        (customApiKey (globalSettings props)) t1) = Rejected e) ->
        exists evs c,
          handleGenerate env props st t = (Fulfilled tt, t ++ evs)
          /\ currentCopy (reduce st evs) = Some c
          /\ imageUrl c = None
          /\ copy_content c = content
          /\ config c = fullConfig props st
          /\ viewState (reduce st evs) = view_result).
Proof.
  split.
  - intros copyText niche customKey t r1 r2 key ask draw H1 H2 N.
    rewrite generateImageForCopy_run. cbn zeta.
    fold key ask. rewrite H1. fold draw. rewrite H2.
    rewrite (firstInlineData_none r2 N). reflexivity.
  - intros props st t content t1 H W.
    destruct (generateViralCopy_emits env (fullConfig props st) (thoughts props)
                (Some (previewContent st)) (t ++ [SetIsGenerating true]))
      as (evs1 & E1 & F1).
    rewrite H in E1. cbn [snd] in E1.
    destruct (imageStep_run env props st content t1) as (url & evs2 & E2 & F2 & Off & Bad).
    assert (U : url = None).
    { destruct W as [W|[_ W]]; [apply (Off W)|apply (Bad W)]. }
    subst url.
    destruct (auditCopyContent_fulfils env content (st_platform st)
                (customApiKey (globalSettings props)) (t1 ++ evs2)) as (score & S).
    destruct (auditCopyContent_emits env content (st_platform st)
                (customApiKey (globalSettings props)) (t1 ++ evs2)) as (evs3 & E3 & F3).
    destruct (auditCopyContent env content (st_platform st)
                (customApiKey (globalSettings props)) (t1 ++ evs2)) as [r t3] eqn:A.
    cbn [fst snd] in S, E3. subst r t3.
    rewrite (handleGenerate_copy_done env props st t content t1 None (t1 ++ evs2)
               score ((t1 ++ evs2) ++ evs3) H E2 A).
    subst t1.
    eexists. eexists. split.
    + rewrite <- !app_assoc. reflexivity.
    + rewrite <- !reduce_app.
      rewrite (reduce_service _ evs1 F1), (reduce_service _ evs2 F2),
        (reduce_service _ evs3 F3).
      repeat split; reflexivity.
Qed.

(** An image model that answers with text only, with and without an
    image asked for. *)
Lemma image_failure_is_not_fatal_witness :
  let env := stub studio unavailable in
  fst (generateImageForCopy env (JStr (utf16 "Pasta night, done right.")) FOOD
         (Some (utf16 "key-1")) [])
  = Rejected (Error (utf16 "No image data found"))
  /\ (exists evs c,
        handleGenerate env sample_props (sample_state true None) []
        = (Fulfilled tt, [] ++ evs)
        /\ currentCopy (reduce (sample_state true None) evs) = Some c
        /\ imageUrl c = None)
  /\ (exists evs c,
        handleGenerate env sample_props (sample_state false None) []
        = (Fulfilled tt, [] ++ evs)
        /\ currentCopy (reduce (sample_state false None) evs) = Some c
        /\ imageUrl c = None).
Proof.
  intros env. split; [|split].
  - eapply (proj1 (image_failure_is_not_fatal env)).
    + vm_compute. reflexivity.
    + vm_compute. reflexivity.
    + intros cs c ps p C Hc P Hp. vm_compute in C. injection C as <-.
      destruct Hc as [<-|[]]. cbn in P. injection P as <-.
      destruct Hp as [<-|[]]. reflexivity.
  - destruct (generateViralCopy env (fullConfig sample_props (sample_state true None))
                (thoughts sample_props)
                (Some (previewContent (sample_state true None)))
                ([] ++ [SetIsGenerating true])) as [r t1] eqn:G.
    assert (R : r = Fulfilled (JStr (utf16 "Pasta night, done right."))).
    { apply (f_equal fst) in G. cbn [fst] in G. rewrite <- G. vm_compute. reflexivity. }
    assert (T : fst (generateImageForCopy env (JStr (utf16 "Pasta night, done right."))
                       (niche (globalSettings sample_props))
                       (customApiKey (globalSettings sample_props)) t1)
                = Rejected (Error (utf16 "No image data found"))).
    { apply (f_equal snd) in G. cbn [snd] in G. rewrite <- G. vm_compute. reflexivity. }
    subst r.
    destruct (proj2 (image_failure_is_not_fatal env) sample_props
                (sample_state true None) [] _ t1 G) as (evs & c & A & B & C & _).
    + right. split; [reflexivity|]. eexists. exact T.
    + exists evs, c. repeat split; assumption.
  - destruct (generateViralCopy env (fullConfig sample_props (sample_state false None))
                (thoughts sample_props)
                (Some (previewContent (sample_state false None)))
                ([] ++ [SetIsGenerating true])) as [r t1] eqn:G.
    assert (R : r = Fulfilled (JStr (utf16 "Pasta night, done right."))).
    { apply (f_equal fst) in G. cbn [fst] in G. rewrite <- G. vm_compute. reflexivity. }
    subst r.
    destruct (proj2 (image_failure_is_not_fatal env) sample_props
                (sample_state false None) [] _ t1 G) as (evs & c & A & B & C & _).
    + left. reflexivity.
    + exists evs, c. repeat split; assumption.
Defined.

(** One run of the re-audit on an existing record. *)
Lemma handleReAudit_run env props st t current :
  currentCopy st = Some current ->
  handleReAudit env props st t =
  match auditCopyContent env (editedResult st) (st_platform st)
          (customApiKey (globalSettings props)) (t ++ [SetIsAuditing true]) with
  | (Fulfilled newAudit, t1) =>
    (Fulfilled tt,
     t1 ++ [SetCurrentCopy
              {| copy_id := copy_id current;
                 config := config current;
                 copy_content := editedResult st;
                 audit := newAudit;
                 imageUrl := imageUrl current;
                 copy_createdAt := copy_createdAt current |};
            Alert (utf16 "评分已更新");
            SetIsAuditing false])
  | (Rejected e, t1) =>
    (Fulfilled tt, t1 ++ [Alert (utf16 "评分失败"); SetIsAuditing false])
  end.
Proof.
  intros C. unfold handleReAudit. rewrite C. unfold_monad.
  destruct (auditCopyContent env _ _ _ _) as [[a|e] t1]; cbn -[app];
    rewrite <- !app_assoc; reflexivity.
Qed.

(** C5: on an existing record the re-audit completes and installs a
    record that differs from it in [content], now the edited text, and in
    [audit], now the result of auditing that text, with [id], [config],
    [createdAt] and [imageUrl] as they were; its only request to any
    provider is the one audit request; and a provider whose replies
    depend on the request alone gives the same audit result for the same
    text whatever happened before. *)
Theorem reaudit_replaces_content_and_audit env :
  (forall props st t current,
     currentCopy st = Some current ->
     let customKey := customApiKey (globalSettings props) in
     exists newAudit evs,
       fst (auditCopyContent env (editedResult st) (st_platform st) customKey
              (t ++ [SetIsAuditing true])) = Fulfilled newAudit
       /\ handleReAudit env props st t = (Fulfilled tt, t ++ evs)
       /\ currentCopy (reduce st evs)
          = Some {| copy_id := copy_id current;
                    config := config current;
                    copy_content := editedResult st;
                    audit := newAudit;
                    imageUrl := imageUrl current;
                    copy_createdAt := copy_createdAt current |}
       /\ filter (fun e => is_gemini e || is_fetch e) evs
          = [GenerateContent (apiKey (getGeminiClient env customKey))
               (auditParams (editedResult st) (st_platform st))])
  /\ (deterministic env ->
      forall content platform customKey t1 t2,
        fst (auditCopyContent env content platform customKey t1)
        = fst (auditCopyContent env content platform customKey t2)).
Proof.
  split.
  - intros props st t current C. cbn zeta.
    rewrite (handleReAudit_run env props st t current C).
    rewrite auditCopyContent_run. cbn zeta.
    destruct (gemini_reply env _ _ _) as [r|e].
    + destruct (Json.parse _) as [v|].
      * exists v. eexists. split; [reflexivity|].
        split; [rewrite <- !app_assoc; reflexivity|]. split; reflexivity.
      * exists auditFallback. eexists. split; [reflexivity|].
        split; [rewrite <- !app_assoc; reflexivity|]. split; reflexivity.
    + exists auditFallback. eexists. split; [reflexivity|].
      split; [rewrite <- !app_assoc; reflexivity|]. split; reflexivity.
  - intros D content platform customKey t1 t2.
    rewrite !auditCopyContent_run. cbn zeta.
    rewrite (D t1 t2). destruct (gemini_reply env t2 _ _) as [r|e]; [|reflexivity].
    destruct (Json.parse _); reflexivity.
Qed.

(** A re-audit of an installed record, and two audits of one text after
    different histories. *)
Lemma reaudit_replaces_content_and_audit_witness :
  let env := stub studio unavailable in
  let st := sample_state true (Some sample_copy) in
  (exists newAudit evs,
     handleReAudit env sample_props st [] = (Fulfilled tt, [] ++ evs)
     /\ currentCopy (reduce st evs)
        = Some {| copy_id := utf16 "id-0";
                  config := config sample_copy;
                  copy_content := JStr (utf16 "Pasta night, edited.");
                  audit := newAudit;
                  imageUrl := Some (utf16 "data:image/png;base64,AAAA");
                  copy_createdAt := 1767000000000 |})
  /\ fst (auditCopyContent env (JStr (utf16 "Pasta night, edited.")) XIAOHONGSHU None [])
     = fst (auditCopyContent env (JStr (utf16 "Pasta night, edited.")) XIAOHONGSHU None
              [Alert (utf16 "earlier")]).
Proof.
  intros env st. split.
  - destruct (proj1 (reaudit_replaces_content_and_audit env) sample_props st []
                sample_copy eq_refl) as (newAudit & evs & _ & R & C & _).
    exists newAudit, evs. split; [exact R|exact C].
  - apply (proj2 (reaudit_replaces_content_and_audit env)).
    intros t1 t2 key params. reflexivity.
Defined.

(* ================================================================== *)
(** ** Routing between the providers *)
(* ================================================================== *)

Lemma generateText_primary env sp up key provider budget :
  JS.eqb (or_else provider (utf16 "gemini")) (utf16 "deepseek") = false ->
  JS.eqb (or_else provider (utf16 "gemini")) (utf16 "qwen") = false ->
  emits no_fetch
    (generateText env sp up
       (Some {| opt_customApiKey := key; opt_aiProvider := provider;
                opt_thinkingBudget := budget |})).
Proof.
  intros H1 H2. unfold generateText. cbn [opt_aiProvider opt_customApiKey].
  rewrite H1, H2. emits_auto.
Qed.

Lemma generateTagsForThought_primary env thoughtContent customKey provider t :
  JS.eqb (or_else provider (utf16 "gemini")) (utf16 "deepseek") = false ->
  JS.eqb (or_else provider (utf16 "gemini")) (utf16 "qwen") = false ->
  let bearer := or_else customKey (or_else (API_KEY env) []) in
  exists evs,
    snd (generateTagsForThought env thoughtContent customKey provider t)
    = t ++ GenerateContent (apiKey (getGeminiClient env (Some bearer)))
             (textParams tagSystemPrompt (tagUserPrompt thoughtContent) None) :: evs
    /\ forallb no_fetch evs = true
    /\ forallb no_gemini evs = true.
Proof.
  intros H1 H2. cbn zeta. rewrite generateTagsForThought_run. cbn zeta.
  unfold generateText. cbn [opt_aiProvider opt_customApiKey opt_thinkingBudget].
  rewrite H1, H2. unfold_monad. cbn zeta.
  destruct (gemini_reply env t _ _) as [r|e]; cbn [fst snd].
  - exists []. repeat split.
  - rewrite <- app_assoc. eexists. repeat split.
Qed.

(** C10, as the specification words it, fails: asked to consolidate no
    fragment, the consolidation answers its placeholder and invokes no
    provider at all. *)
Lemma provider_routing_counterexample :
  smartOrganizeThoughts (stub studio unavailable) [] None []
  = (Fulfilled (utf16 "暂无碎片想法"), [])
  /\ ~ always_primary_as_specified.
Proof.
  split; [reflexivity|]. intros H.
  destruct (H (stub studio unavailable)) as (_ & _ & C & _).
  destruct (C [] None []) as (evs & E & G).
  change (snd (smartOrganizeThoughts (stub studio unavailable) [] None []))
    with (@nil Event) in E.
  cbn [app] in E. subst evs. discriminate G.
Qed.

(** C10 (amended): whatever provider is configured, audit, style
    analysis, consolidation and image synthesis, and with them the
    re-audit, never post to an alternate provider, and what they ask they
    ask of the primary one: the audit and the style analysis make exactly
    one request to it, the consolidation makes one when there is a
    fragment and none at all when there is not, and the image synthesis
    of a copy text starts with one.  Copy generation and tagging post to
    the endpoint of the configured alternate provider, without any request
    to the primary one, when DeepSeek or Qwen is configured, and start
    with a request to the primary provider, without any post, otherwise. *)
Theorem provider_routing env :
  (forall content platform customKey t,
     exists evs,
       snd (auditCopyContent env content platform customKey t)
       = t ++ GenerateContent (apiKey (getGeminiClient env customKey))
                (auditParams content platform) :: evs
       /\ forallb no_fetch evs = true
       /\ forallb no_gemini evs = true)
  /\ (forall exampleText customKey t,
        snd (analyzeStyleFromText env exampleText customKey t)
        = t ++ [GenerateContent (apiKey (getGeminiClient env customKey))
                  {| model := utf16 "gemini-3-flash-preview";
                     contents := ContentsText (analyzeStylePrompt exampleText);
                     gen_config := None |}])
  /\ (forall thoughts customKey t,
        match thoughts with
        | [] => snd (smartOrganizeThoughts env thoughts customKey t) = t
        | _ =>
          exists evs,
            snd (smartOrganizeThoughts env thoughts customKey t)
            = t ++ GenerateContent (apiKey (getGeminiClient env customKey))
                     {| model := utf16 "gemini-3-flash-preview";
                        contents := ContentsText (organizePrompt thoughts);
                        gen_config := None |} :: evs
            /\ forallb no_fetch evs = true
            /\ forallb no_gemini evs = true
        end)
  /\ (forall copyText niche customKey t,
        exists evs,
          snd (generateImageForCopy env (JStr copyText) niche customKey t)
          = t ++ GenerateContent (apiKey (getGeminiClient env customKey))
                   (imagePromptParams copyText niche) :: evs
          /\ forallb no_fetch evs = true)
  /\ (forall content platform customKey,
        emits no_fetch (auditCopyContent env content platform customKey))
  /\ (forall exampleText customKey,
        emits no_fetch (analyzeStyleFromText env exampleText customKey))
  /\ (forall thoughts customKey,
        emits no_fetch (smartOrganizeThoughts env thoughts customKey))
  /\ (forall copyText niche customKey,
        emits no_fetch (generateImageForCopy env copyText niche customKey))
  /\ (forall props st, emits no_fetch (handleReAudit env props st))
  /\ (forall config thoughts baseContent t,
        let run := snd (generateViralCopy env config thoughts baseContent t) in
        let userPrompt := copyUserPrompt config thoughts baseContent in
        let key := customApiKey (settings config) in
        let bearer := or_else key (or_else (API_KEY env) []) in
        match aiProvider (settings config) with
        | Some deepseek =>
          exists evs,
            run = t ++ FetchCall deepseek_url
                         (chatRequest (utf16 "deepseek-chat") bearer
                            copySystemPrompt userPrompt) :: evs
            /\ forallb no_gemini evs = true
        | Some qwen =>
          exists evs,
            run = t ++ FetchCall qwen_url
                         (chatRequest (utf16 "qwen-plus") bearer
                            copySystemPrompt userPrompt) :: evs
            /\ forallb no_gemini evs = true
        | Some gemini | None =>
          run = t ++ [GenerateContent (apiKey (getGeminiClient env key))
                        (copyParams userPrompt)]
        end)
  /\ (forall thoughtContent customKey t,
        let bearer := or_else customKey (or_else (API_KEY env) []) in
        let asked :=
          GenerateContent (apiKey (getGeminiClient env (Some bearer)))
            (textParams tagSystemPrompt (tagUserPrompt thoughtContent) None) in
        (exists evs,
           snd (generateTagsForThought env thoughtContent customKey
                  (Some (utf16 "deepseek")) t)
           = t ++ FetchCall deepseek_url
                    (chatRequest (utf16 "deepseek-chat") bearer tagSystemPrompt
                       (tagUserPrompt thoughtContent)) :: evs
           /\ forallb no_gemini evs = true)
        /\ (exists evs,
              snd (generateTagsForThought env thoughtContent customKey
                     (Some (utf16 "qwen")) t)
              = t ++ FetchCall qwen_url
                       (chatRequest (utf16 "qwen-plus") bearer tagSystemPrompt
                          (tagUserPrompt thoughtContent)) :: evs
              /\ forallb no_gemini evs = true)
        /\ (exists evs,
              snd (generateTagsForThought env thoughtContent customKey
                     (Some (utf16 "gemini")) t)
              = t ++ asked :: evs
              /\ forallb no_fetch evs = true
              /\ forallb no_gemini evs = true)
        /\ (exists evs,
              snd (generateTagsForThought env thoughtContent customKey None t)
              = t ++ asked :: evs
              /\ forallb no_fetch evs = true
              /\ forallb no_gemini evs = true)).
Proof.
  split; [|split; [|split; [|split; [|split; [|split; [|split; [|split; [|split;
    [|split]]]]]]]]].
  - intros content platform customKey t. rewrite auditCopyContent_run. cbn zeta.
    destruct (gemini_reply env t _ _) as [r|e]; cbn [snd].
    + destruct (Json.parse _); cbn [snd]; eexists; repeat split.
    + eexists. repeat split.
  - intros exampleText customKey t. unfold analyzeStyleFromText. unfold_monad.
    cbn zeta. destruct (gemini_reply env t _ _); reflexivity.
  - intros thoughts customKey t. destruct thoughts as [|x l]; [reflexivity|].
    unfold smartOrganizeThoughts. unfold_monad. cbn zeta.
    destruct (gemini_reply env t _ _) as [r|e]; cbn [fst snd].
    + exists []. repeat split.
    + rewrite <- app_assoc. eexists. repeat split.
  - intros copyText niche customKey t. rewrite generateImageForCopy_run. cbn zeta.
    destruct (gemini_reply env t _ _) as [r1|e]; cbn [snd].
    2: { exists []. repeat split. }
    destruct (gemini_reply env (t ++ _) _ _) as [r2|e]; cbn [snd].
    2: { rewrite <- !app_assoc. eexists. repeat split. }
    destruct (firstInlineData r2); cbn [snd]; rewrite <- !app_assoc;
      eexists; repeat split.
  - intros. unfold auditCopyContent. cbn zeta. emits_auto.
  - intros. unfold analyzeStyleFromText. cbn zeta. emits_auto.
  - intros. unfold smartOrganizeThoughts. cbn zeta. emits_auto.
  - intros. unfold generateImageForCopy. cbn zeta. emits_auto.
  - intros. unfold handleReAudit. destruct (currentCopy st); [|apply emits_ret].
    apply emits_bind; [apply emits_emit; reflexivity|]. intros _.
    apply emits_finally; [|apply emits_emit; reflexivity].
    apply emits_try_catch; [|intros; apply emits_emit; reflexivity].
    apply emits_bind.
    + unfold auditCopyContent. cbn zeta. emits_auto.
    + intros a. emits_auto.
  - intros config thoughts baseContent t. cbn zeta.
    rewrite generateViralCopy_run. cbn zeta.
    destruct (aiProvider (settings config)) as [[]|]; try reflexivity;
      apply callOpenAICompatible_trace.
  - intros thoughtContent customKey t. cbn zeta.
    split; [|split; [|split]].
    + rewrite generateTagsForThought_run. cbn zeta. rewrite generateText_deepseek.
      destruct (callOpenAICompatible_trace env deepseek_url (utf16 "deepseek-chat")
                  (or_else customKey (or_else (API_KEY env) []))
                  tagSystemPrompt (tagUserPrompt thoughtContent) t) as (evs & E & F).
      destruct (callOpenAICompatible env _ _ _ _ _ t) as [[[]|e] t1];
        cbn [snd] in *; subst t1;
        try (exists evs; split; [reflexivity|exact F]);
        (eexists; rewrite <- app_assoc; split; [reflexivity|];
         rewrite forallb_app, F; reflexivity).
    + rewrite generateTagsForThought_run. cbn zeta. rewrite generateText_qwen.
      destruct (callOpenAICompatible_trace env qwen_url (utf16 "qwen-plus")
                  (or_else customKey (or_else (API_KEY env) []))
                  tagSystemPrompt (tagUserPrompt thoughtContent) t) as (evs & E & F).
      destruct (callOpenAICompatible env _ _ _ _ _ t) as [[[]|e] t1];
        cbn [snd] in *; subst t1;
        try (exists evs; split; [reflexivity|exact F]);
        (eexists; rewrite <- app_assoc; split; [reflexivity|];
         rewrite forallb_app, F; reflexivity).
    + apply generateTagsForThought_primary; vm_compute; reflexivity.
    + apply generateTagsForThought_primary; vm_compute; reflexivity.
Qed.


(** A cycle under DeepSeek settings with an image asked for: the copy
    request is posted to DeepSeek, the image prompt, the image and the
    audit are asked of the primary provider. *)
Example generate_under_deepseek :
  let st := sample_state true None in
  let run := handleGenerate (stub studio (http 200 chat_body)) deepseek_props st [] in
  fst run = Fulfilled tt
  /\ map destination (filter (fun e => is_fetch e || is_gemini e) (snd run))
     = [ utf16 "fetch https://api.deepseek.com/chat/completions";
         utf16 "gemini gemini-3-flash-preview";
         utf16 "gemini gemini-2.5-flash-image";
         utf16 "gemini gemini-3-flash-preview" ]
  /\ option_map copy_content (currentCopy (reduce st (snd run)))
     = Some (JStr (utf16 "Pasta night, done right."))
  /\ option_map imageUrl (currentCopy (reduce st (snd run))) = Some None
  /\ option_map (fun c => is_AuditScore (audit c)) (currentCopy (reduce st (snd run)))
     = Some true.
Proof.
  cbn zeta. split; [|split; [|split; [|split]]]; vm_compute; reflexivity.
Qed.

(* ================================================================== *)
(** ** Further properties of the service functions *)
(* ================================================================== *)

Lemma or_else_nonempty a b : b <> [] -> or_else a b <> [].
Proof.
  intros H. unfold or_else. destruct a as [[|c s]|]; cbn; try assumption. discriminate.
Qed.

Lemma or_else_resolved a b : or_else (Some (or_else a b)) b = or_else a b.
Proof.
  unfold or_else. destruct a as [[|c s]|]; cbn; try reflexivity;
    destruct b; reflexivity.
Qed.

(** X1: style analysis never raises and never answers the empty string:
    it makes one request about the example and returns the reply text,
    the objective-style default when the reply has no text, and the
    generic-style default when the provider fails. *)
Theorem analyzeStyle_total_nonempty env exampleText customKey t :
  let key := apiKey (getGeminiClient env customKey) in
  let params :=
    {| model := utf16 "gemini-3-flash-preview";
       contents := ContentsText (analyzeStylePrompt exampleText);
       gen_config := None |} in
  let style :=
    match gemini_reply env t key params with
    | Fulfilled r => or_else (text r) (utf16 "专业且客观的风格")
    | Rejected _ => utf16 "通用专业风格"
    end in
  analyzeStyleFromText env exampleText customKey t
  = (Fulfilled style, t ++ [GenerateContent key params])
  /\ style <> [].
Proof.
  cbn zeta. unfold analyzeStyleFromText. unfold_monad. cbn zeta.
  destruct (gemini_reply env t _ _) as [r|e]; (split; [reflexivity|]).
  - apply or_else_nonempty. vm_compute. discriminate.
  - vm_compute. discriminate.
Qed.

(** X2: consolidation of no fragment answers its placeholder without
    any request; of some fragments it makes one request and returns the
    reply text, the empty string when the reply has none; a provider
    failure is logged and raised unchanged. *)
Theorem smartOrganize_runs env customKey t :
  smartOrganizeThoughts env [] customKey t = (Fulfilled (utf16 "暂无碎片想法"), t)
  /\ forall thoughts,
       thoughts <> [] ->
       let key := apiKey (getGeminiClient env customKey) in
       let params :=
         {| model := utf16 "gemini-3-flash-preview";
            contents := ContentsText (organizePrompt thoughts);
            gen_config := None |} in
       smartOrganizeThoughts env thoughts customKey t =
       match gemini_reply env t key params with
       | Fulfilled r =>
         (Fulfilled (or_else (text r) []), t ++ [GenerateContent key params])
       | Rejected e =>
         (Rejected e,
          t ++ [GenerateContent key params;
                ConsoleError (utf16 "Smart organize failed") (LogError e)])
       end.
Proof.
  split; [reflexivity|]. intros thoughts N. cbn zeta.
  unfold smartOrganizeThoughts. destruct thoughts as [|x l]; [congruence|].
  unfold_monad. cbn zeta.
  destruct (gemini_reply env t _ _) as [r|e]; [reflexivity|].
  rewrite <- app_assoc. reflexivity.
Qed.

(** A provider that answers nothing, and one that is down. *)
Lemma smartOrganize_runs_witness :
  smartOrganizeThoughts (stub (fun _ => Fulfilled {| text := None; candidates := None |})
                           unavailable)
    (thoughts sample_props) None []
  = (Fulfilled [],
     [GenerateContent []
        {| model := utf16 "gemini-3-flash-preview";
           contents := ContentsText (organizePrompt (thoughts sample_props));
           gen_config := None |}])
  /\ fst (smartOrganizeThoughts (stub (fun _ => unavailable) unavailable)
            (thoughts sample_props) None [])
     = Rejected (Error (utf16 "503 Service Unavailable")).
Proof.
  split.
  - rewrite (proj2 (smartOrganize_runs _ None []) (thoughts sample_props)).
    + reflexivity.
    + discriminate.
  - rewrite (proj2 (smartOrganize_runs _ None []) (thoughts sample_props)).
    + reflexivity.
    + discriminate.
Defined.

(** X3: the three prompts that quote free text read a bounded prefix of
    it: 500 code units of a fragment for tagging, 1000 of the example for
    style analysis, 300 of the copy for the image prompt.  Texts that
    agree on that prefix give the same prompt, and the prompt is at most
    that much longer than the prompt of the empty text. *)
Theorem prompts_read_bounded_prefix s niche :
  (tagUserPrompt (firstn 500 s) = tagUserPrompt s
   /\ (List.length (tagUserPrompt s) <= List.length (tagUserPrompt []) + 500)%nat)
  /\ (analyzeStylePrompt (firstn 1000 s) = analyzeStylePrompt s
      /\ (List.length (analyzeStylePrompt s)
          <= List.length (analyzeStylePrompt []) + 1000)%nat)
  /\ (imagePromptRequest (firstn 300 s) niche = imagePromptRequest s niche
      /\ (List.length (imagePromptRequest s niche)
          <= List.length (imagePromptRequest [] niche) + 300)%nat).
Proof.
  unfold tagUserPrompt, analyzeStylePrompt, imagePromptRequest, substring0.
  rewrite !firstn_firstn, !Nat.min_id.
  pose proof (firstn_le_length 500 s). pose proof (firstn_le_length 1000 s).
  pose proof (firstn_le_length 300 s).
  split; [|split]; (split; [reflexivity|]);
    rewrite !length_app, firstn_nil; cbn [List.length]; lia.
Qed.

(** X4: the adapter of the alternate providers posts exactly one
    request; when it returns it has written nothing to the console; when
    it fails, whatever the cause, the error it raises is the one it
    logged last, under [External API call failed]. *)
Theorem adapter_logs_what_it_raises env baseURL model key systemPrompt userPrompt t :
  let call := FetchCall baseURL (chatRequest model key systemPrompt userPrompt) in
  let run := callOpenAICompatible env baseURL model key systemPrompt userPrompt t in
  match fst run with
  | Fulfilled _ => snd run = t ++ [call]
  | Rejected e =>
    exists logged,
      snd run
      = t ++ [call] ++ logged
          ++ [ConsoleError (utf16 "External API call failed") (LogError e)]
      /\ forallb (fun ev => match ev with ConsoleError _ (LogText _) => true | _ => false end)
           logged = true
  end.
Proof.
  cbn zeta. rewrite callOpenAICompatible_run. cbn zeta.
  destruct (fetch_reply env t _ _) as [r|e]; cbn [fst snd].
  2: { exists []. rewrite <- app_assoc. split; reflexivity. }
  destruct (read_body r) as [b|e]; cbn [fst snd].
  2: { exists []. rewrite <- app_assoc. split; reflexivity. }
  destruct (ok r).
  - destruct (Json.parse b) as [data|]; cbn [fst snd].
    2: { exists []. rewrite <- app_assoc. split; reflexivity. }
    destruct (first_choice_content data); cbn [fst snd]; [reflexivity|].
    exists []. rewrite <- app_assoc. split; reflexivity.
  - cbn [fst snd]. eexists [_]. rewrite <- app_assoc. split; reflexivity.
Qed.

(** X5: under any provider name other than [deepseek] and [qwen], the
    absent and the empty name included, text generation makes one
    request to the flash model of the primary provider, under the custom
    key when it is not empty, else the key of the process, else the empty
    key; the thinking budget goes along only when it is not zero; the
    reply text, or the empty string, is returned and a failure of the
    provider is raised unchanged, without console output. *)
Theorem generateText_primary_route env systemPrompt userPrompt customKey provider budget t :
  JS.eqb (or_else provider (utf16 "gemini")) (utf16 "deepseek") = false ->
  JS.eqb (or_else provider (utf16 "gemini")) (utf16 "qwen") = false ->
  let key := or_else customKey (or_else (API_KEY env) []) in
  let params :=
    textParams systemPrompt userPrompt
      match budget with
      | Some b => if b =? 0 then None else Some b
      | None => None
      end in
  generateText env systemPrompt userPrompt
    (Some {| opt_customApiKey := customKey; opt_aiProvider := provider;
             opt_thinkingBudget := budget |}) t
  = (match gemini_reply env t key params with
     | Fulfilled r => Fulfilled (JStr (or_else (text r) []))
     | Rejected e => Rejected e
     end,
     t ++ [GenerateContent key params]).
Proof.
  intros H1 H2. cbn zeta. unfold generateText.
  cbn [opt_aiProvider opt_customApiKey opt_thinkingBudget].
  rewrite H1, H2. unfold_monad. unfold getGeminiClient. cbn [apiKey].
  rewrite or_else_resolved.
  destruct (gemini_reply env t _ _); reflexivity.
Qed.

(** The empty provider name, an empty custom key and a zero budget. *)
Lemma generateText_primary_route_witness :
  let env :=
    {| API_KEY := Some (utf16 "process-key");
       gemini_reply := fun _ _ _ => text_reply (utf16 "ok");
       fetch_reply := fun _ _ _ => unavailable;
       uuid_at := fun _ => [];
       clock_at := fun _ => 0%Z |} in
  generateText env (utf16 "system") (utf16 "user")
    (Some {| opt_customApiKey := Some []; opt_aiProvider := Some [];
             opt_thinkingBudget := Some 0 |}) []
  = (Fulfilled (JStr (utf16 "ok")),
     [GenerateContent (utf16 "process-key")
        (textParams (utf16 "system") (utf16 "user") None)]).
Proof.
  intros env.
  rewrite (generateText_primary_route env (utf16 "system") (utf16 "user")
             (Some []) (Some []) (Some 0) []).
  - reflexivity.
  - vm_compute. reflexivity.
  - vm_compute. reflexivity.
Defined.

Lemma find_first {A} (f : A -> bool) (before after : list A) (x : A) :
  (forall y, In y before -> f y = false) -> f x = true ->
  find f (before ++ x :: after) = Some x.
Proof.
  intros H Hx. induction before as [|y l IH]; cbn.
  - now rewrite Hx.
  - rewrite (H y (or_introl eq_refl)). apply IH. intros z Hz. apply H. now right.
Qed.

(** X6: image synthesis looks for inline data in the parts of the first
    candidate only and takes the first part that carries some: the result
    is the data URI of that part after the two requests, with no console
    output; when the first candidate has no such part the call fails,
    whatever the other candidates carry. *)
Theorem image_first_inline_part env copyText niche customKey t r1 r2 c others :
  let key := apiKey (getGeminiClient env customKey) in
  let ask := imagePromptParams copyText niche in
  let draw := imageParams (imagePromptOf r1 niche) in
  gemini_reply env t key ask = Fulfilled r1 ->
  gemini_reply env (t ++ [GenerateContent key ask]) key draw = Fulfilled r2 ->
  candidates r2 = Some (c :: others) ->
  (forall before p after blob,
     candidate_parts c = Some (before ++ p :: after) ->
     (forall q, In q before -> inlineData q = None) ->
     inlineData p = Some blob ->
     generateImageForCopy env (JStr copyText) niche customKey t
     = (Fulfilled (utf16 "data:image/png;base64," ++ ToString.of_option (data blob)),
        t ++ [GenerateContent key ask; GenerateContent key draw]))
  /\ ((forall ps q, candidate_parts c = Some ps -> In q ps -> inlineData q = None) ->
      fst (generateImageForCopy env (JStr copyText) niche customKey t)
      = Rejected (Error (utf16 "No image data found"))).
Proof.
  intros key ask draw H1 H2 C. split.
  - intros before p after blob P B I.
    rewrite generateImageForCopy_run. cbn zeta. fold key ask. rewrite H1.
    fold draw. rewrite H2. unfold firstInlineData. rewrite C, P.
    rewrite (find_first _ before after p).
    + rewrite I, <- app_assoc. reflexivity.
    + intros q Hq. now rewrite (B q Hq).
    + now rewrite I.
  - intros N. rewrite generateImageForCopy_run. cbn zeta. fold key ask.
    rewrite H1. fold draw. rewrite H2. unfold firstInlineData. rewrite C.
    destruct (candidate_parts c) as [ps|] eqn:P; [|reflexivity].
    rewrite find_none_of_forall; [reflexivity|].
    intros q Hq. now rewrite (N ps q eq_refl Hq).
Qed.

(** A first candidate with a caption and two pictures; and a first
    candidate with a caption only, before one that has a picture. *)
Lemma image_first_inline_part_witness :
  let first := {| candidate_parts := Some [caption; picture (utf16 "AAAA"); picture (utf16 "BBBB")] |} in
  let empty := {| candidate_parts := Some [caption] |} in
  let second := {| candidate_parts := Some [picture (utf16 "CCCC")] |} in
  fst (generateImageForCopy (stub (gallery [first; second]) unavailable)
         (JStr (utf16 "Pasta night.")) FOOD None [])
  = Fulfilled (utf16 "data:image/png;base64,AAAA")
  /\ fst (generateImageForCopy (stub (gallery [empty; second]) unavailable)
            (JStr (utf16 "Pasta night.")) FOOD None [])
     = Rejected (Error (utf16 "No image data found")).
Proof.
  intros first empty second. split.
  - rewrite (proj1 (image_first_inline_part (stub (gallery [first; second]) unavailable)
               (utf16 "Pasta night.") FOOD None []
               {| text := Some (utf16 "Pasta night, done right."); candidates := None |}
               {| text := None; candidates := Some [first; second] |}
               first [second] ltac:(vm_compute; reflexivity)
               ltac:(vm_compute; reflexivity) eq_refl)
               [caption] (picture (utf16 "AAAA")) [picture (utf16 "BBBB")]
               {| data := Some (utf16 "AAAA") |} eq_refl).
    + vm_compute. reflexivity.
    + intros q [<-|[]]. reflexivity.
    + reflexivity.
  - apply (proj2 (image_first_inline_part (stub (gallery [empty; second]) unavailable)
               (utf16 "Pasta night.") FOOD None []
               {| text := Some (utf16 "Pasta night, done right."); candidates := None |}
               {| text := None; candidates := Some [empty; second] |}
               empty [second] ltac:(vm_compute; reflexivity)
               ltac:(vm_compute; reflexivity) eq_refl)).
    intros ps q [= <-] [<-|[]]. reflexivity.
Defined.

(** X7: the first step of image synthesis.  A copy that is not a string
    raises a TypeError before any request; a failure of the prompt
    request is raised unchanged, with no image request and no console
    output; and when the prompt request is answered the image request
    follows it, drawn from the reply text or, when there is none, from
    the generic prompt naming the niche. *)
Theorem image_prompt_step env niche customKey t :
  let key := apiKey (getGeminiClient env customKey) in
  (forall v,
     is_string v = false ->
     exists message,
       generateImageForCopy env v niche customKey t = (Rejected (TypeError message), t))
  /\ (forall copyText e,
        gemini_reply env t key (imagePromptParams copyText niche) = Rejected e ->
        generateImageForCopy env (JStr copyText) niche customKey t
        = (Rejected e, t ++ [GenerateContent key (imagePromptParams copyText niche)]))
  /\ (forall copyText r1,
        gemini_reply env t key (imagePromptParams copyText niche) = Fulfilled r1 ->
        let prompt :=
          match text r1 with
          | Some (c :: s) => c :: s
          | _ => utf16 "A high quality aesthetic photo for " ++ NicheType_value niche
          end in
        exists rest,
          snd (generateImageForCopy env (JStr copyText) niche customKey t)
          = t ++ [GenerateContent key (imagePromptParams copyText niche);
                  GenerateContent key (imageParams prompt)] ++ rest).
Proof.
  cbn zeta. split; [|split].
  - intros v S. destruct v; try discriminate; eexists; reflexivity.
  - intros copyText e H. rewrite generateImageForCopy_run. cbn zeta. now rewrite H.
  - intros copyText r1 H. rewrite generateImageForCopy_run. cbn zeta. rewrite H.
    assert (P : imagePromptOf r1 niche
                = match text r1 with
                  | Some (c :: s) => c :: s
                  | _ => utf16 "A high quality aesthetic photo for " ++ NicheType_value niche
                  end).
    { unfold imagePromptOf, or_else. destruct (text r1) as [[|c s]|]; reflexivity. }
    rewrite P. clear P.
    destruct (gemini_reply env (t ++ _) _ _) as [r2|e]; [destruct (firstInlineData r2)|];
      cbn [snd]; rewrite <- ?app_assoc; cbn [app].
    + exists []. reflexivity.
    + eexists [_]. reflexivity.
    + eexists [_]. reflexivity.
Qed.

(** A copy that came back as a number; a provider that is down; and a
    prompt reply without text. *)
Lemma image_prompt_step_witness :
  let silent := stub (fun _ => Fulfilled {| text := None; candidates := None |}) unavailable in
  (exists message,
     generateImageForCopy (stub studio unavailable) (Json.num_of_N 5) FOOD None []
     = (Rejected (TypeError message), []))
  /\ generateImageForCopy (stub (fun _ => unavailable) unavailable)
       (JStr (utf16 "Pasta night.")) FOOD None []
     = (Rejected (Error (utf16 "503 Service Unavailable")),
        [] ++ [GenerateContent
                 (apiKey (getGeminiClient (stub (fun _ => unavailable) unavailable) None))
                 (imagePromptParams (utf16 "Pasta night.") FOOD)])
  /\ exists rest,
       snd (generateImageForCopy silent (JStr (utf16 "Pasta night.")) FOOD None [])
       = [] ++ [GenerateContent (apiKey (getGeminiClient silent None))
                  (imagePromptParams (utf16 "Pasta night.") FOOD);
                GenerateContent (apiKey (getGeminiClient silent None))
                  (imageParams (utf16 "A high quality aesthetic photo for "
                                ++ NicheType_value FOOD))] ++ rest.
Proof.
  intros silent. split; [|split].
  - exact (proj1 (image_prompt_step (stub studio unavailable) FOOD None [])
             (Json.num_of_N 5) eq_refl).
  - assert (H : gemini_reply (stub (fun _ => unavailable) unavailable) []
                  (apiKey (getGeminiClient (stub (fun _ => unavailable) unavailable) None))
                  (imagePromptParams (utf16 "Pasta night.") FOOD)
                = Rejected (Error (utf16 "503 Service Unavailable")))
      by (vm_compute; reflexivity).
    exact (proj1 (proj2 (image_prompt_step (stub (fun _ => unavailable) unavailable)
                           FOOD None []))
             (utf16 "Pasta night.") (Error (utf16 "503 Service Unavailable")) H).
  - assert (H : gemini_reply silent [] (apiKey (getGeminiClient silent None))
                  (imagePromptParams (utf16 "Pasta night.") FOOD)
                = Fulfilled {| text := None; candidates := None |})
      by (vm_compute; reflexivity).
    pose proof (proj2 (proj2 (image_prompt_step silent FOOD None []))
                  (utf16 "Pasta night.") {| text := None; candidates := None |} H) as E.
    destruct E as (rest & E). exists rest. rewrite E. reflexivity.
Defined.

(* ================================================================== *)
(** ** The labels of the tagging *)
(* ================================================================== *)

Lemma trimStart_idem s : trimStart (trimStart s) = trimStart s.
Proof.
  induction s as [|c r IH]; [reflexivity|]. cbn.
  destruct (isWhiteSpace c) eqn:W; [exact IH|]. cbn. now rewrite W.
Qed.

Lemma trimStart_In c s : In c (trimStart s) -> In c s.
Proof.
  induction s as [|d r IH]; [intros []|]. cbn.
  destruct (isWhiteSpace d); [right; now apply IH|exact (fun H => H)].
Qed.

Lemma trimStart_length s : (List.length (trimStart s) <= List.length s)%nat.
Proof.
  induction s as [|d r IH]; [cbn; lia|]. cbn.
  destruct (isWhiteSpace d); cbn; lia.
Qed.

Lemma trimEnd_snoc s c :
  trimEnd (s ++ [c]) = if isWhiteSpace c then trimEnd s else s ++ [c].
Proof.
  unfold trimEnd. rewrite rev_app_distr. cbn.
  destruct (isWhiteSpace c); [reflexivity|]. cbn. now rewrite rev_involutive.
Qed.

Lemma trimEnd_cons c r :
  isWhiteSpace c = false -> trimEnd (c :: r) = c :: trimEnd r.
Proof.
  intros W. induction r as [|d r IH] using rev_ind.
  - unfold trimEnd. cbn. now rewrite W.
  - change (c :: r ++ [d]) with ((c :: r) ++ [d]).
    rewrite !trimEnd_snoc. destruct (isWhiteSpace d); [exact IH|reflexivity].
Qed.

Lemma trimEnd_In c s : In c (trimEnd s) -> In c s.
Proof.
  unfold trimEnd. intros H. apply in_rev in H. apply trimStart_In in H.
  now apply in_rev.
Qed.

Lemma trimEnd_idem s : trimEnd (trimEnd s) = trimEnd s.
Proof. unfold trimEnd. now rewrite rev_involutive, trimStart_idem. Qed.

Lemma trimStart_trimEnd x : trimStart x = x -> trimStart (trimEnd x) = trimEnd x.
Proof.
  destruct x as [|c r]; [reflexivity|]. intros H.
  assert (W : isWhiteSpace c = false).
  { destruct (isWhiteSpace c) eqn:W; [|reflexivity]. cbn in H. rewrite W in H.
    pose proof (trimStart_length r) as L. rewrite H in L. cbn in L. lia. }
  rewrite (trimEnd_cons c r W). cbn. now rewrite W.
Qed.

Lemma trim_idem s : trim (trim s) = trim s.
Proof.
  unfold trim. rewrite (trimStart_trimEnd (trimStart s) (trimStart_idem s)).
  apply trimEnd_idem.
Qed.

Lemma trim_In c s : In c (trim s) -> In c s.
Proof. unfold trim. intros H. now apply trimStart_In, trimEnd_In. Qed.

Lemma split_not_nil sep s : split sep s <> [].
Proof.
  destruct s as [|c r]; cbn; [discriminate|].
  destruct (c =? sep); [discriminate|]. destruct (split sep r); discriminate.
Qed.

Lemma split_pieces sep s x :
  In x (split sep s) -> ~ In sep x /\ forall c, In c x -> In c s.
Proof.
  revert x. induction s as [|c r IH]; intros x; cbn.
  - intros [<-|[]]. split; [intros []|intros c []].
  - destruct (c =? sep) eqn:E.
    + intros [<-|H]; [split; [intros []|intros d []]|].
      destruct (IH x H) as [A B]. split; [exact A|]. intros d Hd. right. now apply B.
    + pose proof (split_not_nil sep r) as N.
      destruct (split sep r) as [|h tl]; [congruence|].
      intros [<-|H].
      * destruct (IH h (or_introl eq_refl)) as [A B]. split.
        -- intros [->|Hs]; [rewrite N.eqb_refl in E; discriminate|now apply A].
        -- intros d [<-|Hd]; [now left|right; now apply B].
      * destruct (IH x (or_intror H)) as [A B]. split; [exact A|].
        intros d Hd. right. now apply B.
Qed.

Lemma replaceAll_In c d s x : c <> d -> In x (replaceAll c d s) -> x <> c.
Proof.
  intros N H. unfold replaceAll in H. apply in_map_iff in H as (y & E & _).
  destruct (y =? c) eqn:Q; [congruence|]. apply N.eqb_neq in Q. congruence.
Qed.

Lemma firstn_incl {A} n (l : list A) x : In x (firstn n l) -> In x l.
Proof.
  revert n. induction l as [|y l IH]; intros [|n]; cbn; try tauto.
  intros [->|H]; [now left|right; now apply (IH n)].
Qed.

(** X8: every label of the tagging is free of both commas, the ASCII
    and the localized one, and carries no white space at either end
    (trimming it again changes nothing). *)
Theorem cleanupTags_labels_clean s label :
  In label (cleanupTags s) ->
  ~ In 44 label /\ ~ In 65292 label /\ trim label = label /\ label <> [].
Proof.
  unfold cleanupTags, slice0. intros H. apply firstn_incl in H.
  apply filter_In in H as [H Ne]. apply in_map_iff in H as (piece & <- & H).
  apply split_pieces in H as [A B].
  split; [|split; [|split]].
  - intros C. now apply A, trim_In.
  - intros C. apply trim_In, B in C.
    now apply (replaceAll_In 65292 44 s 65292) in C.
  - apply trim_idem.
  - destruct (trim piece); [discriminate|discriminate].
Qed.

Lemma cleanupTags_labels_clean_witness :
  let label := utf16 "生活" in
  ~ In 44 label /\ ~ In 65292 label /\ trim label = label /\ label <> [].
Proof.
  intros label.
  apply (cleanupTags_labels_clean (utf16 " 美食 ， 生活 ,, 日常")).
  vm_compute. right. left. reflexivity.
Defined.

Lemma split_sep_free sep x : ~ In sep x -> split sep x = [x].
Proof.
  induction x as [|c r IH]; intros H; [reflexivity|]. cbn.
  destruct (c =? sep) eqn:E.
  - apply N.eqb_eq in E. subst. exfalso. apply H. now left.
  - rewrite IH; [reflexivity|]. intros C. apply H. now right.
Qed.

Lemma split_app_sep sep x rest :
  ~ In sep x -> split sep (x ++ sep :: rest) = x :: split sep rest.
Proof.
  induction x as [|c r IH]; intros H; cbn.
  - now rewrite N.eqb_refl.
  - destruct (c =? sep) eqn:E.
    + apply N.eqb_eq in E. subst. exfalso. apply H. now left.
    + rewrite IH; [reflexivity|]. intros C. apply H. now right.
Qed.

Lemma split_join sep pieces :
  pieces <> [] -> (forall p, In p pieces -> ~ In sep p) ->
  split sep (join [sep] pieces) = pieces.
Proof.
  induction pieces as [|x r IH]; intros N H; [congruence|].
  destruct r as [|y r'].
  - cbn. apply split_sep_free, H. now left.
  - change (join [sep] (x :: y :: r')) with (x ++ sep :: join [sep] (y :: r')).
    rewrite split_app_sep by (apply H; now left).
    rewrite IH; [reflexivity|discriminate|]. intros p Hp. apply H. now right.
Qed.

Lemma replaceAll_id c d s : ~ In c s -> replaceAll c d s = s.
Proof.
  unfold replaceAll. induction s as [|x r IH]; intros H; [reflexivity|]. cbn [map].
  destruct (x =? c) eqn:E.
  - apply N.eqb_eq in E. subst. exfalso. apply H. now left.
  - rewrite IH; [reflexivity|]. intros C. apply H. now right.
Qed.

Lemma replaceAll_app c d a b :
  replaceAll c d (a ++ b) = replaceAll c d a ++ replaceAll c d b.
Proof. apply map_app. Qed.

Lemma replaceAll_cons c d x r :
  replaceAll c d (x :: r) = (if x =? c then d else x) :: replaceAll c d r.
Proof. reflexivity. Qed.

Lemma replaceAll_join c d pieces :
  (forall p, In p pieces -> ~ In c p) ->
  replaceAll c d (join [c] pieces) = join [d] pieces.
Proof.
  induction pieces as [|x r IH]; intros H; [reflexivity|].
  destruct r as [|y r'].
  - cbn. apply replaceAll_id, H. now left.
  - change (join [c] (x :: y :: r')) with (x ++ c :: join [c] (y :: r')).
    change (join [d] (x :: y :: r')) with (x ++ d :: join [d] (y :: r')).
    rewrite replaceAll_app, replaceAll_cons, N.eqb_refl.
    rewrite IH by (intros p Hp; apply H; now right).
    rewrite replaceAll_id by (apply H; now left). reflexivity.
Qed.

Lemma join_In sep pieces c :
  In c (join [sep] pieces) -> c = sep \/ exists p, In p pieces /\ In c p.
Proof.
  induction pieces as [|x r IH]; [intros []|].
  destruct r as [|y r'].
  - cbn. intros H. right. exists x. split; [now left|exact H].
  - change (join [sep] (x :: y :: r')) with (x ++ sep :: join [sep] (y :: r')).
    intros H. apply in_app_or in H as [H|[H|H]].
    + right. exists x. split; [now left|exact H].
    + now left.
    + destruct (IH H) as [E|(p & Hp & Hc)]; [now left|].
      right. exists p. split; [now right|exact Hc].
Qed.

Lemma cleanup_of_join pieces :
  (forall p, In p pieces -> ~ In 44 p /\ ~ In 65292 p) ->
  filter (fun t => nonempty t) (map trim (split 44 (join [44] pieces)))
  = filter (fun t => nonempty t) (map trim pieces).
Proof.
  intros H. destruct pieces as [|x r]; [reflexivity|].
  rewrite split_join; [reflexivity|discriminate|]. intros p Hp. now apply H.
Qed.

(** X9: a reply made of comma-free pieces joined by either comma gives
    back those pieces, trimmed, without the blank ones, the first three
    of them; in particular up to three clean labels joined by a comma
    come back as they are. *)
Theorem cleanupTags_of_joined_pieces pieces :
  (forall p, In p pieces -> ~ In 44 p /\ ~ In 65292 p) ->
  let kept := slice0 3 (filter (fun t => nonempty t) (map trim pieces)) in
  cleanupTags (join [44] pieces) = kept
  /\ cleanupTags (join [65292] pieces) = kept
  /\ ((List.length pieces <= 3)%nat ->
      (forall p, In p pieces -> trim p = p /\ p <> []) ->
      kept = pieces).
Proof.
  intros H. cbn zeta. unfold cleanupTags. split; [|split].
  - rewrite replaceAll_id.
    + now rewrite cleanup_of_join.
    + intros C. apply join_In in C as [C|(p & Hp & Hc)]; [discriminate|].
      now apply (proj2 (H p Hp)).
  - rewrite replaceAll_join by (intros p Hp; apply (H p Hp)).
    now rewrite cleanup_of_join.
  - intros L W.
    assert (M : map trim pieces = pieces).
    { clear L H. induction pieces as [|x r IH]; [reflexivity|]. cbn.
      rewrite (proj1 (W x (or_introl eq_refl))). f_equal. apply IH.
      intros p Hp. apply W. now right. }
    rewrite M.
    assert (F : filter (fun t => nonempty t) pieces = pieces).
    { clear L H M. induction pieces as [|x r IH]; [reflexivity|]. cbn.
      destruct x as [|c x]; [now destruct (proj2 (W [] (or_introl eq_refl)))|].
      cbn. f_equal. apply IH. intros p Hp. apply W. now right. }
    rewrite F. unfold slice0. apply firstn_all2. exact L.
Qed.

Lemma cleanupTags_of_joined_pieces_witness :
  cleanupTags (join [65292] [utf16 "美食"; utf16 "生活"]) = [utf16 "美食"; utf16 "生活"].
Proof.
  assert (C : forall p, In p [utf16 "美食"; utf16 "生活"] -> ~ In 44 p /\ ~ In 65292 p).
  { intros p [<-|[<-|[]]]; vm_compute; split; intros H;
      repeat (destruct H as [H|H]; [discriminate|]); exact H. }
  rewrite (proj1 (proj2 (cleanupTags_of_joined_pieces _ C))).
  apply (proj2 (proj2 (cleanupTags_of_joined_pieces _ C))).
  - cbn. lia.
  - intros p [<-|[<-|[]]]; split; try (vm_compute; reflexivity); vm_compute; discriminate.
Defined.

(* ================================================================== *)
(** ** Further properties of the handlers of the generation tab *)
(* ================================================================== *)

(** What a cycle adds to the trace: after the busy flag, the requests
    and console output of its steps, and then either the failure alert
    or the new record with the updates that show it. *)
Lemma handleGenerate_outcome env props st t :
  exists served,
    forallb service_event served = true
    /\ (handleGenerate env props st t
        = (Fulfilled tt,
           t ++ [SetIsGenerating true] ++ served
             ++ [Alert (utf16 "生成失败，请检查网络或API Key"); SetIsGenerating false])
        \/ exists content url score t2 uuid now,
             handleGenerate env props st t
             = (Fulfilled tt,
                t ++ [SetIsGenerating true] ++ served
                  ++ [RandomUUID; DateNow;
                      SetCurrentCopy
                        {| copy_id := uuid; config := fullConfig props st;
                           copy_content := content; audit := score;
                           imageUrl := url; copy_createdAt := now |};
                      SetEditedResult content; SetViewState view_result;
                      SetTimeoutScrollTop 100; SetIsGenerating false])
             /\ (exists t1,
                   generateViralCopy env (fullConfig props st) (thoughts props)
                     (Some (previewContent st)) (t ++ [SetIsGenerating true])
                   = (Fulfilled content, t1)
                   /\ imageStep env props st content t1 = (Fulfilled url, t2))
             /\ fst (auditCopyContent env content (st_platform st)
                       (customApiKey (globalSettings props)) t2) = Fulfilled score).
Proof.
  destruct (generateViralCopy_emits env (fullConfig props st) (thoughts props)
              (Some (previewContent st)) (t ++ [SetIsGenerating true]))
    as (evs1 & E1 & F1).
  destruct (generateViralCopy env (fullConfig props st) (thoughts props)
              (Some (previewContent st)) (t ++ [SetIsGenerating true]))
    as [[content|e] t1] eqn:G; cbn [snd] in E1; subst t1.
  - destruct (imageStep_run env props st content ((t ++ [SetIsGenerating true]) ++ evs1))
      as (url & evs2 & E2 & F2 & _).
    destruct (auditCopyContent_fulfils env content (st_platform st)
                (customApiKey (globalSettings props))
                (((t ++ [SetIsGenerating true]) ++ evs1) ++ evs2)) as (score & S).
    destruct (auditCopyContent_emits env content (st_platform st)
                (customApiKey (globalSettings props))
                (((t ++ [SetIsGenerating true]) ++ evs1) ++ evs2)) as (evs3 & E3 & F3).
    destruct (auditCopyContent env content (st_platform st)
                (customApiKey (globalSettings props))
                (((t ++ [SetIsGenerating true]) ++ evs1) ++ evs2)) as [r t3] eqn:A.
    cbn [fst snd] in S, E3. subst r t3.
    exists (evs1 ++ evs2 ++ evs3). split; [now rewrite !forallb_app, F1, F2, F3|].
    right. exists content, url, score. eexists. eexists. eexists. split; [|split].
    + rewrite (handleGenerate_copy_done env props st t content _ url _ score _ G E2 A).
      rewrite <- !app_assoc. reflexivity.
    + eexists. split; [reflexivity|exact E2].
    + now rewrite A.
  - exists evs1. split; [exact F1|]. left.
    rewrite (handleGenerate_copy_failed env props st t e _ G).
    rewrite <- !app_assoc. reflexivity.
Qed.

(** X10: a generation cycle always completes, whatever the providers
    do: [handleGenerate] returns normally with the busy flag off again,
    leaves platform, reference URL, image switch, preview and the other
    flags alone, and either changes nothing else or installs a record
    built on the configuration of this cycle, shows the result view and
    sets the edited text to the content of that record. *)
Theorem handleGenerate_completes env props st t :
  exists evs,
    handleGenerate env props st t = (Fulfilled tt, t ++ evs)
    /\ isGenerating (reduce st evs) = false
    /\ st_platform (reduce st evs) = st_platform st
    /\ st_refUrl (reduce st evs) = st_refUrl st
    /\ st_withImage (reduce st evs) = st_withImage st
    /\ previewContent (reduce st evs) = previewContent st
    /\ isAuditing (reduce st evs) = isAuditing st
    /\ ((currentCopy (reduce st evs) = currentCopy st
         /\ viewState (reduce st evs) = viewState st
         /\ editedResult (reduce st evs) = editedResult st)
        \/ exists c,
             currentCopy (reduce st evs) = Some c
             /\ config c = fullConfig props st
             /\ editedResult (reduce st evs) = copy_content c
             /\ viewState (reduce st evs) = view_result).
Proof.
  destruct (handleGenerate_outcome env props st t)
    as (served & F & [H|(content & url & score & t2 & uuid & now & H & _)]);
    rewrite H; eexists; (split; [reflexivity|]);
    rewrite <- !reduce_app; rewrite (reduce_service _ served F).
  - repeat split; try reflexivity. left. repeat split; reflexivity.
  - repeat split; try reflexivity. right. eexists. repeat split; reflexivity.
Qed.

(** X11: in a cycle with an image asked for whose copy and image steps
    succeed, the record installed carries the data URI of the image, the
    generated copy as content, and as audit the result of auditing that
    copy after the image step. *)
Theorem handleGenerate_installs_image env props st t content t1 url t2 :
  generateViralCopy env (fullConfig props st) (thoughts props)
    (Some (previewContent st)) (t ++ [SetIsGenerating true]) = (Fulfilled content, t1) ->
  st_withImage st = true ->
  generateImageForCopy env content (niche (globalSettings props))
    (customApiKey (globalSettings props)) t1 = (Fulfilled url, t2) ->
  exists evs c score,
    handleGenerate env props st t = (Fulfilled tt, t ++ evs)
    /\ currentCopy (reduce st evs) = Some c
    /\ imageUrl c = Some url
    /\ copy_content c = content
    /\ fst (auditCopyContent env content (st_platform st)
              (customApiKey (globalSettings props)) t2) = Fulfilled score
    /\ audit c = score.
Proof.
  intros G W I.
  assert (S : imageStep env props st content t1 = (Fulfilled (Some url), t2)).
  { unfold imageStep. rewrite W. unfold_monad. now rewrite I. }
  destruct (generateViralCopy_emits env (fullConfig props st) (thoughts props)
              (Some (previewContent st)) (t ++ [SetIsGenerating true]))
    as (evs1 & E1 & F1).
  rewrite G in E1. cbn [snd] in E1.
  destruct (generateImageForCopy_emits env content (niche (globalSettings props))
              (customApiKey (globalSettings props)) t1) as (evs2 & E2 & F2).
  rewrite I in E2. cbn [snd] in E2.
  destruct (auditCopyContent_fulfils env content (st_platform st)
              (customApiKey (globalSettings props)) t2) as (score & A).
  destruct (auditCopyContent_emits env content (st_platform st)
              (customApiKey (globalSettings props)) t2) as (evs3 & E3 & F3).
  destruct (auditCopyContent env content (st_platform st)
              (customApiKey (globalSettings props)) t2) as [r t3] eqn:Q.
  cbn [fst snd] in A, E3. subst r t3.
  rewrite (handleGenerate_copy_done env props st t content t1 (Some url) t2 score _ G S Q).
  subst t2 t1. eexists. eexists. exists score. split.
  - rewrite <- !app_assoc. reflexivity.
  - rewrite <- !reduce_app.
    rewrite (reduce_service _ evs1 F1), (reduce_service _ evs2 F2),
      (reduce_service _ evs3 F3).
    repeat split; reflexivity.
Qed.

(** An image model that answers a caption and a picture. *)
Lemma handleGenerate_installs_image_witness :
  let env :=
    stub (gallery [{| candidate_parts := Some [caption; picture (utf16 "AAAA")] |}])
      unavailable in
  exists evs c,
    handleGenerate env sample_props (sample_state true None) [] = (Fulfilled tt, [] ++ evs)
    /\ currentCopy (reduce (sample_state true None) evs) = Some c
    /\ imageUrl c = Some (utf16 "data:image/png;base64,AAAA")
    /\ copy_content c = JStr (utf16 "Pasta night, done right.").
Proof.
  intros env.
  destruct (generateViralCopy env (fullConfig sample_props (sample_state true None))
              (thoughts sample_props) (Some (previewContent (sample_state true None)))
              ([] ++ [SetIsGenerating true])) as [r t1] eqn:G.
  assert (R : r = Fulfilled (JStr (utf16 "Pasta night, done right."))).
  { apply (f_equal fst) in G. cbn [fst] in G. rewrite <- G. vm_compute. reflexivity. }
  subst r.
  destruct (generateImageForCopy env (JStr (utf16 "Pasta night, done right."))
              (niche (globalSettings sample_props))
              (customApiKey (globalSettings sample_props)) t1) as [u t2] eqn:I.
  assert (U : u = Fulfilled (utf16 "data:image/png;base64,AAAA")).
  { apply (f_equal fst) in I. cbn [fst] in I. rewrite <- I.
    apply (f_equal snd) in G. cbn [snd] in G. rewrite <- G. vm_compute. reflexivity. }
  subst u.
  destruct (handleGenerate_installs_image env sample_props (sample_state true None) []
              _ t1 _ t2 G eq_refl I) as (evs & c & score & H & C & P & K & _).
  exists evs, c. repeat split; assumption.
Defined.

(** X12: a re-audit always completes.  Without a current record it does
    nothing at all: no request, no alert, no update.  With one it ends
    with the auditing flag off; in both cases it leaves the view, the
    edited text, the preview and the generating flag alone. *)
Theorem handleReAudit_completes env props st t :
  exists evs,
    handleReAudit env props st t = (Fulfilled tt, t ++ evs)
    /\ match currentCopy st with
       | None => evs = []
       | Some _ => isAuditing (reduce st evs) = false
       end
    /\ viewState (reduce st evs) = viewState st
    /\ editedResult (reduce st evs) = editedResult st
    /\ previewContent (reduce st evs) = previewContent st
    /\ isGenerating (reduce st evs) = isGenerating st.
Proof.
  destruct (currentCopy st) as [current|] eqn:C.
  - rewrite (handleReAudit_run env props st t current C).
    rewrite auditCopyContent_run. cbn zeta.
    destruct (gemini_reply env _ _ _) as [r|e]; [destruct (Json.parse _)|];
      eexists; (split; [rewrite <- !app_assoc; reflexivity|]);
      repeat split; reflexivity.
  - exists []. unfold handleReAudit. rewrite C, app_nil_r.
    repeat split; reflexivity.
Qed.

(* ================================================================== *)
(** ** URL extraction *)
(* ================================================================== *)

Lemma hexUpper_safe d : d < 16 -> uriUnreserved (hexUpper d) = true.
Proof.
  intros H.
  assert (d = 0 \/ d = 1 \/ d = 2 \/ d = 3 \/ d = 4 \/ d = 5 \/ d = 6 \/ d = 7
          \/ d = 8 \/ d = 9 \/ d = 10 \/ d = 11 \/ d = 12 \/ d = 13 \/ d = 14
          \/ d = 15) as C by lia.
  repeat (destruct C as [->|C]; [reflexivity|]). subst. reflexivity.
Qed.

Lemma percent_safe octet : octet < 256 -> forallb uri_safe (percent octet) = true.
Proof.
  intros H. unfold percent, uri_safe. cbn [forallb].
  rewrite !hexUpper_safe.
  - reflexivity.
  - apply N.mod_upper_bound. lia.
  - apply N.Div0.div_lt_upper_bound. lia.
Qed.

Lemma div_bound a b q : 0 < b -> a < b * q -> a / b < q.
Proof. intros B H. apply N.Div0.div_lt_upper_bound. exact H. Qed.

Lemma mod64_bound a : a mod 64 < 64.
Proof. apply N.mod_upper_bound. lia. Qed.

Lemma escape_safe cp : cp < 1114112 -> forallb uri_safe (escape cp) = true.
Proof.
  intros H. unfold escape, utf8_octets.
  pose proof (mod64_bound cp). pose proof (mod64_bound (cp / 64)).
  pose proof (mod64_bound (cp / 4096)).
  destruct (cp <? 128) eqn:A; [apply N.ltb_lt in A|apply N.ltb_ge in A].
  { cbn [map concat]. rewrite app_nil_r. apply percent_safe. lia. }
  destruct (cp <? 2048) eqn:B; [apply N.ltb_lt in B|apply N.ltb_ge in B].
  { assert (cp / 64 < 32) by (apply div_bound; lia).
    cbn [map concat]. rewrite !forallb_app, !percent_safe by lia. reflexivity. }
  destruct (cp <? 65536) eqn:C; [apply N.ltb_lt in C|apply N.ltb_ge in C].
  { assert (cp / 4096 < 16) by (apply div_bound; lia).
    cbn [map concat]. rewrite !forallb_app, !percent_safe by lia. reflexivity. }
  assert (cp / 262144 < 5) by (apply div_bound; lia).
  cbn [map concat]. rewrite !forallb_app, !percent_safe by lia. reflexivity.
Qed.

Lemma encodeURIComponent_cons c r :
  encodeURIComponent (c :: r) =
  if uriUnreserved c then option_map (cons c) (encodeURIComponent r)
  else if isTrailSurrogate c then None
  else if isLeadSurrogate c then
    match r with
    | d :: r' =>
      if isTrailSurrogate d then
        option_map
          (app (escape (65536 + (c - 55296) * 1024 + (d - 56320))))
          (encodeURIComponent r')
      else None
    | [] => None
    end
  else option_map (app (escape c)) (encodeURIComponent r).
Proof. reflexivity. Qed.

Lemma surrogate_pair_bound c d :
  isLeadSurrogate c = true -> isTrailSurrogate d = true ->
  65536 + (c - 55296) * 1024 + (d - 56320) < 1114112.
Proof.
  unfold isLeadSurrogate, isTrailSurrogate. intros L T.
  apply andb_prop in L as [L1 L2]. apply andb_prop in T as [T1 T2].
  apply N.leb_le in L1, L2, T1, T2. lia.
Qed.

Lemma encodeURIComponent_safe_upto n :
  forall s out,
    (List.length s <= n)%nat ->
    Forall (fun c => c < 65536) s ->
    encodeURIComponent s = Some out ->
    forallb uri_safe out = true.
Proof.
  induction n as [|n IH]; intros s out L W E.
  - destruct s as [|c r]; [|exfalso; revert L; cbn [List.length]; lia].
    injection E as <-. reflexivity.
  - destruct s as [|c r]; [injection E as <-; reflexivity|].
    cbn [List.length] in L. inversion W as [|? ? Wc Wr]; subst.
    rewrite encodeURIComponent_cons in E.
    destruct (uriUnreserved c) eqn:U.
    { destruct (encodeURIComponent r) as [o|] eqn:R; [|discriminate].
      unfold option_map in E. injection E as <-. cbn [forallb].
      unfold uri_safe at 1. rewrite U.
      apply (IH r o); [lia|assumption|exact R]. }
    destruct (isTrailSurrogate c) eqn:T; [discriminate|].
    destruct (isLeadSurrogate c) eqn:Ld.
    { destruct r as [|d r']; [discriminate|].
      destruct (isTrailSurrogate d) eqn:Td; [|discriminate].
      destruct (encodeURIComponent r') as [o|] eqn:R; [|discriminate].
      unfold option_map in E.
      replace out with (escape (65536 + (c - 55296) * 1024 + (d - 56320)) ++ o)
        by congruence.
      rewrite forallb_app.
      inversion Wr as [|? ? Wd Wr']; subst.
      rewrite (escape_safe _ (surrogate_pair_bound c d Ld Td)).
      cbn [List.length] in L.
      apply (IH r' o); [lia|assumption|exact R]. }
    destruct (encodeURIComponent r) as [o|] eqn:R; [|discriminate].
    unfold option_map in E. replace out with (escape c ++ o) by congruence.
    rewrite forallb_app.
    rewrite escape_safe by lia. apply (IH r o); [lia|assumption|exact R].
Qed.

Lemma encodeURIComponent_unreserved s :
  forallb uriUnreserved s = true -> encodeURIComponent s = Some s.
Proof.
  induction s as [|c r IH]; [reflexivity|]. cbn [forallb encodeURIComponent].
  intros H. apply andb_prop in H as [U R]. rewrite U, (IH R). reflexivity.
Qed.

(** X13: on a string of UTF-16 code units, whatever [encodeURIComponent]
    returns is made of unreserved characters and percent signs only, so
    it holds no slash, question mark, hash, ampersand or space; and a
    string of unreserved characters is returned as it is. *)
Theorem encodeURIComponent_output_safe s :
  (forall out,
     forallb (fun c => c <? 65536) s = true ->
     encodeURIComponent s = Some out ->
     forallb uri_safe out = true
     /\ forallb (fun c => negb (existsb (N.eqb c) [47; 63; 35; 38; 32])) out = true)
  /\ (forallb uriUnreserved s = true -> encodeURIComponent s = Some s).
Proof.
  split; [|apply encodeURIComponent_unreserved].
  intros out W E.
  assert (S : forallb uri_safe out = true).
  { apply (encodeURIComponent_safe_upto (List.length s) s out); auto.
    apply Forall_forall. intros c Hc. rewrite forallb_forall in W.
    now apply N.ltb_lt, W. }
  split; [exact S|].
  rewrite forallb_forall in S. apply forallb_forall. intros c Hc.
  specialize (S c Hc). unfold uri_safe in S. cbn [existsb].
  destruct (c =? 47) eqn:E1; [apply N.eqb_eq in E1; subst; discriminate|].
  destruct (c =? 63) eqn:E2; [apply N.eqb_eq in E2; subst; discriminate|].
  destruct (c =? 35) eqn:E3; [apply N.eqb_eq in E3; subst; discriminate|].
  destruct (c =? 38) eqn:E4; [apply N.eqb_eq in E4; subst; discriminate|].
  destruct (c =? 32) eqn:E5; [apply N.eqb_eq in E5; subst; discriminate|].
  reflexivity.
Qed.

Lemma encodeURIComponent_output_safe_witness :
  forallb uri_safe
    (utf16 "https%3A%2F%2Fexample.com%2Fa%20b%3Fx%3D1%26y%3D%E4%B8%AD") = true
  /\ encodeURIComponent (utf16 "pasta-night_2.html") = Some (utf16 "pasta-night_2.html").
Proof.
  split.
  - assert (W : forallb (fun c => c <? 65536) (utf16 "https://example.com/a b?x=1&y=中")
                = true) by (vm_compute; reflexivity).
    assert (E : encodeURIComponent (utf16 "https://example.com/a b?x=1&y=中")
                = Some (utf16 "https%3A%2F%2Fexample.com%2Fa%20b%3Fx%3D1%26y%3D%E4%B8%AD"))
      by (vm_compute; reflexivity).
    exact (proj1 (proj1 (encodeURIComponent_output_safe _) _ W E)).
  - assert (U : forallb uriUnreserved (utf16 "pasta-night_2.html") = true)
      by (vm_compute; reflexivity).
    exact (proj2 (encodeURIComponent_output_safe _) U).
Defined.

(** One run of the extraction, by the reply of the reader. *)
Lemma extractContentFromUrl_run env url t :
  extractContentFromUrl env url t =
  match url with
  | [] => (Fulfilled [], t)
  | _ =>
    let failed e :=
      [ConsoleError (utf16 "Extraction failed") (LogError e)] in
    match encodeURIComponent url with
    | None => (Fulfilled [], t ++ failed (Error (utf16 "URI malformed")))
    | Some target =>
      let call := FetchCall (reader_url ++ target) default_init in
      match fetch_reply env t (reader_url ++ target) default_init with
      | Rejected e => (Fulfilled [], t ++ [call] ++ failed e)
      | Fulfilled r =>
        if ok r then
          match read_body r with
          | Fulfilled b => (Fulfilled b, t ++ [call])
          | Rejected e => (Fulfilled [], t ++ [call] ++ failed e)
          end
        else (Fulfilled [], t ++ [call])
      end
    end
  end.
Proof.
  unfold extractContentFromUrl. destruct url as [|c u]; [reflexivity|].
  cbn [nonempty negb]. unfold response_text. unfold_monad. cbn zeta.
  destruct (encodeURIComponent (c :: u)) as [target|]; [|reflexivity].
  destruct (fetch_reply env t _ _) as [r|e]; [|now rewrite <- app_assoc].
  destruct (ok r); [|reflexivity].
  destruct (read_body r) as [b|e]; [reflexivity|now rewrite <- app_assoc].
Qed.

(** X14: the extraction never raises.  With the empty URL it returns the
    empty string and asks nothing; otherwise it makes at most one
    request, a GET to the reader with the encoded URL, and never calls the
    primary provider.  A text that is not empty is the body of a 2xx reply
    of the reader; every other outcome gives the empty string. *)
Theorem extractContentFromUrl_total env url t :
  exists found evs,
    extractContentFromUrl env url t = (Fulfilled found, t ++ evs)
    /\ forallb no_gemini evs = true
    /\ match url with
       | [] => found = [] /\ evs = []
       | _ =>
         filter is_fetch evs = []
         \/ exists target,
              encodeURIComponent url = Some target
              /\ filter is_fetch evs = [FetchCall (reader_url ++ target) default_init]
       end
    /\ (found <> [] ->
        exists target r,
          encodeURIComponent url = Some target
          /\ fetch_reply env t (reader_url ++ target) default_init = Fulfilled r
          /\ ok r = true
          /\ read_body r = Fulfilled found).
Proof.
  rewrite extractContentFromUrl_run. destruct url as [|c u].
  { exists [], []. rewrite app_nil_r. repeat split. congruence. }
  cbn zeta.
  destruct (encodeURIComponent (c :: u)) as [target|] eqn:E.
  2: { eexists. eexists. split; [reflexivity|]. split; [reflexivity|].
       split; [now left|congruence]. }
  destruct (fetch_reply env t _ _) as [r|e] eqn:F.
  2: { eexists. eexists. split; [reflexivity|]. split; [reflexivity|].
       split; [right; exists target; now split|congruence]. }
  destruct (ok r) eqn:K.
  2: { eexists. eexists. split; [reflexivity|]. split; [reflexivity|].
       split; [right; exists target; now split|congruence]. }
  destruct (read_body r) as [b|e] eqn:B.
  2: { eexists. eexists. split; [reflexivity|]. split; [reflexivity|].
       split; [right; exists target; now split|congruence]. }
  eexists. eexists. split; [reflexivity|]. split; [reflexivity|].
  split; [right; exists target; now split|].
  intros _. exists target, r. repeat split; assumption.
Qed.

Lemma extractContentFromUrl_total_witness :
  exists target r,
    encodeURIComponent (utf16 "https://a.b/c d") = Some target
    /\ fetch_reply (stub studio (http 200 (utf16 "page text"))) []
         (reader_url ++ target) default_init = Fulfilled r
    /\ ok r = true
    /\ read_body r = Fulfilled (utf16 "page text").
Proof.
  destruct (extractContentFromUrl_total (stub studio (http 200 (utf16 "page text")))
              (utf16 "https://a.b/c d") []) as (found & evs & R & _ & _ & H).
  assert (F : found = utf16 "page text").
  { apply (f_equal fst) in R. cbn [fst] in R.
    assert (Fulfilled found = Fulfilled (utf16 "page text")) as Q
      by (rewrite <- R; vm_compute; reflexivity).
    now injection Q. }
  subst found. apply H. vm_compute. discriminate.
Defined.

(* ================================================================== *)
(** ** The preview of the generation tab *)
(* ================================================================== *)

Ltac unfold_handler :=
  unfold hbind, htry, hfinally, hret, request, lift in *.

Lemma header_length refUrl :
  List.length (utf16 "[参考内容] (" ++ refUrl ++ utf16 "):" ++ LF)
  = (List.length refUrl + 11)%nat.
Proof.
  rewrite !length_app.
  replace (List.length (utf16 "[参考内容] (")) with 8%nat by (vm_compute; reflexivity).
  replace (List.length (utf16 "):")) with 2%nat by (vm_compute; reflexivity).
  cbn [List.length LF]. lia.
Qed.

(** X15: adding extracted text to the preview.  On an empty preview
    the result is the reference header, which quotes the URL, followed by
    the text, in full when it has at most 1000 code units and cut to its
    first 1000 with an ellipsis after them when it is longer; on a preview
    that has text the same block comes after that text and an empty
    line.  So the preview there was stays in front, and the preview grows
    by at most 1016 code units beyond the length of the URL. *)
Theorem appendReference_bounded refUrl extracted prev :
  let header := utf16 "[参考内容] (" ++ refUrl ++ utf16 "):" ++ LF in
  (exists added, appendReference refUrl extracted prev = prev ++ added)
  /\ (List.length (appendReference refUrl extracted prev)
      <= List.length prev + List.length refUrl + 1016)%nat
  /\ ((List.length extracted <= 1000)%nat ->
      exists before, appendReference refUrl extracted prev = before ++ extracted)
  /\ ((1000 < List.length extracted)%nat ->
      exists before,
        appendReference refUrl extracted prev
        = before ++ firstn 1000 extracted ++ utf16 "...")
  /\ ((List.length extracted <= 1000)%nat ->
      appendReference refUrl extracted [] = header ++ extracted)
  /\ ((1000 < List.length extracted)%nat ->
      appendReference refUrl extracted []
      = header ++ firstn 1000 extracted ++ utf16 "...")
  /\ (prev <> [] ->
      appendReference refUrl extracted prev
      = prev ++ LF ++ LF ++ appendReference refUrl extracted []).
Proof.
  cbn zeta. unfold appendReference, substring0.
  split; [|split; [|split; [|split; [|split; [|split]]]]].
  - destruct prev as [|c p]; cbn [nonempty].
    + eexists. reflexivity.
    + rewrite <- !app_assoc. eexists. reflexivity.
  - pose proof (firstn_le_length 1000 extracted) as F.
    assert (P : (List.length (if nonempty prev then prev ++ LF ++ LF else [])
                 <= List.length prev + 2)%nat).
    { destruct prev; cbn [nonempty]; [cbn; lia|]. rewrite !length_app. cbn. lia. }
    assert (E : (List.length (if (1000 <? List.length extracted)%nat
                              then utf16 "..." else []) <= 3)%nat).
    { destruct (1000 <? List.length extracted)%nat; [|cbn; lia].
      replace (List.length (utf16 "...")) with 3%nat by (vm_compute; reflexivity). lia. }
    rewrite (length_app (if nonempty prev then _ else _)).
    rewrite (length_app (_ ++ _ ++ _ ++ LF)), header_length, length_app. lia.
  - intros L. apply Nat.ltb_ge in L. rewrite L, app_nil_r.
    apply Nat.ltb_ge in L. rewrite firstn_all2 by exact L.
    rewrite !app_assoc. eexists. reflexivity.
  - intros L. apply Nat.ltb_lt in L. rewrite L.
    rewrite !app_assoc. rewrite <- (app_assoc _ (firstn 1000 extracted)).
    eexists. reflexivity.
  - intros L. apply Nat.ltb_ge in L. rewrite L, app_nil_r.
    apply Nat.ltb_ge in L. rewrite firstn_all2 by exact L. reflexivity.
  - intros L. apply Nat.ltb_lt in L. rewrite L. reflexivity.
  - intros N. destruct prev as [|c p]; [congruence|]. cbn [nonempty].
    rewrite <- !app_assoc. reflexivity.
Qed.

(** A short page on an empty preview, and a page of 1200 code units on a
    preview that has text. *)
Lemma appendReference_bounded_witness :
  appendReference (utf16 "https://a.b/c") (utf16 "page text") []
  = (utf16 "[参考内容] (" ++ utf16 "https://a.b/c" ++ utf16 "):" ++ LF) ++ utf16 "page text"
  /\ appendReference (utf16 "https://a.b/c") (repeat 97 1200) []
     = (utf16 "[参考内容] (" ++ utf16 "https://a.b/c" ++ utf16 "):" ++ LF)
       ++ firstn 1000 (repeat 97 1200) ++ utf16 "..."
  /\ appendReference (utf16 "https://a.b/c") (repeat 97 1200) (utf16 "draft")
     = utf16 "draft" ++ LF ++ LF
       ++ appendReference (utf16 "https://a.b/c") (repeat 97 1200) [].
Proof.
  pose proof (appendReference_bounded (utf16 "https://a.b/c") (utf16 "page text") [])
    as (_ & _ & _ & _ & S & _).
  pose proof (appendReference_bounded (utf16 "https://a.b/c") (repeat 97 1200) [])
    as (_ & _ & _ & _ & _ & L & _).
  pose proof (appendReference_bounded (utf16 "https://a.b/c") (repeat 97 1200)
                (utf16 "draft"))
    as (_ & _ & _ & _ & _ & _ & P).
  split; [|split].
  - apply S.
    replace (List.length (utf16 "page text")) with 9%nat by (vm_compute; reflexivity).
    lia.
  - apply L. rewrite repeat_length. lia.
  - apply P. vm_compute. discriminate.
Defined.

Lemma extractContentFromUrl_fulfils env url t :
  exists found evs, extractContentFromUrl env url t = (Fulfilled found, t ++ evs).
Proof.
  rewrite extractContentFromUrl_run. destruct url as [|c u].
  { exists [], []. now rewrite app_nil_r. }
  cbn zeta. destruct (encodeURIComponent (c :: u)); [|eexists; eexists; reflexivity].
  destruct (fetch_reply env t _ _) as [r|e]; [|eexists; eexists; reflexivity].
  destruct (ok r); [|eexists; eexists; reflexivity].
  destruct (read_body r); eexists; eexists; reflexivity.
Qed.

(** X16: [handleExtractUrl] always completes.  With no reference URL it
    does nothing.  Otherwise it ends with the extracting flag off, and
    either the extraction gave no text, the failure alert is shown and the
    preview is left as it is, or it gave some, the success alert is shown
    and the preview, whatever it holds by then, gets the reference added
    to it. *)
Theorem handleExtractUrl_completes env st t us :
  exists t' us',
    handleExtractUrl env st (t, us) = (Fulfilled tt, (t', us ++ us'))
    /\ match st_refUrl st with
       | [] => t' = t /\ us' = []
       | _ =>
         (forall b, apply_flag extracting_of b us' = false)
         /\ exists found evs,
              extractContentFromUrl env (st_refUrl st) t = (Fulfilled found, t ++ evs)
              /\ match found with
                 | [] =>
                   t' = t ++ evs ++ [Alert (utf16 "提取失败，请检查链接是否公开可见")]
                   /\ forall p, apply_preview p us' = p
                 | _ =>
                   t' = t ++ evs ++ [Alert (utf16 "提取成功，内容已加入预览")]
                   /\ forall p,
                        apply_preview p us' = appendReference (st_refUrl st) found p
                 end
       end.
Proof.
  unfold handleExtractUrl. cbn zeta.
  destruct (st_refUrl st) as [|c u] eqn:R.
  { exists t, []. cbn. rewrite app_nil_r. repeat split. }
  cbn [nonempty negb].
  destruct (extractContentFromUrl_fulfils env (c :: u) t) as (found & evs & E).
  unfold_handler. unfold alert, emit. cbn [fst snd]. rewrite E.
  destruct found as [|x f]; cbn [nonempty fst snd].
  - eexists. eexists. split; [rewrite <- !app_assoc; reflexivity|].
    split; [reflexivity|]. exists [], evs. split; [reflexivity|].
    split; [now rewrite app_assoc|reflexivity].
  - eexists. eexists. split; [rewrite <- !app_assoc; reflexivity|].
    split; [reflexivity|]. exists (x :: f), evs. split; [reflexivity|].
    split; [now rewrite app_assoc|reflexivity].
Qed.

(** X17: [handleSmartOrganize] always completes, with the organizing
    flag off at the end.  It consolidates all the fragments, selected or
    not; when the consolidation returns, its text replaces the preview;
    when it fails, the failure alert is shown and the preview is left as
    it is. *)
Theorem handleSmartOrganize_completes env props st t us :
  exists t' us',
    handleSmartOrganize env props st (t, us) = (Fulfilled tt, (t', us ++ us'))
    /\ (forall b, apply_flag smartOrganizing_of b us' = false)
    /\ match smartOrganizeThoughts env (thoughts props)
               (customApiKey (globalSettings props)) t with
       | (Fulfilled organized, t1) =>
         t' = t1 /\ forall p, apply_preview p us' = organized
       | (Rejected _, t1) =>
         t' = t1 ++ [Alert (utf16 "智能整理失败，请重试")]
         /\ forall p, apply_preview p us' = p
       end.
Proof.
  unfold handleSmartOrganize. unfold_handler. unfold alert, emit. cbn [fst snd].
  destruct (smartOrganizeThoughts env (thoughts props)
              (customApiKey (globalSettings props)) t) as [[organized|e] t1];
    cbn [fst snd]; eexists; eexists;
    (split; [rewrite <- !app_assoc; reflexivity|]); repeat split; reflexivity.
Qed.

(** The first request of the copy step carries the user prompt. *)
Lemma generateViralCopy_first_request env config thoughts baseContent t :
  exists request later,
    snd (generateViralCopy env config thoughts baseContent t) = t ++ request :: later
    /\ user_prompt_of request = Some (copyUserPrompt config thoughts baseContent).
Proof.
  rewrite generateViralCopy_run. cbn zeta.
  destruct (aiProvider (settings config)) as [[]|].
  - eexists. exists []. split; reflexivity.
  - destruct (callOpenAICompatible_trace env deepseek_url (utf16 "deepseek-chat")
                (or_else (customApiKey (settings config)) (or_else (API_KEY env) []))
                copySystemPrompt (copyUserPrompt config thoughts baseContent) t)
      as (evs & E & _).
    rewrite E. eexists. exists evs. split; reflexivity.
  - destruct (callOpenAICompatible_trace env qwen_url (utf16 "qwen-plus")
                (or_else (customApiKey (settings config)) (or_else (API_KEY env) []))
                copySystemPrompt (copyUserPrompt config thoughts baseContent) t)
      as (evs & E & _).
    rewrite E. eexists. exists evs. split; reflexivity.
  - eexists. exists []. split; reflexivity.
Qed.

(** A cycle starts with the busy flag and the trace of its copy step. *)
Lemma handleGenerate_starts_with_copy env props st t :
  exists rest,
    snd (handleGenerate env props st t)
    = snd (generateViralCopy env (fullConfig props st) (thoughts props)
             (Some (previewContent st)) (t ++ [SetIsGenerating true])) ++ rest.
Proof.
  destruct (generateViralCopy env (fullConfig props st) (thoughts props)
              (Some (previewContent st)) (t ++ [SetIsGenerating true]))
    as [[content|e] t1] eqn:G; cbn [snd].
  - destruct (imageStep_run env props st content t1) as (url & evs2 & E2 & _).
    destruct (auditCopyContent_fulfils env content (st_platform st)
                (customApiKey (globalSettings props)) (t1 ++ evs2)) as (score & S).
    destruct (auditCopyContent_emits env content (st_platform st)
                (customApiKey (globalSettings props)) (t1 ++ evs2)) as (evs3 & E3 & _).
    destruct (auditCopyContent env content (st_platform st)
                (customApiKey (globalSettings props)) (t1 ++ evs2)) as [r t3] eqn:A.
    cbn [fst snd] in S, E3. subst r t3.
    rewrite (handleGenerate_copy_done env props st t content t1 url _ score _ G E2 A).
    cbn [snd]. rewrite <- !app_assoc. eexists. reflexivity.
  - rewrite (handleGenerate_copy_failed env props st t e t1 G). cbn [snd].
    eexists. reflexivity.
Qed.

(** A base draft whose trimmed text is not empty is the content source,
    under its heading. *)
Lemma contentSource_of_draft config thoughts b :
  nonempty (trim b) = true ->
  contentSource config thoughts (Some b)
  = utf16 "基础草稿内容 (请基于此内容进行优化和格式化):" ++ LF ++ b.
Proof.
  intros N. unfold contentSource. rewrite N, (trim_nonempty b N). reflexivity.
Qed.

(** The user prompt quotes the content source under its label. *)
Lemma copyUserPrompt_quotes_source config thoughts baseContent :
  exists before after,
    copyUserPrompt config thoughts baseContent
    = before ++ (utf16 "- 内容来源:" ++ LF ++ utf16 "    ")
      ++ contentSource config thoughts baseContent ++ after.
Proof.
  unfold copyUserPrompt, copyPromptHead.
  replace (utf16 "
    - 内容来源:
    ")
    with (utf16 "
    " ++ utf16 "- 内容来源:" ++ LF ++ utf16 "    ")
    by (vm_compute; reflexivity).
  rewrite <- !app_assoc.
  match goal with
  | |- exists before after,
         ?a ++ ?b ++ ?c ++ ?d ++ ?e ++ ?l1 ++ ?l2 ++ ?l3 ++ ?cs ++ ?rest = _ =>
    exists (a ++ b ++ c ++ d ++ e), rest
  end.
  rewrite <- !app_assoc. reflexivity.
Qed.

(** X18: consolidation followed by generation.  When the consolidation
    returns a text that is not blank, the preview holds that text, and a
    generation cycle started from there takes it as the base draft: the
    content source is the draft heading and that text, whatever is
    selected, and the first request of the cycle carries the user prompt,
    which quotes the heading and the text under the label of the content
    source and is the same whatever the fragments are. *)
Theorem organize_then_generate env props st t us organized t1 :
  smartOrganizeThoughts env (thoughts props) (customApiKey (globalSettings props)) t
  = (Fulfilled organized, t1) ->
  nonempty (trim organized) = true ->
  exists us',
    handleSmartOrganize env props st (t, us) = (Fulfilled tt, (t1, us ++ us'))
    /\ let st' := with_preview st us' in
       previewContent st' = organized
       /\ contentSource (fullConfig props st') (thoughts props)
            (Some (previewContent st'))
          = utf16 "基础草稿内容 (请基于此内容进行优化和格式化):" ++ LF ++ organized
       /\ exists request later,
            snd (handleGenerate env props st' t1)
            = t1 ++ SetIsGenerating true :: request :: later
            /\ user_prompt_of request
               = Some (copyUserPrompt (fullConfig props st') (thoughts props)
                         (Some organized))
            /\ (exists before after,
                  user_prompt_of request
                  = Some (before
                          ++ (utf16 "- 内容来源:" ++ LF ++ utf16 "    ")
                          ++ (utf16 "基础草稿内容 (请基于此内容进行优化和格式化):"
                              ++ LF ++ organized)
                          ++ after))
            /\ (forall others,
                  user_prompt_of request
                  = Some (copyUserPrompt (fullConfig props st') others
                            (Some organized))).
Proof.
  intros O N.
  eexists [SetIsSmartOrganizing true; SetPreviewContent organized;
           SetIsSmartOrganizing false].
  split.
  { unfold handleSmartOrganize. unfold_handler. cbn [fst snd]. rewrite O.
    cbn [fst snd]. rewrite <- !app_assoc. reflexivity. }
  cbn zeta.
  set (st' := with_preview st _).
  assert (P : previewContent st' = organized) by reflexivity.
  split; [exact P|]. split.
  - rewrite P. apply contentSource_of_draft, N.
  - destruct (handleGenerate_starts_with_copy env props st' t1) as (rest & H).
    destruct (generateViralCopy_first_request env (fullConfig props st') (thoughts props)
                (Some (previewContent st')) (t1 ++ [SetIsGenerating true]))
      as (request & later & G & U).
    rewrite G in H. rewrite P in U.
    exists request, (later ++ rest). split; [|split; [exact U|split]].
    + rewrite H, <- !app_assoc. reflexivity.
    + destruct (copyUserPrompt_quotes_source (fullConfig props st') (thoughts props)
                  (Some organized)) as (before & after & Q).
      rewrite (contentSource_of_draft _ _ _ N) in Q.
      exists before, after. rewrite U, Q. reflexivity.
    + intros others. rewrite U. f_equal.
      unfold copyUserPrompt, copyPromptHead.
      rewrite !(contentSource_of_draft _ _ _ N). reflexivity.
Qed.

(** A provider that answers the consolidated draft. *)
Lemma organize_then_generate_witness :
  let env := stub studio unavailable in
  exists us',
    handleSmartOrganize env sample_props (sample_state false None) ([], [])
    = (Fulfilled tt,
       ([GenerateContent (utf16 "key-1")
           {| model := utf16 "gemini-3-flash-preview";
              contents := ContentsText (organizePrompt (thoughts sample_props));
              gen_config := None |}], [] ++ us'))
    /\ previewContent (with_preview (sample_state false None) us')
       = utf16 "Pasta night, done right.".
Proof.
  intros env.
  assert (O : smartOrganizeThoughts env (thoughts sample_props)
                (customApiKey (globalSettings sample_props)) []
              = (Fulfilled (utf16 "Pasta night, done right."),
                 [GenerateContent (utf16 "key-1")
                    {| model := utf16 "gemini-3-flash-preview";
                       contents := ContentsText (organizePrompt (thoughts sample_props));
                       gen_config := None |}]))
    by (vm_compute; reflexivity).
  assert (N : nonempty (trim (utf16 "Pasta night, done right.")) = true)
    by (vm_compute; reflexivity).
  destruct (organize_then_generate env sample_props (sample_state false None) [] []
              _ _ O N) as (us' & H & P & _).
  exists us'. split; [exact H|exact P].
Defined.

(* ================================================================== *)
(** ** The thought tab *)
(* ================================================================== *)

Lemma eqb_eq (a b : jsstring) : JS.eqb a b = true <-> a = b.
Proof.
  revert b. induction a as [|x a IH]; intros [|y b]; cbn; split; try congruence;
    try reflexivity.
  - intros H. apply andb_true_iff in H. destruct H as [H1 H2].
    apply N.eqb_eq in H1. apply IH in H2. congruence.
  - intros H. injection H as -> ->. apply andb_true_iff. split.
    + apply N.eqb_refl.
    + now apply IH.
Qed.

Lemma eqb_neq (a b : jsstring) : JS.eqb a b = false <-> a <> b.
Proof.
  split.
  - intros H E. apply eqb_eq in E. congruence.
  - intros H. destruct (JS.eqb a b) eqn:E; [|reflexivity].
    apply eqb_eq in E. contradiction.
Qed.

Lemma includes_In (a : list jsstring) (x : jsstring) : includes a x = true <-> In x a.
Proof.
  unfold includes. rewrite existsb_exists. split.
  - intros (y & I & E). apply eqb_eq in E. now subst.
  - intros I. exists x. split; [exact I|]. now apply eqb_eq.
Qed.

Lemma without_In (i x : jsstring) (l : list jsstring) :
  In x (filter (fun sid => negb (JS.eqb sid i)) l) <-> In x l /\ x <> i.
Proof.
  rewrite filter_In, negb_true_iff, eqb_neq. reflexivity.
Qed.

Lemma retag_ids i ts l : map id (retag i ts l) = map id l.
Proof.
  unfold retag. rewrite map_map. apply map_ext. intros t.
  destruct (JS.eqb (id t) i); reflexivity.
Qed.

Lemma retag_absent i ts l : ~ In i (map id l) -> retag i ts l = l.
Proof.
  unfold retag. induction l as [|t l IH]; intros N; [reflexivity|]. cbn [map].
  destruct (JS.eqb (id t) i) eqn:E.
  - apply eqb_eq in E. exfalso. apply N. left. exact E.
  - f_equal. apply IH. intros I. apply N. right. exact I.
Qed.

(** X19: what retagging keeps and what it changes.  The list keeps its
    length and order, and every thought its id, content and date; a
    thought with another id is kept whole, a thought with the id carries
    exactly the new tags; retagging an id that no thought has changes
    nothing, and retagging twice leaves the second tags. *)
Theorem retag_changes_only_tags i ts l :
  map id (retag i ts l) = map id l
  /\ map content (retag i ts l) = map content l
  /\ map createdAt (retag i ts l) = map createdAt l
  /\ (forall n t, nth_error l n = Some t ->
        exists t', nth_error (retag i ts l) n = Some t'
                   /\ (id t <> i -> t' = t)
                   /\ (id t = i -> tags t' = ts))
  /\ (~ In i (map id l) -> retag i ts l = l)
  /\ (forall ts', retag i ts' (retag i ts l) = retag i ts' l).
Proof.
  split; [apply retag_ids|].
  split; [unfold retag; rewrite map_map; apply map_ext; intros t;
          destruct (JS.eqb (id t) i); reflexivity|].
  split; [unfold retag; rewrite map_map; apply map_ext; intros t;
          destruct (JS.eqb (id t) i); reflexivity|].
  split.
  { intros n t H. unfold retag. rewrite nth_error_map, H. cbn [option_map].
    eexists. split; [reflexivity|]. destruct (JS.eqb (id t) i) eqn:E.
    - apply eqb_eq in E. split; [congruence|reflexivity].
    - apply eqb_neq in E. split; [reflexivity|congruence]. }
  split; [apply retag_absent|].
  intros ts'. unfold retag. rewrite map_map. apply map_ext. intros t.
  destruct (JS.eqb (id t) i) eqn:E; cbn [id withTags]; rewrite E; reflexivity.
Qed.

Lemma retag_changes_only_tags_witness :
  retag (utf16 "t9") [utf16 "food"] (thoughts sample_props) = thoughts sample_props.
Proof.
  apply (proj1 (proj2 (proj2 (proj2 (proj2
           (retag_changes_only_tags (utf16 "t9") [utf16 "food"] (thoughts sample_props))))))).
  vm_compute. intros H. repeat (destruct H as [H|H]; [discriminate H|]). exact H.
Defined.

Lemma generateTagsForThought_fulfils env thoughtContent customKey provider t :
  exists newTags t',
    generateTagsForThought env thoughtContent customKey provider t
    = (Fulfilled newTags, t').
Proof.
  rewrite generateTagsForThought_run. cbn zeta.
  destruct (generateText _ _ _ _ t) as [[[]|e] t']; eexists; eexists; reflexivity.
Qed.

Lemma handleAddThought_run env thoughts globalSettings inputValue t us :
  nonempty (trim inputValue) = true ->
  let tempId := uuid_at env t in
  let now := clock_at env (t ++ [RandomUUID]) in
  let newThought :=
    {| id := tempId; content := inputValue; tags := [utf16 "处理中..."];
       createdAt := now |} in
  exists newTags t',
    generateTagsForThought env inputValue (customApiKey globalSettings)
      (option_map AiProvider_value (aiProvider globalSettings))
      ((t ++ [RandomUUID]) ++ [DateNow])
    = (Fulfilled newTags, t')
    /\ ThoughtTab.handleAddThought env thoughts globalSettings inputValue (t, us)
       = (Fulfilled tt,
          (t', us ++ [SetThoughts (newThought :: thoughts); SetInputValue [];
                      UpdateThoughts (retag tempId newTags)])).
Proof.
  intros N. cbn zeta.
  destruct (generateTagsForThought_fulfils env inputValue (customApiKey globalSettings)
              (option_map AiProvider_value (aiProvider globalSettings))
              ((t ++ [RandomUUID]) ++ [DateNow])) as (newTags & t' & G).
  exists newTags, t'. split; [exact G|].
  unfold ThoughtTab.handleAddThought. rewrite N. cbn [negb].
  unfold_handler. unfold randomUUID, Date_now. cbn [fst snd content].
  rewrite G. cbn [fst snd]. rewrite <- !app_assoc. reflexivity.
Qed.

(** X20: adding a thought always completes.  A blank input changes
    nothing.  Otherwise the input is cleared and the thought list is set
    to the rendered list with the new thought in front, whatever the
    list holds by then; the new thought has the input as typed, a fresh
    id and the time of the click, and ends with the labels the tagging
    returned; the trace ends where the tagging ended, so the handler's
    own failure branch, its log line and its generic label, never runs;
    when no rendered thought has the fresh id, the rendered thoughts are
    kept whole. *)
Theorem handleAddThought_completes env thoughts globalSettings inputValue t us :
  exists t' us',
    ThoughtTab.handleAddThought env thoughts globalSettings inputValue (t, us)
    = (Fulfilled tt, (t', us ++ us'))
    /\ if nonempty (trim inputValue) then
         let tempId := uuid_at env t in
         exists newTags,
           generateTagsForThought env inputValue (customApiKey globalSettings)
             (option_map AiProvider_value (aiProvider globalSettings))
             ((t ++ [RandomUUID]) ++ [DateNow])
           = (Fulfilled newTags, t')
           /\ In (SetInputValue []) us'
           /\ (forall cur,
                 apply_thoughts cur us'
                 = {| id := tempId; content := inputValue; tags := newTags;
                      createdAt := clock_at env (t ++ [RandomUUID]) |}
                   :: retag tempId newTags thoughts)
           /\ (~ In tempId (map id thoughts) -> retag tempId newTags thoughts = thoughts)
       else t' = t /\ us' = [].
Proof.
  destruct (nonempty (trim inputValue)) eqn:N.
  - destruct (handleAddThought_run env thoughts globalSettings inputValue t us N)
      as (newTags & t' & G & H).
    eexists. eexists. split; [exact H|]. exists newTags.
    split; [exact G|]. split; [right; left; reflexivity|]. split.
    + intros cur. cbn [apply_thoughts fold_left]. unfold retag at 1. cbn [map id].
      assert (E : JS.eqb (uuid_at env t) (uuid_at env t) = true) by now apply eqb_eq.
      rewrite E. reflexivity.
    + apply retag_absent.
  - exists t, []. unfold ThoughtTab.handleAddThought. rewrite N. cbn [negb].
    unfold hret. rewrite app_nil_r. repeat split.
Qed.


Lemma handleAddThought_completes_witness :
  ~ In (uuid_at (stub studio unavailable) []) (map id (thoughts sample_props))
  /\ exists t' us',
       ThoughtTab.handleAddThought (stub studio unavailable) (thoughts sample_props)
         (globalSettings sample_props) (utf16 "basil on everything") ([], [])
       = (Fulfilled tt, (t', [] ++ us')).
Proof.
  split.
  - vm_compute. intros H. repeat (destruct H as [H|H]; [discriminate H|]). exact H.
  - destruct (handleAddThought_completes (stub studio unavailable) (thoughts sample_props)
                (globalSettings sample_props) (utf16 "basil on everything") [] [])
      as (t' & us' & H & _).
    exists t', us'. exact H.
Defined.

Lemma filter_twice {A} (f : A -> bool) (l : list A) :
  filter f (filter f l) = filter f l.
Proof.
  induction l as [|a r IH]; [reflexivity|]. cbn [filter].
  destruct (f a) eqn:E; cbn [filter]; rewrite ?E, IH; reflexivity.
Qed.

Lemma toggleSelection_run selectedIds i t us :
  ThoughtTab.toggleSelection selectedIds i (t, us)
  = (Fulfilled tt,
     (t, us ++ [SetSelectedIds
                  (if includes selectedIds i
                   then filter (fun sid => negb (JS.eqb sid i)) selectedIds
                   else selectedIds ++ [i])])).
Proof.
  unfold ThoughtTab.toggleSelection. destruct (includes selectedIds i); reflexivity.
Qed.

(** X21: toggling an id flips its membership in the selection and no
    other: the id is selected afterwards exactly when it was not before,
    every other id exactly when it was; the ids kept stay in order, a
    selection without repetition stays so, and nothing is added to the
    trace. *)
Theorem toggleSelection_flips selectedIds i t us :
  exists after,
    ThoughtTab.toggleSelection selectedIds i (t, us)
    = (Fulfilled tt, (t, us ++ [SetSelectedIds after]))
    /\ (In i after <-> ~ In i selectedIds)
    /\ (forall x, x <> i -> (In x after <-> In x selectedIds))
    /\ filter (fun sid => negb (JS.eqb sid i)) after
       = filter (fun sid => negb (JS.eqb sid i)) selectedIds
    /\ (NoDup selectedIds -> NoDup after).
Proof.
  eexists. split; [apply toggleSelection_run|].
  destruct (includes selectedIds i) eqn:I.
  - apply includes_In in I. split; [|split; [|split]].
    + rewrite without_In. split; [intros [_ N]; congruence|intros N; contradiction].
    + intros x N. rewrite without_In. tauto.
    + apply filter_twice.
    + intros D. apply NoDup_filter. exact D.
  - assert (N : ~ In i selectedIds).
    { intros H. apply includes_In in H. congruence. }
    split; [|split; [|split]].
    + rewrite in_app_iff. cbn. tauto.
    + intros x Nx. rewrite in_app_iff. cbn. split; [intros [H|[H|[]]]|]; try tauto.
      congruence.
    + rewrite filter_app. cbn [filter].
      assert (E : JS.eqb i i = true) by now apply eqb_eq.
      rewrite E. cbn [negb]. apply app_nil_r.
    + intros D. apply NoDup_app; [exact D|repeat constructor; intros []|].
      intros x Hx [<-|[]]. contradiction.
Qed.

Lemma toggleSelection_flips_witness :
  NoDup [utf16 "t1"; utf16 "t2"]
  /\ exists after,
       ThoughtTab.toggleSelection [utf16 "t1"; utf16 "t2"] (utf16 "t1") ([], [])
       = (Fulfilled tt, ([], [] ++ [SetSelectedIds after]))
       /\ NoDup after.
Proof.
  assert (D : NoDup [utf16 "t1"; utf16 "t2"]).
  { vm_compute. repeat constructor; cbn; intros H;
      repeat (destruct H as [H|H]; [discriminate H|]); exact H. }
  split; [exact D|].
  destruct (toggleSelection_flips [utf16 "t1"; utf16 "t2"] (utf16 "t1") [] [])
    as (after & H & _ & _ & _ & K).
  exists after. split; [exact H|exact (K D)].
Defined.

(** X22: deleting a thought removes every thought with that id from
    the rendered list and the id from the rendered selection, and keeps
    everything else in order; it adds nothing to the trace. *)
Theorem deleteThought_removes thoughts selectedIds i t us :
  exists left chosen,
    ThoughtTab.deleteThought thoughts selectedIds i (t, us)
    = (Fulfilled tt, (t, us ++ [SetThoughts left; SetSelectedIds chosen]))
    /\ ~ In i (map id left)
    /\ ~ In i chosen
    /\ (forall th, id th <> i -> (In th left <-> In th thoughts))
    /\ (forall x, x <> i -> (In x chosen <-> In x selectedIds))
    /\ (List.length left <= List.length thoughts)%nat.
Proof.
  eexists. eexists. split.
  { unfold ThoughtTab.deleteThought. unfold_handler. cbn [fst snd].
    rewrite <- app_assoc. reflexivity. }
  split; [|split; [|split; [|split]]].
  - rewrite in_map_iff. intros (th & E & I). apply filter_In in I.
    destruct I as [_ I]. apply negb_true_iff, eqb_neq in I. contradiction.
  - rewrite without_In. tauto.
  - intros th N. rewrite filter_In, negb_true_iff, eqb_neq. tauto.
  - intros x N. rewrite without_In. tauto.
  - apply filter_length_le.
Qed.

(** X23: the selection names rendered thoughts, and every handler of
    the thought tab keeps it so: adding a thought, whatever the tagging
    answers; toggling the id of a rendered thought; deleting any id. *)
Theorem selection_names_thoughts env thoughts selectedIds globalSettings :
  incl selectedIds (map id thoughts) ->
  let valid us :=
    incl (apply_selected selectedIds us) (map id (apply_thoughts thoughts us)) in
  (forall inputValue t,
     valid (snd (snd (ThoughtTab.handleAddThought env thoughts globalSettings inputValue
                        (t, [])))))
  /\ (forall i t,
        In i (map id thoughts) ->
        valid (snd (snd (ThoughtTab.toggleSelection selectedIds i (t, [])))))
  /\ (forall i t,
        valid (snd (snd (ThoughtTab.deleteThought thoughts selectedIds i (t, []))))).
Proof.
  intros S valid. subst valid. cbn beta. split; [|split].
  - intros inputValue t. destruct (nonempty (trim inputValue)) eqn:N.
    + destruct (handleAddThought_run env thoughts globalSettings inputValue t [] N)
        as (newTags & t' & _ & H).
      rewrite H. cbn [fst snd app apply_selected apply_thoughts fold_left].
      rewrite retag_ids. cbn [map id]. intros x I. right. apply S, I.
    + unfold ThoughtTab.handleAddThought. rewrite N. cbn. exact S.
  - intros i t I. rewrite toggleSelection_run.
    cbn [fst snd app apply_selected apply_thoughts fold_left].
    destruct (includes selectedIds i).
    + intros x Hx. apply without_In in Hx. apply S, Hx.
    + intros x Hx. apply in_app_iff in Hx. destruct Hx as [Hx|[<-|[]]];
        [apply S, Hx|exact I].
  - intros i t. unfold ThoughtTab.deleteThought. unfold_handler.
    cbn [fst snd app apply_selected apply_thoughts fold_left].
    intros x I. apply without_In in I. destruct I as [I N].
    apply S, in_map_iff in I. destruct I as (th & E & I).
    apply in_map_iff. exists th. split; [exact E|].
    apply filter_In. split; [exact I|]. apply negb_true_iff, eqb_neq. congruence.
Qed.

Lemma selection_names_thoughts_witness :
  incl (apply_selected (prop_selectedThoughtIds sample_props)
          (snd (snd (ThoughtTab.deleteThought (thoughts sample_props)
                       (prop_selectedThoughtIds sample_props) (utf16 "t1") ([], [])))))
       (map id (apply_thoughts (thoughts sample_props)
          (snd (snd (ThoughtTab.deleteThought (thoughts sample_props)
                       (prop_selectedThoughtIds sample_props) (utf16 "t1") ([], [])))))).
Proof.
  assert (S : incl (prop_selectedThoughtIds sample_props) (map id (thoughts sample_props))).
  { vm_compute. intros x H. exact H. }
  exact (proj2 (proj2 (selection_names_thoughts (stub studio unavailable)
                         (thoughts sample_props) (prop_selectedThoughtIds sample_props)
                         (globalSettings sample_props) S))
           (utf16 "t1") []).
Defined.

(* ================================================================== *)
(** ** The settings tab *)
(* ================================================================== *)

Lemma or_else_field a b : or_else (Some (or_else a [])) b = or_else a b.
Proof. unfold or_else. destruct a as [[|c s]|]; reflexivity. Qed.

(** The configuration of a generation with other settings. *)
Lemma copyUserPrompt_settings config config' thoughts baseContent :
  niche (settings config') = niche (settings config) ->
  styleDescription (settings config') = styleDescription (settings config) ->
  platform config' = platform config ->
  refUrl config' = refUrl config ->
  selectedThoughtIds config' = selectedThoughtIds config ->
  copyUserPrompt config' thoughts baseContent = copyUserPrompt config thoughts baseContent.
Proof.
  intros N S P R I.
  unfold copyUserPrompt, copyPromptHead, copyPromptTail, contentSource, targetLanguage,
    formatDesc, isEnglishPlatform.
  rewrite N, S, P, R, I. reflexivity.
Qed.

(** X24: saving the description keeps niche, key and provider and
    stores the edited description; saving the provider settings keeps
    niche and description, stores the key field as typed and leaves a
    provider chosen: the one that was, and [gemini] when none was, which
    is the provider name the services fall back on.  Each is one update
    and one alert, and both always complete. *)
Theorem settings_saved env settings tempDescription tempApiKey t us cur :
  (exists saved,
     SettingsTab.handleSaveDescription settings tempDescription (t, us)
     = (Fulfilled tt, (t ++ [Alert (utf16 "风格描述已保存")], us ++ [SetSettings saved]))
     /\ apply_settings cur [SetSettings saved] = saved
     /\ styleDescription saved = tempDescription
     /\ niche saved = niche settings
     /\ customApiKey saved = customApiKey settings
     /\ aiProvider saved = aiProvider settings)
  /\ (exists saved,
        SettingsTab.handleSaveAiConfig settings tempApiKey (t, us)
        = (Fulfilled tt, (t ++ [Alert (utf16 "AI配置已保存")], us ++ [SetSettings saved]))
        /\ apply_settings cur [SetSettings saved] = saved
        /\ styleDescription saved = styleDescription settings
        /\ niche saved = niche settings
        /\ customApiKey saved = Some tempApiKey
        /\ aiProvider saved <> None
        /\ (aiProvider settings <> None -> aiProvider saved = aiProvider settings)
        /\ apiKey (getGeminiClient env (customApiKey saved))
           = or_else (Some tempApiKey) (or_else (API_KEY env) [])
        /\ (aiProvider settings = None -> aiProvider saved = Some gemini)
        /\ option_map AiProvider_value (aiProvider saved)
           = Some (or_else (option_map AiProvider_value (aiProvider settings))
                     (utf16 "gemini"))).
Proof.
  split; eexists; (split; [reflexivity|]); repeat split; cbn [aiProvider].
  - destruct (aiProvider settings); discriminate.
  - destruct (aiProvider settings); [reflexivity|congruence].
  - intros N. rewrite N. reflexivity.
  - destruct (aiProvider settings) as [[]|]; vm_compute; reflexivity.
Qed.

Lemma settings_saved_witness :
  (exists saved,
     SettingsTab.handleSaveAiConfig (globalSettings deepseek_props) (utf16 "key-2") ([], [])
     = (Fulfilled tt, ([] ++ [Alert (utf16 "AI配置已保存")], [] ++ [SetSettings saved]))
     /\ aiProvider saved = aiProvider (globalSettings deepseek_props))
  /\ (exists saved,
        SettingsTab.handleSaveAiConfig (globalSettings sample_props) (utf16 "key-2") ([], [])
        = (Fulfilled tt, ([] ++ [Alert (utf16 "AI配置已保存")], [] ++ [SetSettings saved]))
        /\ aiProvider saved = Some gemini).
Proof.
  split.
  - destruct (proj2 (settings_saved (stub studio unavailable) (globalSettings deepseek_props)
                       [] (utf16 "key-2") [] [] (globalSettings deepseek_props)))
      as (saved & H & _ & _ & _ & _ & _ & K & _).
    exists saved. split; [exact H|]. apply K. vm_compute. discriminate.
  - destruct (proj2 (settings_saved (stub studio unavailable) (globalSettings sample_props)
                       [] (utf16 "key-2") [] [] (globalSettings sample_props)))
      as (saved & H & _ & _ & _ & _ & _ & _ & _ & D & _).
    exists saved. split; [exact H|]. apply D. reflexivity.
Defined.

(** X25: saving the provider settings with the key field as it was
    filled in from the settings changes nothing the services do: the
    copy step of a generation, the tagging of a thought and the audit run
    the same with the saved settings as with the ones before, though the saved
    key may be the empty string where none was stored and the saved
    provider the primary one where none was chosen. *)
Theorem saveAiConfig_untouched_is_neutral env stored tempApiKey t us :
  tempApiKey = or_else (customApiKey stored) [] ->
  exists saved,
    SettingsTab.handleSaveAiConfig stored tempApiKey (t, us)
    = (Fulfilled tt, (t ++ [Alert (utf16 "AI配置已保存")], us ++ [SetSettings saved]))
    /\ (forall config thoughts baseContent t0,
          stored = settings config ->
          generateViralCopy env
            {| settings := saved; platform := platform config;
               refUrl := refUrl config;
               selectedThoughtIds := selectedThoughtIds config;
               styleMode := styleMode config; withImage := withImage config |}
            thoughts baseContent t0
          = generateViralCopy env config thoughts baseContent t0)
    /\ (forall thoughtContent t0,
          generateTagsForThought env thoughtContent (customApiKey saved)
            (option_map AiProvider_value (aiProvider saved)) t0
          = generateTagsForThought env thoughtContent (customApiKey stored)
              (option_map AiProvider_value (aiProvider stored)) t0)
    /\ (forall content platform t0,
          auditCopyContent env content platform (customApiKey saved) t0
          = auditCopyContent env content platform (customApiKey stored) t0).
Proof.
  intros K. eexists. split; [reflexivity|]. split; [|split].
  - intros config thoughts baseContent t0 ->.
    unfold generateViralCopy. cbn zeta. cbn [settings customApiKey aiProvider].
    rewrite (copyUserPrompt_settings config _ thoughts baseContent)
      by reflexivity.
    unfold getGeminiClient, generateText. cbn zeta.
    cbn [opt_customApiKey opt_aiProvider opt_thinkingBudget].
    rewrite K, or_else_field.
    destruct (aiProvider (settings config)) as [[]|]; reflexivity.
  - intros thoughtContent t0. cbn [customApiKey aiProvider].
    unfold generateTagsForThought, generateText. cbn zeta.
    cbn [opt_customApiKey opt_aiProvider opt_thinkingBudget].
    rewrite K, or_else_field.
    destruct (aiProvider stored) as [[]|]; reflexivity.
  - intros content platform t0. cbn [customApiKey].
    unfold auditCopyContent, getGeminiClient. cbn zeta.
    rewrite K, or_else_field. reflexivity.
Qed.

Lemma saveAiConfig_untouched_is_neutral_witness :
  exists saved,
    SettingsTab.handleSaveAiConfig (globalSettings sample_props) (utf16 "key-1") ([], [])
    = (Fulfilled tt, ([] ++ [Alert (utf16 "AI配置已保存")], [] ++ [SetSettings saved]))
    /\ generateTagsForThought (stub studio unavailable) (utf16 "pasta night")
         (customApiKey saved) (option_map AiProvider_value (aiProvider saved)) []
       = generateTagsForThought (stub studio unavailable) (utf16 "pasta night")
           (customApiKey (globalSettings sample_props))
           (option_map AiProvider_value (aiProvider (globalSettings sample_props))) [].
Proof.
  assert (K : utf16 "key-1" = or_else (customApiKey (globalSettings sample_props)) [])
    by (vm_compute; reflexivity).
  destruct (saveAiConfig_untouched_is_neutral (stub studio unavailable)
              (globalSettings sample_props) (utf16 "key-1") [] [] K)
    as (saved & H & _ & T & _).
  exists saved. split; [exact H|]. apply T.
Defined.

Lemma analyzeStyleFromText_run env exampleText customKey t :
  let key := apiKey (getGeminiClient env customKey) in
  let params :=
    {| model := utf16 "gemini-3-flash-preview";
       contents := ContentsText (analyzeStylePrompt exampleText);
       gen_config := None |} in
  analyzeStyleFromText env exampleText customKey t
  = (Fulfilled match gemini_reply env t key params with
               | Fulfilled r => or_else (text r) (utf16 "专业且客观的风格")
               | Rejected _ => utf16 "通用专业风格"
               end,
     t ++ [GenerateContent key params]).
Proof.
  cbn zeta. unfold analyzeStyleFromText. unfold_monad. cbn zeta.
  destruct (gemini_reply env t _ _); reflexivity.
Qed.

(** X26: the style analysis of the settings tab always completes.
    With no example it does nothing.  Otherwise it makes the one request
    of the analysis and nothing else shows in the trace: its failure alert
    is never raised, because the analysis answers a default instead of
    failing; the analyzing flag is off at the end, and the description
    field holds the text the analysis returned, never the empty string. *)
Theorem handleAnalyzeStyle_completes env settings styleExample t us :
  exists t' us',
    SettingsTab.handleAnalyzeStyle env settings styleExample (t, us)
    = (Fulfilled tt, (t', us ++ us'))
    /\ match styleExample with
       | [] => t' = t /\ us' = []
       | _ =>
         exists styleDesc,
           analyzeStyleFromText env styleExample (customApiKey settings) t
           = (Fulfilled styleDesc, t')
           /\ us' = [SetIsAnalyzing true; SetTempDescription styleDesc;
                     SetIsAnalyzing false]
           /\ styleDesc <> []
           /\ (forall b, apply_flag analyzing_of b us' = false)
           /\ exists request, t' = t ++ [request] /\ is_gemini request = true
       end.
Proof.
  unfold SettingsTab.handleAnalyzeStyle. destruct styleExample as [|c s].
  { exists t, []. cbn. rewrite app_nil_r. repeat split. }
  cbn [nonempty negb]. unfold_handler. cbn [fst snd].
  rewrite analyzeStyleFromText_run. cbn zeta. cbn [fst snd].
  eexists. eexists. split; [rewrite <- !app_assoc; reflexivity|].
  eexists. split; [reflexivity|]. split; [reflexivity|]. split.
  - destruct (gemini_reply env t _ _) as [r|e].
    + apply or_else_nonempty. vm_compute. discriminate.
    + vm_compute. discriminate.
  - split; [reflexivity|]. eexists. split; reflexivity.
Qed.
